(** * prepare_data_nnunet.py: conversion of paired image / mask slices
      into the nnU-Net raw dataset layout

    A shallow embedding of [src/prepare_data_nnunet.py].  Every function of
    the script is a definition of the same name in [Module Script]; the
    Python builtins and the operating system services it calls are modelled
    in [Module Py] and [Module OS].

    Conventions of the model.
    - A Python [str] is a Rocq [string]; a character is a code point below
      256, compared by its code point, as Python compares strings.
    - The file system is a finite map from resolved paths (lists of
      components) to nodes.  A path string is resolved by splitting it at
      ["/"] and dropping empty components; the working directory is the
      root, and there are no links and no ["."] / [".."] components.
    - The image library (SimpleITK) is a black box: a decoder and an
      encoder, both of which may fail, over an abstract type of images.
    - The order in which the system lists a directory is arbitrary: it is a
      parameter [scandir_order], some rearrangement of the entries.
    - Python exceptions are values of [exn]; a computation is a function
      from the state to a result (a value or a raised exception) and the
      state at that moment. *)

From Stdlib Require Import Ascii NArith Lia.
From Stdlib Require String DecimalString DecimalNat.
From stdpp Require Import base option list gmap strings sorting.

Local Open Scope stdpp_scope.

(** ** Python builtins on strings and numbers *)

Module Py.

(** [str.lower] on one code point below 256: the ASCII capitals and the
    capitals of the Latin-1 supplement (all of U+00C0..U+00DE but the
    multiplication sign U+00D7) move up by 32. *)
Definition lower_char (c : ascii) : ascii :=
  let n := N_of_ascii c in
  if ((65 <=? n) && (n <=? 90) ||
      (192 <=? n) && (n <=? 222) && negb (n =? 215))%N
  then ascii_of_N (n + 32) else c.

Fixpoint lower (s : string) : string :=
  match s with
  | EmptyString => EmptyString
  | String c s' => String (lower_char c) (lower s')
  end.

(** [s.startswith(p)] *)
Fixpoint startswith (s p : string) {struct p} : bool :=
  match p, s with
  | EmptyString, _ => true
  | String _ _, EmptyString => false
  | String c p', String d s' => if Ascii.eqb c d then startswith s' p' else false
  end.

(** [s.endswith(suffix)]: some tail of [s] is [suffix]. *)
Fixpoint endswith (s suffix : string) : bool :=
  if String.eqb s suffix then true
  else match s with
       | EmptyString => false
       | String _ s' => endswith s' suffix
       end.

(** [sorted(l)] on a list of strings.  Python compares strings
    lexicographically on code points, which is the order [String.le]. *)
Definition sorted (l : list string) : list string := merge_sort String.le l.

(** [str(n)] and the [d] presentation type, for a natural number. *)
Definition str (n : nat) : string :=
  DecimalString.NilEmpty.string_of_uint (Nat.to_uint n).

Fixpoint zeros (k : nat) : string :=
  match k with
  | O => EmptyString
  | S k' => String "0" (zeros k')
  end.

(** The format specification [0<w>d]: decimal digits, filled with zeros on
    the left up to the width [w]; longer numbers are left as they are. *)
Definition format_0d (w n : nat) : string :=
  let s := str n in zeros (w - String.length s) +:+ s.

(** [os.path.join(a, b)] of [posixpath]. *)
Definition os_path_join (a b : string) : string :=
  if startswith b "/" then b
  else if String.eqb a "" || endswith a "/" then a +:+ b
  else a +:+ "/" +:+ b.

(** [enumerate(l)] counting from [start]. *)
Fixpoint enumerate_from {A} (start : nat) (l : list A) : list (nat * A) :=
  match l with
  | [] => []
  | x :: l' => (start, x) :: enumerate_from (S start) l'
  end.

Definition enumerate {A} (l : list A) : list (nat * A) := enumerate_from 0 l.

End Py.


(** ** The dataset manifest and the file system *)

(** One entry of the manifest's ["training"] list. *)
Record training_entry := { image : string; label : string }.

(** The dictionary [dataset_json].  The two maps are dictionaries with
    string keys, kept as association lists in insertion order. *)
Record manifest := {
  name : string;
  description : string;
  reference : string;
  licence : string;
  release : string;
  tensorImageSize : string;
  modality : list (string * string);
  labels : list (string * string);
  task : string;
  numTraining : nat;
  numTest : nat;
  training : list training_entry;
  test : list training_entry
}.

(** What a file holds: the JSON document that [json.dump] wrote for a
    manifest, or any other bytes. *)
Inductive content :=
  | Json (doc : manifest)
  | Bytes (data : string).

Inductive node :=
  | File (c : content)
  | Dir.

(** The exceptions the script and its collaborators raise. *)
Inductive exn :=
  | FileNotFoundError (msg : string)
  | FileExistsError (path : string)
  | NotADirectoryError (path : string)
  | IsADirectoryError (path : string)
  | ValueError (msg : string)
  | KeyError (key : string)
  | RuntimeError (msg : string)
  | SystemError (msg : string).

Inductive result (A : Type) :=
  | Return (a : A)
  | Raise (e : exn).
Arguments Return {A} a.
Arguments Raise {A} e.

(** The state of a run: the disk, the heap of manifest dictionaries (a
    reference is an index into it), and the lines printed so far. *)
Record state := {
  disk : gmap (list string) node;
  heap : list manifest;
  stdout : list string
}.

Definition set_disk (d : gmap (list string) node) (s : state) : state :=
  {| disk := d; heap := heap s; stdout := stdout s |}.
Definition set_heap (h : list manifest) (s : state) : state :=
  {| disk := disk s; heap := h; stdout := stdout s |}.
Definition set_stdout (o : list string) (s : state) : state :=
  {| disk := disk s; heap := heap s; stdout := o |}.

(** Computations: state passing with exceptions.  The state returned with
    [Raise e] is the state at the moment [e] was raised. *)
Definition M (A : Type) : Type := state -> result A * state.

Definition ret {A} (a : A) : M A := fun s => (Return a, s).
Definition raise {A} (e : exn) : M A := fun s => (Raise e, s).
Definition bind {A B} (m : M A) (k : A -> M B) : M B :=
  fun s => match m s with
           | (Return a, s') => k a s'
           | (Raise e, s') => (Raise e, s')
           end.

(** What a computation started in [s] returns or raises, and the state it
    leaves. *)
Definition outcome {A} (m : M A) (s : state) : result A := fst (m s).
Definition after {A} (m : M A) (s : state) : state := snd (m s).

Notation "x <- m ;; k" := (bind m (fun x => k))
  (at level 100, m at next level, right associativity).
Notation "m ;;; k" := (bind m (fun _ => k))
  (at level 100, right associativity).

(** [for x in l: body(x)] *)
Fixpoint for_each {A} (l : list A) (body : A -> M unit) : M unit :=
  match l with
  | [] => ret tt
  | x :: l' => body x ;;; for_each l' body
  end.

(** The collaborators that are not part of the script: the image library
    and the order in which a directory is listed. *)
Class Platform := {
  Image : Type;
  (** parse the bytes of the file at a path into an image *)
  sitk_decode : string -> content -> option Image;
  (** produce the file for an image, in the format the path's name asks for *)
  sitk_encode : string -> Image -> option content;
  (** the order of the entries of a directory, as the system returns them *)
  scandir_order : string -> list string -> list string
}.

(** ** Operating system and library services *)

Module OS.

(** Resolution of a path string: its components. *)
Fixpoint split_path (cur s : string) : list string :=
  match s with
  | EmptyString => if String.eqb cur "" then [] else [cur]
  | String c s' =>
      if Ascii.eqb c "/"
      then (if String.eqb cur "" then [] else [cur]) ++ split_path "" s'
      else split_path (cur +:+ String c "") s'
  end.

Definition resolve (p : string) : list string := split_path "" p.

Definition parent (k : list string) : list string := take (length k - 1) k.

(** The root always exists and is a directory. *)
Definition is_dir (d : gmap (list string) node) (k : list string) : bool :=
  match k with
  | [] => true
  | _ => match d !! k with Some Dir => true | _ => false end
  end.

Fixpoint strip_prefix (d k : list string) : option (list string) :=
  match d, k with
  | [], _ => Some k
  | _ :: _, [] => None
  | x :: d', y :: k' => if String.eqb x y then strip_prefix d' k' else None
  end.

Definition child_of (d k : list string) : option string :=
  match strip_prefix d k with
  | Some [n] => Some n
  | _ => None
  end.

(** The names of the entries of the directory at [k]. *)
Definition children (d : gmap (list string) node) (k : list string) : list string :=
  omap (fun kv => child_of k (fst kv)) (map_to_list d).

(** [os.path.isdir(path)] *)
Definition os_path_isdir (path : string) : M bool :=
  fun s => (Return (negb (String.eqb path "") && is_dir (disk s) (resolve path)), s).

(** [os.listdir(path)] *)
Definition os_listdir `{P : Platform} (path : string) : M (list string) :=
  fun s =>
    let k := resolve path in
    if String.eqb path "" then (Raise (FileNotFoundError path), s)
    else if is_dir (disk s) k
    then (Return (scandir_order path (children (disk s) k)), s)
    else match disk s !! k with
         | Some _ => (Raise (NotADirectoryError path), s)
         | None => (Raise (FileNotFoundError path), s)
         end.

(** The directories of [os.makedirs(name, exist_ok=True)], from the
    outermost one: an existing directory is accepted, a missing one is
    created, a file in the way is an error. *)
Fixpoint mkdir_p (name : string) (made todo : list string)
    (d : gmap (list string) node) : option exn * gmap (list string) node :=
  match todo with
  | [] => (None, d)
  | c :: todo' =>
      let k := made ++ [c] in
      match d !! k with
      | Some Dir => mkdir_p name k todo' d
      | Some (File _) =>
          (Some (match todo' with
                 | [] => FileExistsError name
                 | _ => NotADirectoryError name
                 end), d)
      | None => mkdir_p name k todo' (<[k := Dir]> d)
      end
  end.

(** [os.makedirs(name, exist_ok=True)] *)
Definition os_makedirs (name : string) : M unit :=
  fun s =>
    if String.eqb name "" then (Raise (FileNotFoundError name), s)
    else match mkdir_p name [] (resolve name) (disk s) with
         | (None, d) => (Return tt, set_disk d s)
         | (Some e, d) => (Raise e, set_disk d s)
         end.

(** Creating or replacing the file at [path] with the content [c], as
    [open(path, 'w')] followed by the writes and the close do. *)
Definition write_file (path : string) (c : content) : M unit :=
  fun s =>
    let k := resolve path in
    if String.eqb path "" then (Raise (FileNotFoundError path), s)
    else if is_dir (disk s) k then (Raise (IsADirectoryError path), s)
    else if is_dir (disk s) (parent k)
    then (Return tt, set_disk (<[k := File c]> (disk s)) s)
    else match disk s !! parent k with
         | Some _ => (Raise (NotADirectoryError path), s)
         | None => (Raise (FileNotFoundError path), s)
         end.

(** [sitk.ReadImage(path)]: every failure is a [RuntimeError]. *)
Definition sitk_ReadImage `{P : Platform} (path : string) : M Image :=
  fun s =>
    match disk s !! resolve path with
    | Some (File c) =>
        match sitk_decode path c with
        | Some img => (Return img, s)
        | None => (Raise (RuntimeError path), s)
        end
    | _ => (Raise (RuntimeError path), s)
    end.

(** [sitk.WriteImage(img, path)]: every failure is a [RuntimeError]. *)
Definition sitk_WriteImage `{P : Platform} (img : Image) (path : string) : M unit :=
  fun s =>
    match sitk_encode path img with
    | None => (Raise (RuntimeError path), s)
    | Some c =>
        match write_file path c s with
        | (Return _, s') => (Return tt, s')
        | (Raise _, s') => (Raise (RuntimeError path), s')
        end
    end.

(** [print(line)] *)
Definition print (line : string) : M unit :=
  fun s => (Return tt, set_stdout (stdout s ++ [line]) s).

(** A new dictionary on the heap; the result is the reference to it. *)
Definition new_dict (m : manifest) : M nat :=
  fun s => (Return (length (heap s)), set_heap (heap s ++ [m]) s).

(** The dictionary behind a reference. *)
Definition deref (r : nat) : M manifest :=
  fun s => match heap s !! r with
           | Some m => (Return m, s)
           | None => (Raise (SystemError "dangling reference"), s)
           end.

(** An update in place of the dictionary behind a reference. *)
Definition update (r : nat) (f : manifest -> manifest) : M unit :=
  fun s => match heap s !! r with
           | Some m => (Return tt, set_heap (<[r := f m]> (heap s)) s)
           | None => (Raise (SystemError "dangling reference"), s)
           end.

(** [with open(path, 'w') as f: json.dump(obj, f, indent=4)] for the
    dictionary behind [r]: the whole document is written anew. *)
Definition json_dump_to (r : nat) (path : string) : M unit :=
  doc <- deref r ;;
  write_file path (Json doc).

(** [d[key]] for a dictionary with string keys. *)
Fixpoint getitem (d : list (string * string)) (key : string) : M string :=
  match d with
  | [] => raise (KeyError key)
  | (k, v) :: d' => if String.eqb k key then ret v else getitem d' key
  end.

End OS.

(** ** The script *)

Module Script.
Import OS.

Section Script.
Context `{P : Platform}.

(** [create_dataset_json(output_dir, modality_names, labels, dataset_name)] *)
Definition create_dataset_json (output_dir : string) (modality_names : list string)
    (labels : list (string * string)) (dataset_name : string) : M nat :=
  dataset_json <- new_dict {|
    name := "ROI Dataset";
    description := "Converted ROI segmentation dataset";
    reference := "None";
    licence := "None";
    release := "1.0";
    tensorImageSize := "4D";
    modality := (fun im => (Py.str (fst im), snd im)) <$> Py.enumerate modality_names;
    labels := labels;
    task := dataset_name;
    numTraining := 0;
    numTest := 0;
    training := [];
    test := []
  |} ;;
  json_dump_to dataset_json (Py.os_path_join output_dir "dataset.json") ;;;
  ret dataset_json.

(** [setup_directories(base_dir)] *)
Definition setup_directories (base_dir : string) : M (list (string * string)) :=
  let dirs := [
    ("imagesTr", Py.os_path_join base_dir "imagesTr");
    ("labelsTr", Py.os_path_join base_dir "labelsTr");
    ("imagesTs", Py.os_path_join base_dir "imagesTs")
  ] in
  for_each (snd <$> dirs) (fun dir_path => os_makedirs dir_path) ;;;
  ret dirs.

(** [get_file_list(directory, extension)] *)
Definition get_file_list (directory extension : string) : M (list string) :=
  isdir <- os_path_isdir directory ;;
  if negb isdir
  then raise (FileNotFoundError ("Directory not found: " +:+ directory))
  else
    names <- os_listdir directory ;;
    ret (Py.sorted
           (filter (fun f => Py.endswith (Py.lower f) (Py.lower extension) = true)
                   names)).

(** [convert_tif_to_nifti(tif_path, output_path)] *)
Definition convert_tif_to_nifti (tif_path output_path : string) : M string :=
  img <- sitk_ReadImage tif_path ;;
  sitk_WriteImage img output_path ;;;
  ret output_path.

(** The dictionary [dataset_json] after
    [dataset_json['training'].append(entry)]. *)
Definition append_training (entry : training_entry) (m : manifest) : manifest :=
  {| name := name m; description := description m; reference := reference m;
     licence := licence m; release := release m;
     tensorImageSize := tensorImageSize m;
     modality := modality m; labels := labels m; task := task m;
     numTraining := numTraining m; numTest := numTest m;
     training := training m ++ [entry];
     test := test m |}.

(** The dictionary [dataset_json] after [dataset_json['numTraining'] = n]. *)
Definition set_numTraining (n : nat) (m : manifest) : manifest :=
  {| name := name m; description := description m; reference := reference m;
     licence := licence m; release := release m;
     tensorImageSize := tensorImageSize m;
     modality := modality m; labels := labels m; task := task m;
     numTraining := n; numTest := numTest m;
     training := training m;
     test := test m |}.

(** The body of the loop of [convert_to_nnunet_format] for one position. *)
Definition convert_case (input_data_dir input_mask_dir : string)
    (dirs : list (string * string)) (dataset_json : nat)
    (item : nat * (string * string)) : M unit :=
  let idx := fst item in
  let data_file := fst (snd item) in
  let mask_file := snd (snd item) in
  let case_id := "case_" +:+ Py.format_0d 4 idx in
  let src_data_path := Py.os_path_join input_data_dir data_file in
  imagesTr <- getitem dirs "imagesTr" ;;
  let dst_data_path := Py.os_path_join imagesTr (case_id +:+ "_0000.nii.gz") in
  let src_mask_path := Py.os_path_join input_mask_dir mask_file in
  labelsTr <- getitem dirs "labelsTr" ;;
  let dst_mask_path := Py.os_path_join labelsTr (case_id +:+ ".nii.gz") in
  convert_tif_to_nifti src_data_path dst_data_path ;;;
  convert_tif_to_nifti src_mask_path dst_mask_path ;;;
  update dataset_json (append_training {|
    image := "./imagesTr/" +:+ case_id +:+ "_0000.nii.gz";
    label := "./labelsTr/" +:+ case_id +:+ ".nii.gz" |}).

(** [convert_to_nnunet_format(input_data_dir, input_mask_dir,
    output_base_dir, dataset_name)].  The progress bar of [tqdm] has no
    effect on the state modelled here. *)
Definition convert_to_nnunet_format (input_data_dir input_mask_dir
    output_base_dir dataset_name : string) : M unit :=
  let dataset_dir := Py.os_path_join output_base_dir dataset_name in
  os_makedirs dataset_dir ;;;
  dirs <- setup_directories dataset_dir ;;
  let modality_names := ["CT"] in
  let labels := [("0", "background"); ("1", "roi")] in
  dataset_json <- create_dataset_json dataset_dir modality_names labels dataset_name ;;
  data_files <- get_file_list input_data_dir ".tif" ;;
  mask_files <- get_file_list input_mask_dir ".tif" ;;
  if negb (length data_files =? length mask_files)
  then raise (ValueError ("Number of images (" +:+ Py.str (length data_files)
                          +:+ ") and masks (" +:+ Py.str (length mask_files)
                          +:+ ") do not match."))
  else
    for_each (Py.enumerate (zip data_files mask_files))
             (convert_case input_data_dir input_mask_dir dirs dataset_json) ;;;
    update dataset_json (set_numTraining (length data_files)) ;;;
    json_dump_to dataset_json (Py.os_path_join dataset_dir "dataset.json") ;;;
    print ("Dataset converted successfully to: " +:+ dataset_dir) ;;;
    print ("Total training cases: " +:+ Py.str (length data_files)).

(** The default of the parameter [dataset_name]. *)
Definition default_dataset_name : string := "Task001_ROISegmentation".

End Script.
End Script.

(** ** Vocabulary of the statements *)

Module Layout.
Import OS Script.

(** A name of a directory entry: not empty, no separator. *)
Fixpoint no_slash (s : string) : bool :=
  match s with
  | EmptyString => true
  | String c s' => negb (Ascii.eqb c "/") && no_slash s'
  end.

Definition simple_name (n : string) : bool :=
  negb (String.eqb n "") && no_slash n.

(** The paths of a run, as [convert_to_nnunet_format] computes them. *)
Definition dataset_dir (output_base_dir dataset_name : string) : string :=
  Py.os_path_join output_base_dir dataset_name.

Definition dirs_of (dataset_dir : string) : list (string * string) :=
  [ ("imagesTr", Py.os_path_join dataset_dir "imagesTr");
    ("labelsTr", Py.os_path_join dataset_dir "labelsTr");
    ("imagesTs", Py.os_path_join dataset_dir "imagesTs") ].

Definition json_path (dataset_dir : string) : string :=
  Py.os_path_join dataset_dir "dataset.json".

Definition case_id (idx : nat) : string := "case_" +:+ Py.format_0d 4 idx.

Definition dst_data_path (dataset_dir : string) (idx : nat) : string :=
  Py.os_path_join (Py.os_path_join dataset_dir "imagesTr")
                  (case_id idx +:+ "_0000.nii.gz").

Definition dst_mask_path (dataset_dir : string) (idx : nat) : string :=
  Py.os_path_join (Py.os_path_join dataset_dir "labelsTr")
                  (case_id idx +:+ ".nii.gz").

(** The training entry of the case at position [idx]. *)
Definition entry_of (idx : nat) : training_entry :=
  {| image := "./imagesTr/" +:+ case_id idx +:+ "_0000.nii.gz";
     label := "./labelsTr/" +:+ case_id idx +:+ ".nii.gz" |}.

(** The manifest of a dataset of [n] cases; with [n = 0] it is the skeleton
    that [create_dataset_json] builds. *)
Definition manifest_of (dataset_name : string) (n : nat) : manifest :=
  {| name := "ROI Dataset";
     description := "Converted ROI segmentation dataset";
     reference := "None";
     licence := "None";
     release := "1.0";
     tensorImageSize := "4D";
     modality := [("0", "CT")];
     labels := [("0", "background"); ("1", "roi")];
     task := dataset_name;
     numTraining := n;
     numTest := 0;
     training := entry_of <$> seq 0 n;
     test := [] |}.

(** A manifest with another ["task"] field. *)
Definition set_task (t : string) (m : manifest) : manifest :=
  {| name := name m; description := description m; reference := reference m;
     licence := licence m; release := release m;
     tensorImageSize := tensorImageSize m;
     modality := modality m; labels := labels m; task := t;
     numTraining := numTraining m; numTest := numTest m;
     training := training m; test := test m |}.

(** The manifest in memory after [k] cases were appended and before the
    count is set. *)
Definition manifest_in_progress (dataset_name : string) (k : nat) : manifest :=
  set_numTraining 0 (manifest_of dataset_name k).

Section Phases.
Context `{P : Platform}.

(** The first statements of [convert_to_nnunet_format], up to and
    including the call of [create_dataset_json]. *)
Definition provision (output_base_dir dataset_name : string)
    : M (list (string * string) * nat) :=
  let dataset_dir := Py.os_path_join output_base_dir dataset_name in
  os_makedirs dataset_dir ;;;
  dirs <- setup_directories dataset_dir ;;
  dataset_json <- create_dataset_json dataset_dir ["CT"]
                    [("0", "background"); ("1", "roi")] dataset_name ;;
  ret (dirs, dataset_json).

(** The loop of [convert_to_nnunet_format]. *)
Definition convert_all (input_data_dir input_mask_dir : string)
    (dirs : list (string * string)) (dataset_json : nat)
    (data_files mask_files : list string) : M unit :=
  for_each (Py.enumerate (zip data_files mask_files))
           (convert_case input_data_dir input_mask_dir dirs dataset_json).

(** The last statements of [convert_to_nnunet_format], after the loop. *)
Definition finalize (dataset_dir : string) (dataset_json n : nat) : M unit :=
  update dataset_json (set_numTraining n) ;;;
  json_dump_to dataset_json (Py.os_path_join dataset_dir "dataset.json") ;;;
  print ("Dataset converted successfully to: " +:+ dataset_dir) ;;;
  print ("Total training cases: " +:+ Py.str n).

(** The file at [dst] on the disk [d] is the conversion of the file at
    [src]: the encoding of the image decoded from the bytes read at [src].
    Those bytes are the ones [src] held on the disk [d1] of the start of
    the loop, provided [src] is not itself a destination of the loop. *)
Definition converted_file (dataset_dir src dst : string)
    (d1 d : gmap (list string) node) : Prop :=
  exists c0 img c,
    sitk_decode src c0 = Some img /\
    sitk_encode dst img = Some c /\
    d !! resolve dst = Some (File c) /\
    ((forall j, resolve src <> resolve (dst_data_path dataset_dir j) /\
                resolve src <> resolve (dst_mask_path dataset_dir j)) ->
     d1 !! resolve src = Some (File c0)).

(** The state after the first [k] positions of the loop, which started in
    the state [s1] with the heap [h0 ++ [skeleton]]: [k] entries in the
    manifest in memory, the first [k] pairs converted, nothing else
    changed on the disk, and every directory still a directory. *)
Definition loop_inv (input_data_dir input_mask_dir dataset_dir dataset_name : string)
    (data_files mask_files : list string) (h0 : list manifest) (s1 : state)
    (k : nat) (s : state) : Prop :=
  heap s = h0 ++ [manifest_in_progress dataset_name k] /\
  stdout s = stdout s1 /\
  (forall key,
     (forall j, j < k -> key <> resolve (dst_data_path dataset_dir j) /\
                         key <> resolve (dst_mask_path dataset_dir j)) ->
     disk s !! key = disk s1 !! key) /\
  (forall j data_file mask_file,
     j < k -> data_files !! j = Some data_file -> mask_files !! j = Some mask_file ->
     converted_file dataset_dir (Py.os_path_join input_data_dir data_file)
                    (dst_data_path dataset_dir j) (disk s1) (disk s) /\
     converted_file dataset_dir (Py.os_path_join input_mask_dir mask_file)
                    (dst_mask_path dataset_dir j) (disk s1) (disk s)) /\
  (forall key, disk s1 !! key = Some Dir -> disk s !! key = Some Dir).

End Phases.

(** The text of the count-mismatch error. *)
Definition mismatch_message (n_images n_masks : nat) : string :=
  "Number of images (" +:+ Py.str n_images +:+ ") and masks ("
    +:+ Py.str n_masks +:+ ") do not match.".

(** [d'] is [d] with, possibly, more directories: nothing else was added,
    nothing was changed or removed. *)
Definition grows (d d' : gmap (list string) node) : Prop :=
  (forall k v, d !! k = Some v -> d' !! k = Some v) /\
  (forall k v, d' !! k = Some v -> d !! k = Some v \/ (d !! k = None /\ v = Dir)).

(** Every component of every path on the disk is a name. *)
Definition wf_disk (d : gmap (list string) node) : bool :=
  forallb (fun kv => forallb simple_name (fst kv)) (map_to_list d).

(** The tree of the dataset is in place on the disk [d]: the dataset
    directory, its three subdirectories and every directory above them. *)
Definition tree_ready (dataset_dir : string) (d : gmap (list string) node) : Prop :=
  dataset_dir <> "" /\
  forall sub i,
    sub ∈ ["imagesTr"; "labelsTr"; "imagesTs"] ->
    0 < i <= S (length (OS.resolve dataset_dir)) ->
    d !! take i (OS.resolve dataset_dir ++ [sub]) = Some Dir.

(** The last character of a string. *)
Fixpoint last_char (s : string) : option ascii :=
  match s with
  | EmptyString => None
  | String c EmptyString => Some c
  | String _ s' => last_char s'
  end.

(** The same platform with another order of directory listings. *)
Definition with_order (P : Platform)
    (order : string -> list string -> list string) : Platform :=
  {| Image := @Image P;
     sitk_decode := @sitk_decode P;
     sitk_encode := @sitk_encode P;
     scandir_order := order |}.

(** Letter case apart.  A capital is one of [A]..[Z] or a capital of the
    Latin-1 supplement; its small letter lies 32 code points above.  Two
    characters are the same letter when they are equal or one is the
    capital of the other; two texts are the same text, letter case apart,
    when they have the same letters at the same places.  This is what
    comparing without regard to case means, said without [lower]. *)
Definition capital (c : ascii) : bool :=
  let n := N_of_ascii c in
  ((65 <=? n) && (n <=? 90) || (192 <=? n) && (n <=? 222) && negb (n =? 215))%N.

Definition same_letter (c d : ascii) : bool :=
  Ascii.eqb c d
  || capital c && (N_of_ascii d =? N_of_ascii c + 32)%N
  || capital d && (N_of_ascii c =? N_of_ascii d + 32)%N.

Fixpoint same_text (a b : string) : bool :=
  match a, b with
  | EmptyString, EmptyString => true
  | String c a', String d b' => same_letter c d && same_text a' b'
  | _, _ => false
  end.

End Layout.

(** ** A small concrete platform and disk, for examples *)

Module Demo.

(** Images are their bytes; a readable source file starts with the TIFF
    byte-order mark; directories are listed in reverse. *)
Definition platform : Platform :=
  {| Image := string;
     sitk_decode := fun _ c =>
       match c with
       | Bytes b => if Py.startswith b "II*" then Some b else None
       | Json _ => None
       end;
     sitk_encode := fun _ img => Some (Bytes ("nii:" +:+ img));
     scandir_order := fun _ l => reverse l |}.

Definition disk0 : gmap (list string) node :=
  list_to_map [
    (["in"], Dir);
    (["in"; "img"], Dir);
    (["in"; "msk"], Dir);
    (["in"; "img"; "b.tif"], File (Bytes "II*b"));
    (["in"; "img"; "a.TIF"], File (Bytes "II*a"));
    (["in"; "img"; "notes.txt"], File (Bytes "hello"));
    (["in"; "msk"; "b.tif"], File (Bytes "II*mb"));
    (["in"; "msk"; "a.tif"], File (Bytes "II*ma")) ].

Definition state0 : state := {| disk := disk0; heap := []; stdout := [] |}.

(** The same disk with one mask removed: two images, one mask. *)
Definition state_mismatch : state :=
  {| disk := delete ["in"; "msk"; "b.tif"] disk0; heap := []; stdout := [] |}.

(** The same disk with an unreadable second image. *)
Definition state_broken : state :=
  {| disk := <[ ["in"; "img"; "b.tif"] := File (Bytes "not an image") ]> disk0;
     heap := []; stdout := [] |}.

(** Both input directories empty. *)
Definition state_empty : state :=
  {| disk := list_to_map [ (["in"], Dir); (["in"; "img"], Dir); (["in"; "msk"], Dir) ];
     heap := []; stdout := [] |}.

(** A file where the dataset directory should be. *)
Definition state_blocked : state :=
  {| disk := <[ ["out"; "Task001_ROISegmentation"] := File (Bytes "in the way") ]>
               (<[ ["out"] := Dir ]> disk0);
     heap := []; stdout := [] |}.

(** A file where [labelsTr] should be. *)
Definition state_labels_file : state :=
  {| disk := list_to_map [ (["base"], Dir);
                           (["base"; "labelsTr"], File (Bytes "in the way")) ];
     heap := []; stdout := [] |}.

(** The same disk as [disk0] without the directory of the masks. *)
Definition state_no_masks : state :=
  {| disk := list_to_map [
       (["in"], Dir);
       (["in"; "img"], Dir);
       (["in"; "img"; "b.tif"], File (Bytes "II*b"));
       (["in"; "img"; "a.TIF"], File (Bytes "II*a")) ];
     heap := []; stdout := ["earlier line"] |}.

(** A directory whose name ends with the extension, beside a file. *)
Definition state_subdir : state :=
  {| disk := list_to_map [
       (["in"], Dir);
       (["in"; "scans.tif"], Dir);
       (["in"; "scans.tif"; "deep.tif"], File (Bytes "II*d"));
       (["in"; "a.tif"], File (Bytes "II*a"));
       (["in"; "notes.txt"], File (Bytes "hello")) ];
     heap := []; stdout := [] |}.

End Demo.

(** * Properties *)

(** ** Strings, ordering and sorting *)

Module PyFacts.
Import Py.

Lemma append_cons c s t : String c s +:+ t = String c (s +:+ t).
Proof. reflexivity. Qed.

Lemma append_nil_l s : "" +:+ s = s.
Proof. reflexivity. Qed.

Lemma endswith_unfold s suffix :
  endswith s suffix =
    if String.eqb s suffix then true
    else match s with
         | EmptyString => false
         | String _ s' => endswith s' suffix
         end.
Proof. by destruct s. Qed.

Lemma endswith_spec s suffix :
  endswith s suffix = true <-> exists pre, s = pre +:+ suffix.
Proof.
  split.
  - induction s as [|c s IH]; rewrite endswith_unfold.
    + destruct (String.eqb_spec "" suffix) as [<-|]; [by exists ""|done].
    + destruct (String.eqb_spec (String c s) suffix) as [<-|_]; [by exists ""|].
      intros [pre ->]%IH. by exists (String c pre).
  - intros [pre ->]. induction pre as [|c pre IH]; rewrite endswith_unfold.
    + cbn. by rewrite String.eqb_refl.
    + change (String c pre +:+ suffix) with (String c (pre +:+ suffix)).
      cbv beta iota. rewrite IH. by destruct (String.eqb _ _).
Qed.

Lemma startswith_spec s p :
  startswith s p = true <-> exists post, s = p +:+ post.
Proof.
  revert s. induction p as [|c p IH]; intros s; cbn.
  - split; [intros _; by exists s|done].
  - destruct s as [|d s]; [split; [done|by intros [? ?]]|].
    destruct (Ascii.eqb_spec c d) as [<-|Hne].
    + rewrite IH. split; intros [post E]; exists post;
        rewrite append_cons in *; congruence.
    + split; [done|]. intros [post E]. rewrite append_cons in E. congruence.
Qed.

(** [sorted] gives the one ascending arrangement of its argument. *)
Lemma sorted_Sorted l : Sorted String.le (sorted l).
Proof. apply (Sorted_merge_sort String.le). Qed.

Lemma sorted_Permutation l : sorted l ≡ₚ l.
Proof. apply (merge_sort_Permutation String.le). Qed.

Lemma sorted_unique l l' : Sorted String.le l' -> l' ≡ₚ l -> l' = sorted l.
Proof.
  intros Hs Hp. apply (Sorted_unique String.le); [done|apply sorted_Sorted|].
  by rewrite sorted_Permutation.
Qed.

Lemma sorted_proper l l' : l ≡ₚ l' -> sorted l = sorted l'.
Proof.
  intros Hp. apply sorted_unique; [apply sorted_Sorted|].
  by rewrite sorted_Permutation.
Qed.

Lemma elem_of_sorted x l : x ∈ sorted l <-> x ∈ l.
Proof. by rewrite sorted_Permutation. Qed.

Lemma length_sorted l : length (sorted l) = length l.
Proof. by rewrite sorted_Permutation. Qed.

End PyFacts.

(** ** Path resolution *)

Module PathFacts.
Import Py OS Layout PyFacts.

Lemma append_assoc (a b c : string) : (a +:+ b) +:+ c = a +:+ (b +:+ c).
Proof. induction a as [|x a IH]; [done|]. rewrite !append_cons. by f_equal. Qed.

Lemma append_nil_r (a : string) : a +:+ "" = a.
Proof. induction a as [|x a IH]; [done|]. rewrite append_cons. by f_equal. Qed.

Lemma split_path_unfold cur c s :
  split_path cur (String c s) =
    if Ascii.eqb c "/"
    then (if String.eqb cur "" then [] else [cur]) ++ split_path "" s
    else split_path (cur +:+ String c "") s.
Proof. reflexivity. Qed.

(** Splitting distributes over a separator. *)
Lemma split_path_sep cur a b :
  split_path cur (a +:+ "/" +:+ b) = split_path cur a ++ resolve b.
Proof.
  revert cur. induction a as [|c a IH]; intros cur.
  - rewrite append_nil_l, append_cons, append_nil_l, split_path_unfold.
    cbn [Ascii.eqb Bool.eqb split_path]. done.
  - rewrite append_cons, !split_path_unfold.
    destruct (Ascii.eqb c "/"); [|apply IH].
    rewrite IH. by rewrite (assoc_L (++)).
Qed.

Lemma split_path_no_slash cur n :
  no_slash n = true ->
  split_path cur n = if String.eqb (cur +:+ n) "" then [] else [cur +:+ n].
Proof.
  revert cur. induction n as [|c n IH]; intros cur Hn.
  - by rewrite append_nil_r.
  - cbn [no_slash] in Hn. apply andb_prop in Hn as [Hc Hn].
    rewrite split_path_unfold. destruct (Ascii.eqb c "/"); [done|].
    rewrite IH by done. by rewrite append_assoc, append_cons, append_nil_l.
Qed.

Lemma resolve_simple n : simple_name n = true -> resolve n = [n].
Proof.
  unfold simple_name. intros [Hne Hn]%andb_prop.
  unfold resolve. rewrite split_path_no_slash, append_nil_l by done.
  by destruct (String.eqb n "").
Qed.

Lemma resolve_sep a b : resolve (a +:+ "/" +:+ b) = resolve a ++ resolve b.
Proof. apply split_path_sep. Qed.

(** [os.path.join] extends the resolved path, unless the second part is
    absolute. *)
Lemma resolve_join a b :
  startswith b "/" = false ->
  resolve (os_path_join a b) = resolve a ++ resolve b.
Proof.
  intros Hb. unfold os_path_join. rewrite Hb.
  destruct (String.eqb_spec a "") as [->|Ha]; [done|]. cbn [orb].
  destruct (endswith a "/") eqn:He; [|apply resolve_sep].
  apply endswith_spec in He as [pre ->].
  rewrite append_assoc, resolve_sep.
  change (pre +:+ "/") with (pre +:+ "/" +:+ ""). rewrite resolve_sep.
  by rewrite app_nil_r.
Qed.

Lemma simple_name_not_absolute n : simple_name n = true -> startswith n "/" = false.
Proof.
  unfold simple_name. destruct n as [|c n]; [done|].
  cbn [startswith no_slash].
  destruct (Ascii.eqb_spec "/" c) as [<-|Hne]; [|done].
  cbn [Ascii.eqb Bool.eqb negb andb]. by rewrite andb_false_r.
Qed.

Lemma resolve_join_simple a n :
  simple_name n = true -> resolve (os_path_join a n) = resolve a ++ [n].
Proof.
  intros Hn. rewrite resolve_join by by apply simple_name_not_absolute.
  by rewrite (resolve_simple n).
Qed.

Lemma join_absolute a b : startswith b "/" = true -> os_path_join a b = b.
Proof. intros Hb. unfold os_path_join. by rewrite Hb. Qed.

Lemma no_slash_app a b : no_slash (a +:+ b) = no_slash a && no_slash b.
Proof.
  induction a as [|c a IH]; [done|]. rewrite append_cons. cbn [no_slash].
  rewrite IH. by rewrite andb_assoc.
Qed.

End PathFacts.

(** ** Numbers in names *)

Module NameFacts.
Import Py OS Layout PyFacts PathFacts.

Lemma zeros_digits k d :
  zeros k +:+ DecimalString.NilEmpty.string_of_uint d =
  DecimalString.NilEmpty.string_of_uint (Nat.iter k Decimal.D0 d).
Proof.
  induction k as [|k IH]; [done|].
  cbn [zeros Nat.iter nat_rect DecimalString.NilEmpty.string_of_uint].
  rewrite append_cons. by f_equal.
Qed.

Lemma of_uint_zeros k d : Nat.of_uint (Nat.iter k Decimal.D0 d) = Nat.of_uint d.
Proof. induction k as [|k IH]; [done|]. exact IH. Qed.

(** The number a formatted index stands for. *)
Lemma format_0d_value w n :
  Nat.of_uint <$> DecimalString.NilEmpty.uint_of_string (format_0d w n) = Some n.
Proof.
  unfold format_0d, str. rewrite zeros_digits, DecimalString.NilEmpty.usu.
  cbn [fmap option_fmap option_map]. f_equal.
  rewrite of_uint_zeros. apply DecimalNat.Unsigned.of_to.
Qed.

Lemma format_0d_inj w n n' : format_0d w n = format_0d w n' -> n = n'.
Proof.
  intros E. pose proof (format_0d_value w n) as Hn.
  rewrite E, format_0d_value in Hn. by injection Hn.
Qed.

Lemma case_id_inj i j : case_id i = case_id j -> i = j.
Proof.
  unfold case_id. intros E%(inj (String.app _)). by apply format_0d_inj in E.
Qed.

Lemma no_slash_digits d :
  no_slash (DecimalString.NilEmpty.string_of_uint d) = true.
Proof. induction d; cbn; done. Qed.

Lemma no_slash_zeros k : no_slash (zeros k) = true.
Proof. induction k; cbn; done. Qed.

Lemma no_slash_case_id i : no_slash (case_id i) = true.
Proof.
  unfold case_id, format_0d, str.
  by rewrite !no_slash_app, no_slash_zeros, no_slash_digits.
Qed.

Lemma simple_name_case_file i ext :
  no_slash ext = true -> simple_name (case_id i +:+ ext) = true.
Proof.
  intros He. unfold simple_name.
  rewrite no_slash_app, no_slash_case_id, He. done.
Qed.

Lemma last_char_app a b : b <> "" -> last_char (a +:+ b) = last_char b.
Proof.
  intros Hb. induction a as [|c a IH]; [done|].
  rewrite append_cons. cbn [last_char]. rewrite IH.
  destruct (a +:+ b) eqn:E; [|done].
  destruct a; [by rewrite append_nil_l in E|by rewrite append_cons in E].
Qed.

Lemma lower_app a b : lower (a +:+ b) = lower a +:+ lower b.
Proof.
  induction a as [|c a IH]; [done|].
  rewrite append_cons. cbn [lower]. by rewrite IH, append_cons.
Qed.

(** A name that ends in [.nii.gz] is not a [.tif] file. *)
Lemma nii_gz_not_tif a :
  endswith (lower (a +:+ ".nii.gz")) (lower ".tif") = false.
Proof.
  apply not_true_is_false. intros [pre E]%endswith_spec.
  apply (f_equal last_char) in E.
  rewrite lower_app, !last_char_app in E by done. done.
Qed.

(** The number of characters of a number in decimal. *)
Lemma length_string_of_uint d :
  String.length (DecimalString.NilEmpty.string_of_uint d) = Decimal.nb_digits d.
Proof. induction d; cbn; by f_equal. Qed.

Lemma length_zeros k : String.length (zeros k) = k.
Proof. induction k; cbn; by f_equal. Qed.

Lemma length_append a b :
  String.length (a +:+ b) = String.length a + String.length b.
Proof.
  induction a as [|c a IH]; [done|]. rewrite append_cons. cbn. by rewrite IH.
Qed.

(** Digits read from the left with the number [acc] read so far. *)
Lemma of_uint_acc_bounds d acc :
  acc * 10 ^ Decimal.nb_digits d <= Nat.of_uint_acc d acc
  < (acc + 1) * 10 ^ Decimal.nb_digits d.
Proof.
  revert acc. induction d as [|d IH|d IH|d IH|d IH|d IH|d IH|d IH|d IH|d IH|d IH];
    intros acc; cbn [Nat.of_uint_acc Decimal.nb_digits];
    [rewrite Nat.pow_0_r; lia|rewrite Nat.tail_mul_spec, Nat.pow_succ_r'..];
    match goal with
    | |- _ <= Nat.of_uint_acc _ ?x < _ => specialize (IH x)
    end; nia.
Qed.

Lemma nzhead_no_zero d u : Decimal.nzhead d <> Decimal.D0 u.
Proof. induction d; cbn; done. Qed.

(** [str] writes no zero in front of a number, except the number 0. *)
Lemma to_uint_unorm n : Decimal.unorm (Nat.to_uint n) = Nat.to_uint n.
Proof.
  rewrite <- (DecimalNat.Unsigned.of_to n) at 2.
  by rewrite DecimalNat.Unsigned.to_of.
Qed.

Lemma length_str_le n k : 0 < k -> n < 10 ^ k -> String.length (str n) <= k.
Proof.
  intros Hk Hn. unfold str. rewrite length_string_of_uint.
  pose proof (to_uint_unorm n) as Hnorm.
  pose proof (DecimalNat.Unsigned.of_to n) as Hval. unfold Nat.of_uint in Hval.
  assert (forall d acc, 0 < acc -> Nat.of_uint_acc d acc = n ->
            S (Decimal.nb_digits d) <= k) as Hhead.
  { intros d acc Hacc E. pose proof (of_uint_acc_bounds d acc) as [Hlo _].
    rewrite E in Hlo.
    assert (10 ^ Decimal.nb_digits d < 10 ^ k) as Hpow by nia.
    apply Nat.pow_lt_mono_r_iff in Hpow; lia. }
  destruct (Nat.to_uint n) as [|d|d|d|d|d|d|d|d|d|d];
    cbn [Nat.of_uint_acc Decimal.nb_digits] in *;
    [lia| |rewrite ?Nat.tail_mul_spec in Hval; eapply Hhead; [|exact Hval]; lia..].
  unfold Decimal.unorm in Hnorm. cbn [Decimal.nzhead] in Hnorm.
  destruct (Decimal.nzhead d) eqn:E; try discriminate Hnorm.
  - injection Hnorm as <-. cbn. lia.
  - by apply nzhead_no_zero in E.
Qed.

Lemma length_str_gt n k : 10 ^ k <= n -> k < String.length (str n).
Proof.
  intros Hn. unfold str. rewrite length_string_of_uint.
  pose proof (DecimalNat.Unsigned.of_to n) as Hval. unfold Nat.of_uint in Hval.
  pose proof (of_uint_acc_bounds (Nat.to_uint n) 0) as [_ Hhi].
  rewrite Hval in Hhi.
  assert (10 ^ k < 10 ^ Decimal.nb_digits (Nat.to_uint n)) as Hpow by lia.
  apply Nat.pow_lt_mono_r_iff in Hpow; lia.
Qed.

(** The width of a formatted index: filled up to [w] characters, and
    left as [str] writes it from there on. *)
Lemma format_0d_length w n :
  0 < w -> n < 10 ^ w -> String.length (format_0d w n) = w.
Proof.
  intros Hw Hn. unfold format_0d. cbn zeta.
  rewrite length_append, length_zeros.
  pose proof (length_str_le n w Hw Hn). lia.
Qed.

Lemma format_0d_wide w n : 0 < w -> 10 ^ (w - 1) <= n -> format_0d w n = str n.
Proof.
  intros Hw Hn%length_str_gt. unfold format_0d. cbn zeta.
  by replace (w - String.length (str n)) with 0 by lia.
Qed.

(** [lower] and the letters: two characters have the same [lower] exactly
    when they are the same letter. *)
Lemma lower_char_capital c :
  lower_char c = if capital c then ascii_of_N (N_of_ascii c + 32) else c.
Proof. reflexivity. Qed.

Lemma capital_bounds c :
  capital c = true ->
  (65 <= N_of_ascii c <= 222)%N.
Proof.
  unfold capital. cbv zeta.
  rewrite orb_true_iff, !andb_true_iff, !N.leb_le. lia.
Qed.

Lemma capital_small c :
  capital c = true -> capital (ascii_of_N (N_of_ascii c + 32)) = false.
Proof.
  intros Hc. pose proof (capital_bounds c Hc) as Hb. revert Hc.
  unfold capital. cbv zeta. rewrite N_ascii_embedding by lia.
  rewrite orb_true_iff, !andb_true_iff, negb_true_iff, !N.leb_le, N.eqb_neq.
  intros Hc. apply not_true_is_false.
  rewrite orb_true_iff, !andb_true_iff, negb_true_iff, !N.leb_le, N.eqb_neq. lia.
Qed.

Lemma same_letter_lower c d : same_letter c d = true <-> lower_char c = lower_char d.
Proof.
  unfold same_letter. rewrite !orb_true_iff, !andb_true_iff, !N.eqb_eq.
  rewrite !lower_char_capital. split.
  - intros [[E%Ascii.eqb_eq|[Hc E]]|[Hd E]].
    + by subst.
    + rewrite Hc, <- E, ascii_N_embedding.
      pose proof (capital_small c Hc) as Hs.
      rewrite <- E, ascii_N_embedding in Hs. by rewrite Hs.
    + rewrite Hd, <- E, ascii_N_embedding.
      pose proof (capital_small d Hd) as Hs.
      rewrite <- E, ascii_N_embedding in Hs. by rewrite Hs.
  - destruct (capital c) eqn:Hc, (capital d) eqn:Hd; intros E.
    + left; left. apply Ascii.eqb_eq.
      pose proof (capital_bounds c Hc). pose proof (capital_bounds d Hd).
      apply (f_equal N_of_ascii) in E. rewrite !N_ascii_embedding in E by lia.
      rewrite <- (ascii_N_embedding c), <- (ascii_N_embedding d). f_equal. lia.
    + left; right. split; [done|].
      pose proof (capital_bounds c Hc).
      apply (f_equal N_of_ascii) in E. rewrite N_ascii_embedding in E by lia. done.
    + right. split; [done|].
      pose proof (capital_bounds d Hd).
      apply (f_equal N_of_ascii) in E. rewrite N_ascii_embedding in E by lia. done.
    + left; left. by apply Ascii.eqb_eq.
Qed.

Lemma same_text_lower a b : same_text a b = true <-> lower a = lower b.
Proof.
  revert b. induction a as [|c a IH]; intros [|d b]; cbn; try done.
  rewrite andb_true_iff, same_letter_lower, IH. split.
  - by intros [-> ->].
  - by intros [= -> ->].
Qed.

Lemma lower_split n a b :
  lower n = a +:+ b -> exists n1 n2, n = n1 +:+ n2 /\ lower n1 = a /\ lower n2 = b.
Proof.
  revert n. induction a as [|c a IH]; intros n E.
  - exists "", n. by rewrite !append_nil_l in *.
  - rewrite append_cons in E. destruct n as [|d n]; [done|].
    cbn [lower] in E. injection E as Hc (n1 & n2 & -> & <- & <-)%IH.
    exists (String d n1), n2. rewrite append_cons. cbn [lower]. by rewrite Hc.
Qed.

(** A name ends with the extension, letter case apart. *)
Lemma ends_with_letter_case n extension :
  (exists pre, lower n = pre +:+ lower extension) <->
  (exists pre suffix, n = pre +:+ suffix /\ same_text suffix extension = true).
Proof.
  split.
  - intros [pre (n1 & n2 & -> & _ & E%same_text_lower)%lower_split]. eauto.
  - intros (pre & suffix & -> & E%same_text_lower).
    exists (lower pre). by rewrite lower_app, E.
Qed.

End NameFacts.

(** ** The file system *)

Module DiskFacts.
Import Py OS Layout PyFacts PathFacts.

Implicit Types (d : gmap (list string) node) (k : list string).

Lemma strip_prefix_spec p k r : strip_prefix p k = Some r <-> k = p ++ r.
Proof.
  revert k. induction p as [|x p IH]; intros k; cbn.
  - split; congruence.
  - destruct k as [|y k]; [done|].
    destruct (String.eqb_spec x y) as [<-|Hne].
    + rewrite IH. split; congruence.
    + split; [done|congruence].
Qed.

Lemma child_of_spec p k n : child_of p k = Some n <-> k = p ++ [n].
Proof.
  unfold child_of. destruct (strip_prefix p k) as [r|] eqn:E.
  - apply strip_prefix_spec in E as ->.
    destruct r as [|x [|y r]]; split; try done.
    + intros E%(f_equal length). rewrite !length_app in E. cbn in E. lia.
    + congruence.
    + by intros [= ->]%(inj (app p)).
    + intros E%(inj (app p)). done.
  - split; [done|]. intros ->.
    by rewrite (proj2 (strip_prefix_spec p (p ++ [n]) [n])) in E.
Qed.

(** The entries of a directory are the names below it, each once. *)
Lemma elem_of_children d k n : n ∈ children d k <-> is_Some (d !! (k ++ [n])).
Proof.
  unfold children. rewrite list_elem_of_omap. split.
  - intros [[k' v] [Hin Hc]]. cbn in Hc. apply child_of_spec in Hc as ->.
    apply elem_of_map_to_list in Hin. by exists v.
  - intros [v Hv]. exists (k ++ [n], v). split.
    + by apply elem_of_map_to_list.
    + cbn. by apply child_of_spec.
Qed.

Lemma NoDup_children d k : NoDup (children d k).
Proof.
  unfold children.
  pose proof (NoDup_fst_map_to_list d) as Hnd.
  induction (map_to_list d) as [|[k' v] l IH]; cbn; [constructor|].
  apply NoDup_cons in Hnd as [Hk' Hnd]. specialize (IH Hnd).
  destruct (child_of k k') as [n|] eqn:E; [|done].
  apply NoDup_cons. split; [|done].
  intros Hin. apply list_elem_of_omap in Hin as [[k'' v''] [Hin Hc]].
  apply child_of_spec in E, Hc. cbn in *. subst. apply Hk'.
  apply list_elem_of_fmap. by exists (k ++ [n], v'').
Qed.

(** What [mkdir_p] leaves on the disk: every entry that was there, and new
    directories. *)
Lemma mkdir_p_keeps name made todo d r d' k v :
  mkdir_p name made todo d = (r, d') -> d !! k = Some v -> d' !! k = Some v.
Proof.
  revert made d. induction todo as [|c todo IH]; intros made d; cbn.
  - by intros [= _ <-].
  - destruct (d !! (made ++ [c])) as [[?|]|] eqn:E.
    + by intros [= _ <-].
    + apply IH.
    + intros Hm Hk. eapply IH; [done|].
      rewrite lookup_insert_ne; [done|congruence].
Qed.

Lemma mkdir_p_adds name made todo d r d' k v :
  mkdir_p name made todo d = (r, d') -> d' !! k = Some v ->
  d !! k = Some v \/ (d !! k = None /\ v = Dir).
Proof.
  revert made d. induction todo as [|c todo IH]; intros made d; cbn.
  - intros [= _ <-]. by left.
  - destruct (d !! (made ++ [c])) as [[?|]|] eqn:E.
    + intros [= _ <-]. by left.
    + apply IH.
    + intros Hm Hk. destruct (IH _ _ Hm Hk) as [Hv|[Hn ->]].
      * destruct (decide (made ++ [c] = k)) as [<-|Hne].
        -- rewrite lookup_insert_eq in Hv. injection Hv as <-. by right.
        -- rewrite lookup_insert_ne in Hv by done. by left.
      * destruct (decide (made ++ [c] = k)) as [<-|Hne].
        -- by right.
        -- rewrite lookup_insert_ne in Hn by done. by right.
Qed.

(** After a successful [mkdir_p] the path is a directory. *)
Lemma mkdir_p_is_dir name made todo d d' :
  mkdir_p name made todo d = (None, d') ->
  is_dir d made = true -> is_dir d' (made ++ todo) = true.
Proof.
  revert made d. induction todo as [|c todo IH]; intros made d; cbn -[is_dir].
  - intros [= <-]. by rewrite app_nil_r.
  - replace (made ++ c :: todo) with ((made ++ [c]) ++ todo)
      by by rewrite <- (assoc_L (++)).
    destruct (d !! (made ++ [c])) as [[?|]|] eqn:E; [done|..]; intros Hm _.
    + eapply IH; [done|]. unfold is_dir. rewrite E. by destruct (made ++ [c]).
    + eapply IH; [done|]. unfold is_dir. rewrite lookup_insert_eq.
      by destruct (made ++ [c]).
Qed.

(** Existing directories are accepted: nothing changes. *)
Lemma mkdir_p_exists name made todo d :
  (forall i, 0 < i <= length todo -> d !! (made ++ take i todo) = Some Dir) ->
  mkdir_p name made todo d = (None, d).
Proof.
  revert made. induction todo as [|c todo IH]; intros made Hd; cbn; [done|].
  assert (d !! (made ++ [c]) = Some Dir) as ->.
  { apply (Hd 1). cbn. lia. }
  apply IH. intros i Hi.
  rewrite <- (assoc_L (++)). apply (Hd (S i)). cbn. lia.
Qed.

Lemma is_dir_lookup d k : k <> [] -> is_dir d k = true <-> d !! k = Some Dir.
Proof.
  intros Hk. unfold is_dir. destruct k; [done|].
  destruct (d !! _) as [[?|]|]; split; done.
Qed.

Lemma is_dir_not_dir d k : is_dir d k = false -> d !! k = Some Dir -> False.
Proof.
  unfold is_dir. destruct k; [done|]. intros H E. by rewrite E in H.
Qed.

End DiskFacts.

(** ** The steps of the script *)

Module StepFacts.
Import Py OS Script Layout PyFacts PathFacts NameFacts DiskFacts.

Section Steps.
Context `{P : Platform}.

Implicit Types (s : state) (d : gmap (list string) node).

Lemma grows_refl d : grows d d.
Proof. split; [done|]. intros k v Hk. by left. Qed.

Lemma grows_trans d1 d2 d3 : grows d1 d2 -> grows d2 d3 -> grows d1 d3.
Proof.
  intros [H1 H1'] [H2 H2']. split; [by eauto|].
  intros k v Hk. destruct (H2' _ _ Hk) as [Hv|[Hn ->]].
  - by apply H1'.
  - right. split; [|done]. destruct (d1 !! k) eqn:E; [|done].
    apply H1 in E. congruence.
Qed.

Lemma mkdir_p_grows name made todo d r d' :
  mkdir_p name made todo d = (r, d') -> grows d d'.
Proof.
  intros Hm. split; intros k v.
  - by eapply mkdir_p_keeps.
  - by eapply mkdir_p_adds.
Qed.

(** [os.makedirs] only adds directories, whether it returns or raises. *)
Lemma os_makedirs_grows p s r s' :
  os_makedirs p s = (r, s') ->
  grows (disk s) (disk s') /\ heap s' = heap s /\ stdout s' = stdout s.
Proof.
  unfold os_makedirs. destruct (String.eqb p "").
  - intros [= _ <-]. split; [apply grows_refl|done].
  - destruct (mkdir_p _ _ _ _) as [[e|] d'] eqn:E; intros [= _ <-];
      (split; [by eapply mkdir_p_grows|done]).
Qed.

Lemma os_makedirs_is_dir p s s' :
  os_makedirs p s = (Return tt, s') -> is_dir (disk s') (resolve p) = true.
Proof.
  unfold os_makedirs. destruct (String.eqb p ""); [done|].
  destruct (mkdir_p _ _ _ _) as [[e|] d'] eqn:E; intros [= <-]; cbn.
  by apply (mkdir_p_is_dir _ [] _ _ _ E).
Qed.

Lemma grows_is_dir d d' k : grows d d' -> is_dir d k = true -> is_dir d' k = true.
Proof.
  intros [Hg _]. unfold is_dir. destruct k; [done|].
  destruct (d !! _) as [[?|]|] eqn:E; try done. by rewrite (Hg _ _ E).
Qed.

(** [get_file_list] reads the disk and leaves the state alone. *)
Lemma get_file_list_eq directory extension s :
  get_file_list directory extension s =
    (if negb (String.eqb directory "") && is_dir (disk s) (resolve directory)
     then Return (sorted (filter (fun f => endswith (lower f) (lower extension) = true)
                    (scandir_order directory (children (disk s) (resolve directory)))))
     else Raise (FileNotFoundError ("Directory not found: " +:+ directory)), s).
Proof.
  unfold get_file_list, bind, os_path_isdir, os_listdir, ret, raise.
  destruct (String.eqb directory ""); [done|]. cbn [negb andb].
  destruct (is_dir (disk s) (resolve directory)) eqn:E; cbn; by rewrite ?E.
Qed.

Lemma get_file_list_state directory extension s r s' :
  get_file_list directory extension s = (r, s') -> s' = s.
Proof. rewrite get_file_list_eq. by intros [= _ <-]. Qed.

(** The statements of [convert_to_nnunet_format], phase by phase. *)
Lemma run_phases a b out dname s :
  convert_to_nnunet_format a b out dname s =
    match provision out dname s with
    | (Raise e, s1) => (Raise e, s1)
    | (Return (dirs, r), s1) =>
        match get_file_list a ".tif" s1 with
        | (Raise e, s2) => (Raise e, s2)
        | (Return data_files, s2) =>
            match get_file_list b ".tif" s2 with
            | (Raise e, s3) => (Raise e, s3)
            | (Return mask_files, s3) =>
                if negb (length data_files =? length mask_files)
                then (Raise (ValueError (mismatch_message (length data_files)
                                                          (length mask_files))), s3)
                else (convert_all a b dirs r data_files mask_files ;;;
                      finalize (dataset_dir out dname) r (length data_files)) s3
            end
        end
    end.
Proof.
  unfold convert_to_nnunet_format, provision, finalize, convert_all, dataset_dir.
  unfold bind, ret, raise.
  destruct (os_makedirs _ s) as [[[]|e] s1]; [|done].
  destruct (setup_directories _ s1) as [[dirs|e] s2]; [|done].
  destruct (create_dataset_json _ _ _ _ s2) as [[r|e] s3]; [|done].
  destruct (get_file_list a ".tif" s3) as [[data|e] s4]; [|done].
  destruct (get_file_list b ".tif" s4) as [[mask|e] s5]; [|done].
  by destruct (negb _).
Qed.

Lemma write_file_ok p c s s' :
  write_file p c s = (Return tt, s') ->
  s' = set_disk (<[resolve p := File c]> (disk s)) s /\
  is_dir (disk s) (resolve p) = false /\
  is_dir (disk s) (parent (resolve p)) = true.
Proof.
  unfold write_file. destruct (String.eqb p ""); [done|].
  destruct (is_dir (disk s) (resolve p)); [done|].
  destruct (is_dir (disk s) (parent (resolve p))).
  - by intros [= <-].
  - by destruct (disk s !! parent (resolve p)).
Qed.

Lemma write_file_raise p c s e s' : write_file p c s = (Raise e, s') -> s' = s.
Proof.
  unfold write_file. destruct (String.eqb p ""); [by intros [= _ <-]|].
  destruct (is_dir (disk s) (resolve p)); [by intros [= _ <-]|].
  destruct (is_dir (disk s) (parent (resolve p))); [done|].
  by destruct (disk s !! parent (resolve p)); intros [= _ <-].
Qed.

(** A write succeeds where it succeeded before, as long as the directories
    stay and the target does not become one. *)
Lemma write_file_succeeds p c s :
  p <> "" -> is_dir (disk s) (resolve p) = false ->
  is_dir (disk s) (parent (resolve p)) = true ->
  write_file p c s = (Return tt, set_disk (<[resolve p := File c]> (disk s)) s).
Proof.
  intros Hp%String.eqb_neq Hd Hpar. unfold write_file. by rewrite Hp, Hd, Hpar.
Qed.

Lemma write_file_nonempty p c s s' : write_file p c s = (Return tt, s') -> p <> "".
Proof.
  unfold write_file. destruct (String.eqb_spec p "") as [->|]; done.
Qed.

Lemma setup_directories_ok dd s x s' :
  setup_directories dd s = (Return x, s') ->
  x = dirs_of dd /\ grows (disk s) (disk s') /\
  heap s' = heap s /\ stdout s' = stdout s /\
  is_dir (disk s') (resolve (os_path_join dd "imagesTr")) = true /\
  is_dir (disk s') (resolve (os_path_join dd "labelsTr")) = true /\
  is_dir (disk s') (resolve (os_path_join dd "imagesTs")) = true.
Proof.
  unfold setup_directories. cbn [fmap list_fmap snd for_each].
  unfold bind, ret.
  destruct (os_makedirs _ s) as [[[]|e] s1] eqn:E1; [|done].
  destruct (os_makedirs _ s1) as [[[]|e] s2] eqn:E2; [|done].
  destruct (os_makedirs _ s2) as [[[]|e] s3] eqn:E3; [|done].
  intros [= <- <-].
  destruct (os_makedirs_grows _ _ _ _ E1) as (G1 & Hh1 & Ho1).
  destruct (os_makedirs_grows _ _ _ _ E2) as (G2 & Hh2 & Ho2).
  destruct (os_makedirs_grows _ _ _ _ E3) as (G3 & Hh3 & Ho3).
  apply os_makedirs_is_dir in E1, E2, E3.
  split; [done|]. split; [eauto using grows_trans|].
  split; [congruence|]. split; [congruence|].
  eauto 6 using grows_is_dir.
Qed.

Lemma create_dataset_json_ok dd dname s r s' :
  create_dataset_json dd ["CT"] [("0", "background"); ("1", "roi")] dname s
    = (Return r, s') ->
  r = length (heap s) /\
  s' = {| disk := <[resolve (json_path dd) := File (Json (manifest_of dname 0))]> (disk s);
          heap := heap s ++ [manifest_of dname 0];
          stdout := stdout s |} /\
  json_path dd <> "" /\
  is_dir (disk s) (resolve (json_path dd)) = false /\
  is_dir (disk s) (parent (resolve (json_path dd))) = true.
Proof.
  unfold create_dataset_json, json_dump_to, new_dict, deref, bind, ret.
  cbn [heap set_heap]. rewrite lookup_app_r, Nat.sub_diag by done. cbn [lookup list_lookup].
  destruct (write_file _ _ _) as [[[]|e] s1] eqn:E; [|done]. intros [= <- <-].
  pose proof (write_file_nonempty _ _ _ _ E) as Hne.
  apply write_file_ok in E as (-> & Hd & Hp). done.
Qed.

(** The state after the first phase: the disk with the tree of directories
    and the skeleton manifest, and the skeleton on the heap. *)
Lemma provision_ok out dname s x s1 :
  provision out dname s = (Return x, s1) ->
  let dd := dataset_dir out dname in
  exists d,
    grows (disk s) d /\
    x = (dirs_of dd, length (heap s)) /\
    s1 = {| disk := <[resolve (json_path dd) := File (Json (manifest_of dname 0))]> d;
            heap := heap s ++ [manifest_of dname 0];
            stdout := stdout s |} /\
    json_path dd <> "" /\
    is_dir d (resolve (json_path dd)) = false /\
    is_dir d (resolve dd) = true /\
    is_dir d (resolve (os_path_join dd "imagesTr")) = true /\
    is_dir d (resolve (os_path_join dd "labelsTr")) = true /\
    is_dir d (resolve (os_path_join dd "imagesTs")) = true.
Proof.
  unfold provision, dataset_dir, bind, ret.
  destruct (os_makedirs _ s) as [[[]|e] sa] eqn:Ea; [|done].
  destruct (setup_directories _ sa) as [[dirs|e] sb] eqn:Eb; [|done].
  destruct (create_dataset_json _ _ _ _ sb) as [[r|e] sc] eqn:Ec; [|done].
  intros [= <- <-].
  destruct (os_makedirs_grows _ _ _ _ Ea) as (Ga & Hha & Hoa).
  apply os_makedirs_is_dir in Ea.
  apply setup_directories_ok in Eb as (-> & Gb & Hhb & Hob & I1 & I2 & I3).
  apply create_dataset_json_ok in Ec as (-> & -> & Hne & Hd & Hp).
  exists (disk sb). rewrite Hhb, Hha, Hob, Hoa.
  eauto 12 using grows_trans, grows_is_dir.
Qed.

End Steps.
End StepFacts.

(** ** The loop *)

Module LoopFacts.
Import Py OS Script Layout PyFacts PathFacts NameFacts DiskFacts StepFacts.

Lemma enumerate_from_app {A} k (l1 l2 : list A) :
  enumerate_from k (l1 ++ l2) =
  enumerate_from k l1 ++ enumerate_from (k + length l1) l2.
Proof.
  revert k. induction l1 as [|x l1 IH]; intros k; cbn.
  - by rewrite Nat.add_0_r.
  - rewrite IH. do 3 f_equal. lia.
Qed.

Lemma for_each_app {A} (l1 l2 : list A) body s :
  for_each (l1 ++ l2) body s =
    match for_each l1 body s with
    | (Return _, s') => for_each l2 body s'
    | (Raise e, s') => (Raise e, s')
    end.
Proof.
  revert s. induction l1 as [|x l1 IH]; intros s; cbn; [done|].
  unfold bind. destruct (body x s) as [[[]|e] s1]; [apply IH|done].
Qed.

(** A loop that returns has kept its invariant through every position. *)
Lemma for_each_enumerate_inv {A} (Inv : nat -> state -> Prop)
    (body : nat * A -> M unit) (l : list A) k s s' :
  (forall i x si si', l !! i = Some x -> Inv (k + i) si ->
     body (k + i, x) si = (Return tt, si') -> Inv (S (k + i)) si') ->
  Inv k s ->
  for_each (enumerate_from k l) body s = (Return tt, s') ->
  Inv (k + length l) s'.
Proof.
  revert k s. induction l as [|x l IH]; intros k s Hstep Hinv; cbn.
  - intros [= <-]. by rewrite Nat.add_0_r.
  - unfold bind. destruct (body (k, x) s) as [[[]|e] s1] eqn:E; [|done].
    intros Hloop. replace (k + S (length l)) with (S k + length l) by lia.
    apply (IH (S k) s1); [| |done].
    + intros i y si si' Hy. replace (S k + i) with (k + S i) by lia.
      by apply Hstep.
    + specialize (Hstep 0 x s s1). rewrite Nat.add_0_r in Hstep. by apply Hstep.
Qed.

(** A loop that raises has run some positions to their end and raised in
    the next one. *)
Lemma for_each_enumerate_raise {A} (body : nat * A -> M unit) (l : list A) k s e s' :
  for_each (enumerate_from k l) body s = (Raise e, s') ->
  exists i x si,
    l !! i = Some x /\
    for_each (enumerate_from k (take i l)) body s = (Return tt, si) /\
    body (k + i, x) si = (Raise e, s').
Proof.
  revert k s. induction l as [|x l IH]; intros k s; cbn; [done|].
  unfold bind. destruct (body (k, x) s) as [[[]|e'] s1] eqn:E.
  - intros (i & y & si & Hy & Hpre & Hbody)%IH.
    exists (S i), y, si. split; [done|]. split.
    + cbn. unfold bind. by rewrite E.
    + by replace (k + S i) with (S k + i) by lia.
  - intros [= <- <-]. exists 0, x, s. by rewrite Nat.add_0_r.
Qed.

Section Loop.
Context `{P : Platform}.

Implicit Types (s : state) (d : gmap (list string) node).

(** The destinations of the loop, resolved. *)
Lemma resolve_dst_data dd i :
  resolve (dst_data_path dd i) =
  resolve dd ++ ["imagesTr"; case_id i +:+ "_0000.nii.gz"].
Proof.
  unfold dst_data_path.
  rewrite !resolve_join_simple by (done || by apply simple_name_case_file).
  by rewrite <- (assoc_L (++)).
Qed.

Lemma resolve_dst_mask dd i :
  resolve (dst_mask_path dd i) =
  resolve dd ++ ["labelsTr"; case_id i +:+ ".nii.gz"].
Proof.
  unfold dst_mask_path.
  rewrite !resolve_join_simple by (done || by apply simple_name_case_file).
  by rewrite <- (assoc_L (++)).
Qed.

Lemma resolve_json_path dd : resolve (json_path dd) = resolve dd ++ ["dataset.json"].
Proof. unfold json_path. by rewrite resolve_join_simple. Qed.

Lemma list_of_append a b :
  String.list_ascii_of_string (a +:+ b) =
  String.list_ascii_of_string a ++ String.list_ascii_of_string b.
Proof.
  induction a as [|c a IH]; [done|]. rewrite append_cons. cbn. by rewrite IH.
Qed.

Lemma append_inj_r x a b : a +:+ x = b +:+ x -> a = b.
Proof.
  intros E%(f_equal String.list_ascii_of_string). rewrite !list_of_append in E.
  apply app_inj_2 in E as [E _]; [|done].
  apply (f_equal String.string_of_list_ascii) in E.
  by rewrite !String.string_of_list_ascii_of_string in E.
Qed.

Lemma dst_data_inj dd i j :
  resolve (dst_data_path dd i) = resolve (dst_data_path dd j) -> i = j.
Proof.
  rewrite !resolve_dst_data. intros E%(inj (app _)).
  injection E as E%append_inj_r. by apply (format_0d_inj 4).
Qed.

Lemma dst_mask_inj dd i j :
  resolve (dst_mask_path dd i) = resolve (dst_mask_path dd j) -> i = j.
Proof.
  rewrite !resolve_dst_mask. intros E%(inj (app _)).
  injection E as E%append_inj_r. by apply (format_0d_inj 4).
Qed.

Lemma dst_data_mask_ne dd i j :
  resolve (dst_data_path dd i) <> resolve (dst_mask_path dd j).
Proof.
  rewrite resolve_dst_data, resolve_dst_mask. by intros E%(inj (app _)).
Qed.

Lemma json_dst_data_ne dd i : resolve (json_path dd) <> resolve (dst_data_path dd i).
Proof.
  rewrite resolve_json_path, resolve_dst_data. by intros E%(inj (app _)).
Qed.

Lemma json_dst_mask_ne dd i : resolve (json_path dd) <> resolve (dst_mask_path dd i).
Proof.
  rewrite resolve_json_path, resolve_dst_mask. by intros E%(inj (app _)).
Qed.

(** One conversion: what was read, what was written. *)
Lemma convert_tif_to_nifti_ok src dst s p s' :
  convert_tif_to_nifti src dst s = (Return p, s') ->
  exists c0 img c,
    disk s !! resolve src = Some (File c0) /\
    sitk_decode src c0 = Some img /\
    sitk_encode dst img = Some c /\
    s' = set_disk (<[resolve dst := File c]> (disk s)) s /\
    dst <> "" /\
    is_dir (disk s) (resolve dst) = false /\
    is_dir (disk s) (parent (resolve dst)) = true.
Proof.
  unfold convert_tif_to_nifti, sitk_ReadImage, sitk_WriteImage, bind, ret.
  destruct (disk s !! resolve src) as [[c0|]|] eqn:E0; [|done..].
  destruct (sitk_decode src c0) as [img|] eqn:Ed; [|done].
  destruct (sitk_encode dst img) as [c|] eqn:Ee; [|done].
  destruct (write_file dst c s) as [[[]|e] s1] eqn:Ew; [|done].
  intros [= _ <-]. exists c0, img, c.
  pose proof (write_file_nonempty _ _ _ _ Ew).
  apply write_file_ok in Ew as (-> & ? & ?). done.
Qed.

(** A conversion that raises, raises a [RuntimeError] and leaves the state
    as it was. *)
Lemma convert_tif_to_nifti_raise src dst s e s' :
  convert_tif_to_nifti src dst s = (Raise e, s') ->
  s' = s /\ exists path, e = RuntimeError path.
Proof.
  unfold convert_tif_to_nifti, sitk_ReadImage, sitk_WriteImage, bind, ret.
  destruct (disk s !! resolve src) as [[c0|]|] eqn:E0;
    [|intros [= <- <-]; eauto..].
  destruct (sitk_decode src c0) as [img|] eqn:Ed; [|intros [= <- <-]; eauto].
  destruct (sitk_encode dst img) as [c|] eqn:Ee; [|intros [= <- <-]; eauto].
  destruct (write_file dst c s) as [[[]|e'] s1] eqn:Ew; [done|].
  intros [= <- <-]. apply write_file_raise in Ew as ->. eauto.
Qed.

Lemma convert_tif_to_nifti_succeeds src dst s c0 img c :
  disk s !! resolve src = Some (File c0) ->
  sitk_decode src c0 = Some img ->
  sitk_encode dst img = Some c ->
  dst <> "" ->
  is_dir (disk s) (resolve dst) = false ->
  is_dir (disk s) (parent (resolve dst)) = true ->
  convert_tif_to_nifti src dst s =
    (Return dst, set_disk (<[resolve dst := File c]> (disk s)) s).
Proof.
  intros E0 Ed Ee Hne Hd Hp.
  unfold convert_tif_to_nifti, sitk_ReadImage, sitk_WriteImage, bind, ret.
  rewrite E0, Ed, Ee. by rewrite write_file_succeeds.
Qed.

(** The body of the loop, with the paths it computes. *)
Lemma convert_case_eq a b dd r i data_file mask_file s :
  convert_case a b (dirs_of dd) r (i, (data_file, mask_file)) s =
    (convert_tif_to_nifti (os_path_join a data_file) (dst_data_path dd i) ;;;
     convert_tif_to_nifti (os_path_join b mask_file) (dst_mask_path dd i) ;;;
     update r (append_training (entry_of i))) s.
Proof. reflexivity. Qed.

Lemma append_training_in_progress dname k :
  append_training (entry_of k) (manifest_in_progress dname k) =
  manifest_in_progress dname (S k).
Proof.
  unfold append_training, manifest_in_progress, set_numTraining, manifest_of.
  cbn -[seq]. f_equal. by rewrite seq_S, fmap_app.
Qed.

Lemma update_last h0 m f s :
  heap s = h0 ++ [m] ->
  update (length h0) f s = (Return tt, set_heap (h0 ++ [f m]) s).
Proof.
  intros Hh. unfold update. rewrite Hh, lookup_app_r, Nat.sub_diag by done.
  cbn [lookup list_lookup]. do 2 f_equal.
  rewrite insert_app_r_alt, Nat.sub_diag by done. done.
Qed.

(** One position of the loop, run to its end, extends the invariant. *)
Lemma convert_case_step a b dd dname data_files mask_files h0 s1 i df mf s s' :
  loop_inv a b dd dname data_files mask_files h0 s1 i s ->
  data_files !! i = Some df -> mask_files !! i = Some mf ->
  convert_case a b (dirs_of dd) (length h0) (i, (df, mf)) s = (Return tt, s') ->
  loop_inv a b dd dname data_files mask_files h0 s1 (S i) s'.
Proof.
  intros (Hh & Ho & Hfr & Hcv & Hdirs) Hdf Hmf. rewrite convert_case_eq. unfold bind.
  destruct (convert_tif_to_nifti _ _ s) as [[p1|e] sa] eqn:E1; [|done].
  destruct (convert_tif_to_nifti _ _ sa) as [[p2|e] sb] eqn:E2; [|done].
  apply convert_tif_to_nifti_ok in E1
    as (c0 & img & c & R1 & D1 & En1 & -> & _ & Hnd1 & _).
  apply convert_tif_to_nifti_ok in E2
    as (c0' & img' & c' & R2 & D2 & En2 & -> & _ & Hnd2 & _).
  rewrite (update_last h0 (manifest_in_progress dname i)) by done.
  intros [= <-]. cbn [disk heap stdout set_disk set_heap] in *.
  unfold loop_inv. cbn [disk heap stdout set_disk set_heap].
  split; [by rewrite append_training_in_progress|]. split; [done|].
  split; [|split].
  - intros key Hkey. destruct (Hkey i) as [Hk1 Hk2]; [lia|].
    rewrite !lookup_insert_ne by done. apply Hfr. intros j Hj. apply Hkey. lia.
  - intros j df' mf' Hj Hdf' Hmf'. destruct (decide (j = i)) as [->|Hne].
    + simplify_eq. split.
      * exists c0, img, c. split; [done|]. split; [done|]. split.
        -- rewrite lookup_insert_ne by (symmetry; apply dst_data_mask_ne).
           by rewrite lookup_insert_eq.
        -- intros Hsrc. rewrite <- Hfr; [done|]. intros j _. apply Hsrc.
      * exists c0', img', c'. split; [done|]. split; [done|]. split.
        -- by rewrite lookup_insert_eq.
        -- intros Hsrc. rewrite lookup_insert_ne in R2
             by (symmetry; apply Hsrc).
           rewrite <- Hfr; [done|]. intros j _. apply Hsrc.
    + assert (j < i) as Hlt by lia.
      destruct (Hcv j df' mf' Hlt Hdf' Hmf')
        as [(x0 & ximg & x & ? & ? & Hx & ?) (y0 & yimg & y & ? & ? & Hy & ?)].
      split.
      * exists x0, ximg, x. split; [done|]. split; [done|]. split; [|done].
        rewrite !lookup_insert_ne; [done|..].
        -- intros E%dst_data_inj. lia.
        -- intros E. symmetry in E. by apply dst_data_mask_ne in E.
      * exists y0, yimg, y. split; [done|]. split; [done|]. split; [|done].
        rewrite !lookup_insert_ne; [done|..].
        -- by intros E%dst_data_mask_ne.
        -- intros E%dst_mask_inj. lia.
  - intros key Hkey%Hdirs.
    assert (resolve (dst_data_path dd i) <> key) as Hk1.
    { intros <-. by apply (is_dir_not_dir _ _ Hnd1). }
    assert (resolve (dst_mask_path dd i) <> key) as Hk2.
    { intros <-. apply (is_dir_not_dir _ _ Hnd2).
      by rewrite lookup_insert_ne by apply dst_data_mask_ne. }
    by rewrite !lookup_insert_ne.
Qed.

(** One position of the loop that raises: a [RuntimeError], with the state
    as it was but for, possibly, the image of this position. *)
Lemma convert_case_raise a b dd dname data_files mask_files h0 s1 i df mf s e s' :
  loop_inv a b dd dname data_files mask_files h0 s1 i s ->
  convert_case a b (dirs_of dd) (length h0) (i, (df, mf)) s = (Raise e, s') ->
  (exists path, e = RuntimeError path) /\
  heap s' = heap s /\ stdout s' = stdout s /\
  (disk s' = disk s \/
   exists c, disk s' = <[resolve (dst_data_path dd i) := File c]> (disk s)).
Proof.
  intros (Hh & Ho & Hfr & Hcv & Hdirs). rewrite convert_case_eq. unfold bind.
  destruct (convert_tif_to_nifti _ _ s) as [[p1|e1] sa] eqn:E1.
  - destruct (convert_tif_to_nifti _ _ sa) as [[p2|e2] sb] eqn:E2.
    + apply convert_tif_to_nifti_ok in E1
        as (c0 & img & c & R1 & D1 & En1 & -> & _ & _ & _).
      apply convert_tif_to_nifti_ok in E2
        as (c0' & img' & c' & R2 & D2 & En2 & -> & _ & _ & _).
      by rewrite (update_last h0 (manifest_in_progress dname i)) by done.
    + intros [= <- <-].
      apply convert_tif_to_nifti_ok in E1
        as (c0 & img & c & R1 & D1 & En1 & -> & _ & _ & _).
      apply convert_tif_to_nifti_raise in E2 as [-> Hr]. eauto 6.
  - intros [= <- <-]. apply convert_tif_to_nifti_raise in E1 as [-> Hr]. eauto.
Qed.

(** The loop, run to its end, has converted every pair. *)
Lemma convert_all_ok a b dd dname data_files mask_files h0 s1 s' :
  heap s1 = h0 ++ [manifest_in_progress dname 0] ->
  length data_files = length mask_files ->
  convert_all a b (dirs_of dd) (length h0) data_files mask_files s1 = (Return tt, s') ->
  loop_inv a b dd dname data_files mask_files h0 s1 (length data_files) s'.
Proof.
  intros Hh Hlen Hloop.
  assert (length data_files = length (zip data_files mask_files)) as ->.
  { rewrite length_zip_with. lia. }
  apply (for_each_enumerate_inv
           (loop_inv a b dd dname data_files mask_files h0 s1)
           (convert_case a b (dirs_of dd) (length h0))
           (zip data_files mask_files) 0 s1 s');
    [| |exact Hloop].
  - intros i [df mf] si si' (x & y & [= <- <-] & Hx & Hy)%lookup_zip_with_Some.
    cbn [Nat.add]. intros Hinv Hbody. by eapply convert_case_step.
  - split; [done|]. split; [done|]. split; [done|]. split; [|done].
    intros j ? ? Hj. lia.
Qed.

Lemma set_numTraining_in_progress dname n :
  set_numTraining n (manifest_in_progress dname n) = manifest_of dname n.
Proof. reflexivity. Qed.

(** The last phase: the count is set and the whole document written anew. *)
Lemma finalize_eq dd dname h0 n s2 :
  heap s2 = h0 ++ [manifest_in_progress dname n] ->
  finalize dd (length h0) n s2 =
    match write_file (json_path dd) (Json (manifest_of dname n))
                     (set_heap (h0 ++ [manifest_of dname n]) s2) with
    | (Return _, s3) =>
        (Return tt,
         set_stdout (stdout s3 ++ ["Dataset converted successfully to: " +:+ dd;
                                   "Total training cases: " +:+ str n]) s3)
    | (Raise e, s3) => (Raise e, s3)
    end.
Proof.
  intros Hh. unfold finalize, bind.
  rewrite (update_last h0 (manifest_in_progress dname n)) by done.
  rewrite set_numTraining_in_progress.
  unfold json_dump_to, deref, bind. cbn [heap set_heap].
  rewrite lookup_app_r, Nat.sub_diag by done. cbn [lookup list_lookup].
  fold (json_path dd).
  destruct (write_file _ _ _) as [[[]|e] s3]; [|done].
  unfold print. cbn [stdout set_stdout disk heap]. by rewrite <- (assoc_L (++)).
Qed.

Lemma finalize_ok dd dname h0 n s2 s' :
  heap s2 = h0 ++ [manifest_in_progress dname n] ->
  finalize dd (length h0) n s2 = (Return tt, s') ->
  s' = {| disk := <[resolve (json_path dd) := File (Json (manifest_of dname n))]> (disk s2);
          heap := h0 ++ [manifest_of dname n];
          stdout := stdout s2 ++ ["Dataset converted successfully to: " +:+ dd;
                                  "Total training cases: " +:+ str n] |}.
Proof.
  intros Hh. rewrite (finalize_eq dd dname) by done.
  destruct (write_file _ _ _) as [[[]|e] s3] eqn:E; [|done].
  apply write_file_ok in E as (-> & _ & _). by intros [= <-].
Qed.

(** A run that returns: the phases it went through and the state it left. *)
Lemma run_ok a b out dname s s' :
  convert_to_nnunet_format a b out dname s = (Return tt, s') ->
  let dd := dataset_dir out dname in
  exists s1 data_files mask_files s2,
    provision out dname s = (Return (dirs_of dd, length (heap s)), s1) /\
    get_file_list a ".tif" s1 = (Return data_files, s1) /\
    get_file_list b ".tif" s1 = (Return mask_files, s1) /\
    length data_files = length mask_files /\
    loop_inv a b dd dname data_files mask_files (heap s) s1 (length data_files) s2 /\
    s' = {| disk := <[resolve (json_path dd) :=
                        File (Json (manifest_of dname (length data_files)))]> (disk s2);
            heap := heap s ++ [manifest_of dname (length data_files)];
            stdout := stdout s ++ ["Dataset converted successfully to: " +:+ dd;
                                   "Total training cases: " +:+ str (length data_files)] |}.
Proof.
  rewrite run_phases. intros Hrun dd.
  destruct (provision out dname s) as [[[dirs r]|e] s1] eqn:Ep; [|done].
  destruct (provision_ok _ _ _ _ _ Ep) as (d & Hg & [= -> ->] & Hs1 & _).
  destruct (get_file_list a ".tif" s1) as [[data_files|e] sa] eqn:Ea; [|done].
  pose proof (get_file_list_state _ _ _ _ _ Ea) as ->.
  destruct (get_file_list b ".tif" s1) as [[mask_files|e] sb] eqn:Eb; [|done].
  pose proof (get_file_list_state _ _ _ _ _ Eb) as ->.
  destruct (Nat.eqb_spec (length data_files) (length mask_files)) as [Hlen|]; [|done].
  cbn [negb] in Hrun. unfold bind in Hrun.
  destruct (convert_all _ _ _ _ _ _ s1) as [[[]|e] s2] eqn:El; [|done].
  assert (heap s1 = heap s ++ [manifest_in_progress dname 0]) as Hh1 by by subst s1.
  pose proof (convert_all_ok _ _ _ _ _ _ _ _ _ Hh1 Hlen El) as Hinv.
  exists s1, data_files, mask_files, s2. do 5 (split; [done|]).
  destruct Hinv as (Hh2 & Ho2 & _).
  apply (finalize_ok _ dname) in Hrun; [|done].
  rewrite Hrun, Ho2. by subst s1.
Qed.

End Loop.
End LoopFacts.

(** * The properties of the specification *)

Module Claims.
Import Py OS Script Layout PyFacts PathFacts NameFacts DiskFacts StepFacts LoopFacts.

Section Run.
Context `{P : Platform}.

Implicit Types (s : state) (d : gmap (list string) node).

(** After the first phase nothing but [dataset.json] was written: every
    other file was there before, with the same content. *)
Lemma provision_files out dname s x s1 k c :
  provision out dname s = (Return x, s1) ->
  disk s1 !! k = Some (File c) ->
  k = resolve (json_path (dataset_dir out dname)) \/ disk s !! k = Some (File c).
Proof.
  intros Hp Hk. destruct (provision_ok _ _ _ _ _ Hp) as (d & [_ Hg] & _ & -> & _).
  cbn [disk] in Hk.
  destruct (decide (resolve (json_path (dataset_dir out dname)) = k)) as [<-|Hne];
    [by left|right].
  rewrite lookup_insert_ne in Hk by done.
  by destruct (Hg _ _ Hk) as [?|[_ ?]].
Qed.

Lemma provision_tree out dname s x s1 :
  provision out dname s = (Return x, s1) ->
  let dd := dataset_dir out dname in
  disk s1 !! resolve (json_path dd) = Some (File (Json (manifest_of dname 0))) /\
  is_dir (disk s1) (resolve dd) = true /\
  is_dir (disk s1) (resolve (os_path_join dd "imagesTr")) = true /\
  is_dir (disk s1) (resolve (os_path_join dd "labelsTr")) = true /\
  is_dir (disk s1) (resolve (os_path_join dd "imagesTs")) = true.
Proof.
  intros Hp dd. subst dd.
  destruct (provision_ok _ _ _ _ _ Hp)
    as (d & _ & _ & -> & _ & Hj & H0 & H1 & H2 & H3).
  cbn [disk]. split; [by rewrite lookup_insert_eq|].
  assert (forall k, is_dir d k = true ->
            is_dir (<[resolve (json_path (dataset_dir out dname))
                      := File (Json (manifest_of dname 0))]> d) k
            = true) as Hkeep.
  { intros k Hk. unfold is_dir in *. destruct k as [|y k]; [done|].
    rewrite lookup_insert_ne; [done|]. intros E. rewrite E in Hj.
    cbn in Hj, Hk. destruct (d !! (y :: k)) as [[?|]|]; done. }
  repeat split; by apply Hkeep.
Qed.

(** A run that returns leaves the manifest of its cases in [dataset.json]. *)
Lemma run_final_manifest a b out dname s s' :
  convert_to_nnunet_format a b out dname s = (Return tt, s') ->
  exists s1 data_files mask_files,
    provision out dname s
      = (Return (dirs_of (dataset_dir out dname), length (heap s)), s1) /\
    get_file_list a ".tif" s1 = (Return data_files, s1) /\
    get_file_list b ".tif" s1 = (Return mask_files, s1) /\
    length data_files = length mask_files /\
    disk s' !! resolve (json_path (dataset_dir out dname))
      = Some (File (Json (manifest_of dname (length data_files)))).
Proof.
  intros (s1 & data_files & mask_files & s2 & Hp & Ha & Hb & Hlen & _ & ->)%run_ok.
  exists s1, data_files, mask_files. do 4 (split; [done|]).
  cbn [disk]. by rewrite lookup_insert_eq.
Qed.

Lemma run_pair {A} (m : M A) s : m s = (outcome m s, after m s).
Proof. unfold outcome, after. by destruct (m s). Qed.

Lemma outcome_eq {A} (m : M A) s r : outcome m s = r -> m s = (r, after m s).
Proof. intros <-. apply run_pair. Qed.

Lemma get_file_list_after directory extension s :
  after (get_file_list directory extension) s = s.
Proof. unfold after. by rewrite get_file_list_eq. Qed.

Lemma get_file_list_outcome directory extension s l :
  outcome (get_file_list directory extension) s = Return l ->
  get_file_list directory extension s = (Return l, s).
Proof.
  intros Ho%outcome_eq. by rewrite get_file_list_after in Ho.
Qed.

Lemma parent_snoc (l : list string) x : parent (l ++ [x]) = l.
Proof.
  unfold parent. rewrite length_app. cbn.
  replace (length l + 1 - 1) with (length l) by lia. by rewrite take_app_length.
Qed.

Lemma json_path_nonempty dd : json_path dd <> "".
Proof.
  intros E%(f_equal resolve). rewrite resolve_json_path in E.
  by destruct (resolve dd).
Qed.

(** The last phase succeeds when [dataset.json] is a file in a directory. *)
Lemma finalize_succeeds dd dname h0 n s2 c :
  heap s2 = h0 ++ [manifest_in_progress dname n] ->
  is_dir (disk s2) (resolve dd) = true ->
  disk s2 !! resolve (json_path dd) = Some (File c) ->
  finalize dd (length h0) n s2 =
    (Return tt,
     {| disk := <[resolve (json_path dd) := File (Json (manifest_of dname n))]> (disk s2);
        heap := h0 ++ [manifest_of dname n];
        stdout := stdout s2 ++ ["Dataset converted successfully to: " +:+ dd;
                                "Total training cases: " +:+ str n] |}).
Proof.
  intros Hh Hd Hj. rewrite (finalize_eq dd dname) by done.
  rewrite write_file_succeeds.
  - reflexivity.
  - apply json_path_nonempty.
  - cbn [disk set_heap]. rewrite resolve_json_path in *.
    unfold is_dir. rewrite Hj. by destruct (resolve dd).
  - cbn [disk set_heap]. by rewrite resolve_json_path, parent_snoc.
Qed.


(** C2.  When the two enumerated lists differ in length, the run raises the
    count-mismatch error, whose message contains both counts, in the state
    the first phase left: no file but [dataset.json] has been created or
    changed, so no image or mask was converted. *)
Theorem count_mismatch_aborts_before_conversion a b out dname s x
    data_files mask_files :
  outcome (provision out dname) s = Return x ->
  outcome (get_file_list a ".tif") (after (provision out dname) s) = Return data_files ->
  outcome (get_file_list b ".tif") (after (provision out dname) s) = Return mask_files ->
  length data_files <> length mask_files ->
  exists msg pre mid post,
    convert_to_nnunet_format a b out dname s
      = (Raise (ValueError msg), after (provision out dname) s) /\
    msg = pre +:+ str (length data_files) +:+ mid +:+ str (length mask_files) +:+ post /\
    (forall k c, disk (after (provision out dname) s) !! k = Some (File c) ->
       k = resolve (json_path (dataset_dir out dname)) \/ disk s !! k = Some (File c)).
Proof.
  intros Hp%outcome_eq Ha%get_file_list_outcome Hb%get_file_list_outcome Hlen.
  exists (mismatch_message (length data_files) (length mask_files)),
    "Number of images (", ") and masks (", ") do not match.".
  split; [|split; [done|]].
  - rewrite run_phases, Hp. destruct x as [dirs r]. rewrite Ha, Hb.
    by destruct (Nat.eqb_spec (length data_files) (length mask_files)).
  - intros k c Hk. by eapply provision_files.
Qed.

(** C3.  With [N] names in each of the two enumerated lists, a run that
    returns leaves a manifest with exactly [N] training entries and
    [numTraining = N]; with [N = 0] the run does return, and the manifest
    it leaves has no training entry and [numTraining = 0]. *)
Theorem training_entries_count a b out dname s x data_files mask_files N :
  outcome (provision out dname) s = Return x ->
  outcome (get_file_list a ".tif") (after (provision out dname) s) = Return data_files ->
  outcome (get_file_list b ".tif") (after (provision out dname) s) = Return mask_files ->
  length data_files = N -> length mask_files = N ->
  (outcome (convert_to_nnunet_format a b out dname) s = Return tt ->
   exists m,
     disk (after (convert_to_nnunet_format a b out dname) s)
       !! resolve (json_path (dataset_dir out dname)) = Some (File (Json m)) /\
     length (training m) = N /\ numTraining m = N) /\
  (N = 0 ->
   exists m,
     outcome (convert_to_nnunet_format a b out dname) s = Return tt /\
     disk (after (convert_to_nnunet_format a b out dname) s)
       !! resolve (json_path (dataset_dir out dname)) = Some (File (Json m)) /\
     training m = [] /\ numTraining m = 0).
Proof.
  intros Hp%outcome_eq Ha%get_file_list_outcome Hb%get_file_list_outcome Hda Hma.
  split.
  - intros (s1' & data' & mask' & Hp' & Ha' & Hb' & _ & Hj)%outcome_eq%run_final_manifest.
    rewrite Hp in Hp'. injection Hp' as _ <-.
    rewrite Ha in Ha'. injection Ha' as <-.
    exists (manifest_of dname (length data_files)). split; [done|].
    cbn. by rewrite length_fmap, length_seq.
  - intros ->. apply nil_length_inv in Hda as ->. apply nil_length_inv in Hma as ->.
    pose proof (provision_tree _ _ _ _ _ Hp) as (Hj & Hd & _).
    destruct (provision_ok _ _ _ _ _ Hp) as (d & _ & -> & Hs1 & _).
    exists (manifest_of dname 0).
    assert (convert_to_nnunet_format a b out dname s =
      (Return tt,
       {| disk := <[resolve (json_path (dataset_dir out dname))
                      := File (Json (manifest_of dname 0))]>
                    (disk (after (provision out dname) s));
          heap := heap s ++ [manifest_of dname 0];
          stdout := stdout (after (provision out dname) s) ++
            ["Dataset converted successfully to: " +:+ dataset_dir out dname;
             "Total training cases: " +:+ str 0] |})) as Hrun.
    { rewrite run_phases, Hp, Ha, Hb. cbn [length Nat.eqb negb].
      unfold bind, convert_all.
      cbn [zip zip_with enumerate enumerate_from for_each ret].
      eapply (finalize_succeeds _ dname (heap s) 0); [by rewrite Hs1|done..]. }
    unfold outcome, after. rewrite Hrun. cbn [fst snd disk].
    split; [done|]. split; [by rewrite lookup_insert_eq|done].
Qed.

(** C5.  In the manifest that a run that returns leaves in [dataset.json],
    [numTraining] is the length of the training list. *)
Theorem final_count_equals_entries a b out dname s :
  outcome (convert_to_nnunet_format a b out dname) s = Return tt ->
  exists m,
    disk (after (convert_to_nnunet_format a b out dname) s)
      !! resolve (json_path (dataset_dir out dname)) = Some (File (Json m)) /\
    numTraining m = length (training m).
Proof.
  intros (s1 & data_files & mask_files & _ & _ & _ & _ & Hj)%outcome_eq%run_final_manifest.
  eexists. split; [done|]. cbn. by rewrite length_fmap, length_seq.
Qed.

(** C8.  In the manifest that a run that returns leaves in [dataset.json],
    the modality map is [{"0": "CT"}] and the label map is
    [{"0": "background", "1": "roi"}], whatever the inputs hold. *)
Theorem final_modality_and_labels a b out dname s :
  outcome (convert_to_nnunet_format a b out dname) s = Return tt ->
  exists m,
    disk (after (convert_to_nnunet_format a b out dname) s)
      !! resolve (json_path (dataset_dir out dname)) = Some (File (Json m)) /\
    modality m = [("0", "CT")] /\
    labels m = [("0", "background"); ("1", "roi")].
Proof.
  intros (s1 & data_files & mask_files & _ & _ & _ & _ & Hj)%outcome_eq%run_final_manifest.
  eexists. split; [done|]. done.
Qed.

(** C10.  In the manifest that a run that returns leaves in
    [dataset.json], ["name"] is ["ROI Dataset"] and ["description"],
    ["reference"], ["licence"] and ["release"] are their fixed texts,
    whatever [dataset_name] is.  The argument is the ["task"] field and
    part of the path of the file, and nothing else of the manifest depends
    on it: with the task set to any [t], the manifest is the one of a
    dataset named [t] with as many cases. *)
Theorem fixed_manifest_fields a b out dname s :
  outcome (convert_to_nnunet_format a b out dname) s = Return tt ->
  exists m,
    disk (after (convert_to_nnunet_format a b out dname) s)
      !! resolve (json_path (os_path_join out dname)) = Some (File (Json m)) /\
    name m = "ROI Dataset" /\
    description m = "Converted ROI segmentation dataset" /\
    reference m = "None" /\
    licence m = "None" /\
    release m = "1.0" /\
    task m = dname /\
    (forall t, set_task t m = manifest_of t (numTraining m)).
Proof.
  intros (s1 & data_files & mask_files & _ & _ & _ & _ & Hj)%outcome_eq%run_final_manifest.
  eexists. split; [exact Hj|]. done.
Qed.

(** C7.  For a directory, [get_file_list] returns the names of its entries
    that end with the extension, letter case apart: each such name once,
    in ascending order, and no name from below a subdirectory.  Letter
    case apart is said twice: with [lower], as the code compares, and with
    [same_text], letter by letter: a name is listed exactly when it is an
    entry of the directory and its end has the letters of the extension,
    capital or small.  For any other path it raises the
    directory-not-found error. *)
Theorem get_file_list_spec directory extension s :
  (forall p l, scandir_order p l ≡ₚ l) ->
  (outcome (os_path_isdir directory) s = Return true ->
   exists l,
     get_file_list directory extension s = (Return l, s) /\
     Sorted String.le l /\ NoDup l /\
     (forall n, n ∈ l <->
        is_Some (disk s !! (resolve directory ++ [n])) /\
        exists pre, lower n = pre +:+ lower extension) /\
     (forall n, n ∈ l <->
        is_Some (disk s !! (resolve directory ++ [n])) /\
        exists pre suffix,
          n = pre +:+ suffix /\ same_text suffix extension = true)) /\
  (outcome (os_path_isdir directory) s = Return false ->
   get_file_list directory extension s
     = (Raise (FileNotFoundError ("Directory not found: " +:+ directory)), s)).
Proof.
  intros Hperm. rewrite get_file_list_eq. unfold outcome, os_path_isdir.
  cbn [fst]. split.
  - intros [= ->]. eexists. split; [done|]. split; [apply sorted_Sorted|].
    split; [|split].
    + rewrite sorted_Permutation. apply NoDup_filter.
      rewrite Hperm. apply NoDup_children.
    + intros n. rewrite elem_of_sorted, list_elem_of_filter, Hperm.
      by rewrite elem_of_children, endswith_spec, (comm and).
    + intros n. rewrite elem_of_sorted, list_elem_of_filter, Hperm.
      rewrite elem_of_children, endswith_spec, (comm and).
      by rewrite ends_with_letter_case.
  - by intros [= ->].
Qed.

End Run.



Lemma count_mismatch_aborts_before_conversion_witness :
  exists msg pre mid post,
    convert_to_nnunet_format (P := Demo.platform)
        "in/img" "in/msk" "out" default_dataset_name Demo.state_mismatch
      = (Raise (ValueError msg),
         after (provision "out" default_dataset_name) Demo.state_mismatch) /\
    msg = pre +:+ "2" +:+ mid +:+ "1" +:+ post.
Proof.
  destruct (count_mismatch_aborts_before_conversion (P := Demo.platform)
              "in/img" "in/msk" "out" default_dataset_name Demo.state_mismatch
              (dirs_of (dataset_dir "out" default_dataset_name), 0)
              ["a.TIF"; "b.tif"] ["a.tif"])
    as (msg & pre & mid & post & Hrun & Hmsg & _).
  - reflexivity.
  - reflexivity.
  - reflexivity.
  - cbn. lia.
  - exists msg, pre, mid, post. split; [exact Hrun|exact Hmsg].
Defined.

Lemma training_entries_count_witness :
  (exists m,
     disk (after (convert_to_nnunet_format (P := Demo.platform)
                    "in/img" "in/msk" "out" default_dataset_name) Demo.state0)
       !! resolve (json_path (dataset_dir "out" default_dataset_name))
       = Some (File (Json m)) /\
     length (training m) = 2 /\ numTraining m = 2) /\
  (exists m,
     outcome (convert_to_nnunet_format (P := Demo.platform)
                "in/img" "in/msk" "out" default_dataset_name) Demo.state_empty
       = Return tt /\
     disk (after (convert_to_nnunet_format (P := Demo.platform)
                    "in/img" "in/msk" "out" default_dataset_name) Demo.state_empty)
       !! resolve (json_path (dataset_dir "out" default_dataset_name))
       = Some (File (Json m)) /\
     training m = [] /\ numTraining m = 0).
Proof.
  split.
  - apply (training_entries_count (P := Demo.platform)
             "in/img" "in/msk" "out" default_dataset_name Demo.state0
             (dirs_of (dataset_dir "out" default_dataset_name), 0)
             ["a.TIF"; "b.tif"] ["a.tif"; "b.tif"] 2);
      reflexivity.
  - apply (training_entries_count (P := Demo.platform)
             "in/img" "in/msk" "out" default_dataset_name Demo.state_empty
             (dirs_of (dataset_dir "out" default_dataset_name), 0)
             [] [] 0);
      reflexivity.
Defined.

Lemma final_count_equals_entries_witness :
  exists m,
    disk (after (convert_to_nnunet_format (P := Demo.platform)
                   "in/img" "in/msk" "out" default_dataset_name) Demo.state0)
      !! resolve (json_path (dataset_dir "out" default_dataset_name))
      = Some (File (Json m)) /\
    numTraining m = length (training m).
Proof.
  apply (final_count_equals_entries (P := Demo.platform)
           "in/img" "in/msk" "out" default_dataset_name Demo.state0).
  reflexivity.
Defined.

Lemma final_modality_and_labels_witness :
  exists m,
    disk (after (convert_to_nnunet_format (P := Demo.platform)
                   "in/img" "in/msk" "out" default_dataset_name) Demo.state0)
      !! resolve (json_path (dataset_dir "out" default_dataset_name))
      = Some (File (Json m)) /\
    modality m = [("0", "CT")] /\
    labels m = [("0", "background"); ("1", "roi")].
Proof.
  apply (final_modality_and_labels (P := Demo.platform)
           "in/img" "in/msk" "out" default_dataset_name Demo.state0).
  reflexivity.
Defined.

Lemma fixed_manifest_fields_witness :
  exists m,
    disk (after (convert_to_nnunet_format (P := Demo.platform)
                   "in/img" "in/msk" "out" "Task002_Other") Demo.state0)
      !! resolve (json_path (os_path_join "out" "Task002_Other"))
      = Some (File (Json m)) /\
    name m = "ROI Dataset" /\
    description m = "Converted ROI segmentation dataset" /\
    reference m = "None" /\
    licence m = "None" /\
    release m = "1.0" /\
    task m = "Task002_Other" /\
    (forall t, set_task t m = manifest_of t (numTraining m)).
Proof.
  apply (fixed_manifest_fields (P := Demo.platform)
           "in/img" "in/msk" "out" "Task002_Other" Demo.state0).
  reflexivity.
Defined.

Lemma get_file_list_spec_witness :
  (get_file_list (P := Demo.platform) "in/img" ".tif" Demo.state0
     = (Return ["a.TIF"; "b.tif"], Demo.state0) /\
   Sorted String.le ["a.TIF"; "b.tif"] /\ NoDup ["a.TIF"; "b.tif"] /\
   (forall n, n ∈ ["a.TIF"; "b.tif"] <->
      is_Some (disk Demo.state0 !! (resolve "in/img" ++ [n])) /\
      exists pre, lower n = pre +:+ lower ".tif") /\
   (forall n, n ∈ ["a.TIF"; "b.tif"] <->
      is_Some (disk Demo.state0 !! (resolve "in/img" ++ [n])) /\
      exists pre suffix, n = pre +:+ suffix /\ same_text suffix ".tif" = true)) /\
  get_file_list (P := Demo.platform) "in/img/a.TIF" ".tif" Demo.state0
    = (Raise (FileNotFoundError ("Directory not found: " +:+ "in/img/a.TIF")),
       Demo.state0).
Proof.
  split.
  - destruct (get_file_list_spec (P := Demo.platform) "in/img" ".tif" Demo.state0)
      as [(l & Hl & Hrest) _].
    + intros p l. apply reverse_Permutation.
    + reflexivity.
    + assert (outcome (get_file_list (P := Demo.platform) "in/img" ".tif") Demo.state0
              = Return ["a.TIF"; "b.tif"]) as Ho by reflexivity.
      unfold outcome in Ho. rewrite Hl in Ho. injection Ho as ->.
      exact (conj Hl Hrest).
  - apply (get_file_list_spec (P := Demo.platform) "in/img/a.TIF" ".tif" Demo.state0).
    + intros p l. apply reverse_Permutation.
    + reflexivity.
Defined.

End Claims.

(** ** A conversion that fails *)

Module Failure.
Import Py OS Script Layout PyFacts PathFacts NameFacts DiskFacts StepFacts LoopFacts.
Import Claims.

Section Failure.
Context `{P : Platform}.

Implicit Types (s : state) (d : gmap (list string) node).

(** The loop, cut at position [i]. *)
Lemma convert_all_split a b dirs r data_files mask_files i df mf s :
  data_files !! i = Some df -> mask_files !! i = Some mf ->
  convert_all a b dirs r data_files mask_files s =
    match convert_all a b dirs r (take i data_files) (take i mask_files) s with
    | (Return _, si) =>
        match convert_case a b dirs r (i, (df, mf)) si with
        | (Return _, si') =>
            for_each (enumerate_from (S i) (drop (S i) (zip data_files mask_files)))
                     (convert_case a b dirs r) si'
        | (Raise e, si') => (Raise e, si')
        end
    | (Raise e, si) => (Raise e, si)
    end.
Proof.
  intros Hdf Hmf. unfold convert_all, enumerate.
  assert (zip data_files mask_files !! i = Some (df, mf)) as Hl.
  { apply lookup_zip_with_Some. eauto. }
  rewrite <- (take_drop_middle _ _ _ Hl) at 1.
  rewrite enumerate_from_app, for_each_app. cbn [Nat.add].
  rewrite length_take_le by (apply lookup_lt_Some in Hl; lia).
  rewrite zip_with_take.
  destruct (for_each _ _ s) as [[[]|e] si]; [|done].
  cbn [enumerate_from for_each]. unfold bind.
  by destruct (convert_case _ _ _ _ _ si) as [[[]|e] si'].
Qed.

(** C6.  When the first [i] pairs were converted and the conversion of the
    image or of the mask at position [i] raises, the run raises that error
    in the state of that moment.  No entry for the pair [i] was appended to
    the manifest in memory, no pair after [i] was converted, [dataset.json]
    still holds the skeleton manifest, and the converted files of the pairs
    before [i] are still there. *)
Theorem failed_conversion_aborts_run a b out dname s x data_files mask_files
    i df mf e :
  outcome (provision out dname) s = Return x ->
  outcome (get_file_list a ".tif") (after (provision out dname) s) = Return data_files ->
  outcome (get_file_list b ".tif") (after (provision out dname) s) = Return mask_files ->
  length data_files = length mask_files ->
  data_files !! i = Some df -> mask_files !! i = Some mf ->
  outcome (convert_all a b (dirs_of (dataset_dir out dname)) (length (heap s))
             (take i data_files) (take i mask_files))
          (after (provision out dname) s) = Return tt ->
  outcome (convert_case a b (dirs_of (dataset_dir out dname)) (length (heap s))
             (i, (df, mf)))
          (after (convert_all a b (dirs_of (dataset_dir out dname)) (length (heap s))
                    (take i data_files) (take i mask_files))
                 (after (provision out dname) s)) = Raise e ->
  let dd := dataset_dir out dname in
  let s1 := after (provision out dname) s in
  let sf := after (convert_to_nnunet_format a b out dname) s in
  outcome (convert_to_nnunet_format a b out dname) s = Raise e /\
  (exists path, e = RuntimeError path) /\
  heap sf = heap s ++ [manifest_in_progress dname i] /\
  training (manifest_in_progress dname i) = entry_of <$> seq 0 i /\
  disk sf !! resolve (json_path dd) = Some (File (Json (manifest_of dname 0))) /\
  training (manifest_of dname 0) = [] /\ numTraining (manifest_of dname 0) = 0 /\
  disk sf !! resolve (dst_mask_path dd i) = disk s1 !! resolve (dst_mask_path dd i) /\
  (forall j, i < j ->
     disk sf !! resolve (dst_data_path dd j) = disk s1 !! resolve (dst_data_path dd j) /\
     disk sf !! resolve (dst_mask_path dd j) = disk s1 !! resolve (dst_mask_path dd j)) /\
  (forall j, j < i ->
     exists c c', disk sf !! resolve (dst_data_path dd j) = Some (File c) /\
                  disk sf !! resolve (dst_mask_path dd j) = Some (File c')).
Proof.
  intros Hp%outcome_eq Ha%get_file_list_outcome Hb%get_file_list_outcome Hlen
    Hdf Hmf Hpre%outcome_eq Hfail%outcome_eq dd s1 sf.
  fold dd s1 in Hp, Ha, Hb, Hpre, Hfail.
  set (si := after (convert_all a b (dirs_of dd) (length (heap s))
                      (take i data_files) (take i mask_files)) s1) in *.
  set (sx := after (convert_case a b (dirs_of dd) (length (heap s)) (i, (df, mf))) si) in *.
  pose proof (provision_tree _ _ _ _ _ Hp) as (Hjson & _).
  destruct (provision_ok _ _ _ _ _ Hp) as (d & _ & -> & Hs1 & _).
  fold dd s1 in Hjson, Hs1.
  assert (convert_to_nnunet_format a b out dname s = (Raise e, sx)) as Hrun.
  { rewrite run_phases, Hp, Ha, Hb. fold dd.
    rewrite Hlen, Nat.eqb_refl. cbn [negb]. unfold bind.
    rewrite (convert_all_split _ _ _ _ _ _ i df mf) by done.
    by rewrite Hpre, Hfail. }
  assert (sf = sx) as -> by (unfold sf, after; by rewrite Hrun).
  assert (i < length data_files) as Hi by by eapply lookup_lt_Some.
  assert (loop_inv a b dd dname (take i data_files) (take i mask_files)
            (heap s) s1 i si) as Hinv.
  { rewrite <- (length_take_le data_files i) at 3 by lia.
    apply convert_all_ok; [by rewrite Hs1| |done].
    rewrite !length_take. lia. }
  destruct (convert_case_raise _ _ _ _ _ _ _ _ _ _ _ _ _ _ Hinv Hfail)
    as (Hrt & Hheap & _ & Hdisk).
  destruct Hinv as (Hh & _ & Hfr & Hcv & _).
  assert (forall key, key <> resolve (dst_data_path dd i) ->
                      disk sx !! key = disk si !! key) as Hsx.
  { intros key Hkey. destruct Hdisk as [->|[c ->]]; [done|].
    by rewrite lookup_insert_ne. }
  split; [unfold outcome; by rewrite Hrun|]. split; [done|].
  split; [by rewrite Hheap|]. split; [done|]. split.
  { rewrite Hsx by (intros E; by apply json_dst_data_ne in E).
    rewrite Hfr; [done|]. intros j _.
    split; [apply json_dst_data_ne|apply json_dst_mask_ne]. }
  split; [done|]. split; [done|]. split.
  { rewrite Hsx by (intros E; symmetry in E; by apply dst_data_mask_ne in E).
    apply Hfr. intros j Hj. split.
    - intros E. symmetry in E. by apply dst_data_mask_ne in E.
    - intros E%dst_mask_inj. lia. }
  split.
  - intros j Hj. split.
    + rewrite Hsx by (intros E%dst_data_inj; lia). apply Hfr. intros j' Hj'. split.
      * intros E%dst_data_inj. lia.
      * apply dst_data_mask_ne.
    + rewrite Hsx by (intros E; symmetry in E; by apply dst_data_mask_ne in E).
      apply Hfr. intros j' Hj'. split.
      * intros E. symmetry in E. by apply dst_data_mask_ne in E.
      * intros E%dst_mask_inj. lia.
  - intros j Hj.
    assert (is_Some (take i data_files !! j)) as [df' Hdf'].
    { apply lookup_lt_is_Some. rewrite length_take. lia. }
    assert (is_Some (take i mask_files !! j)) as [mf' Hmf'].
    { apply lookup_lt_is_Some. rewrite length_take. lia. }
    destruct (Hcv j df' mf' Hj Hdf' Hmf')
      as [(? & ? & c & _ & _ & Hc & _) (? & ? & c' & _ & _ & Hc' & _)].
    exists c, c'. split.
    + rewrite Hsx by (intros E%dst_data_inj; lia). done.
    + rewrite Hsx by (intros E; symmetry in E; by apply dst_data_mask_ne in E). done.
Qed.

End Failure.

Lemma failed_conversion_aborts_run_witness :
  outcome (convert_to_nnunet_format (P := Demo.platform)
             "in/img" "in/msk" "out" default_dataset_name) Demo.state_broken
    = Raise (RuntimeError "in/img/b.tif") /\
  disk (after (convert_to_nnunet_format (P := Demo.platform)
                 "in/img" "in/msk" "out" default_dataset_name) Demo.state_broken)
    !! resolve (json_path (dataset_dir "out" default_dataset_name))
    = Some (File (Json (manifest_of default_dataset_name 0))).
Proof.
  destruct (failed_conversion_aborts_run (P := Demo.platform)
              "in/img" "in/msk" "out" default_dataset_name Demo.state_broken
              (dirs_of (dataset_dir "out" default_dataset_name), 0)
              ["a.TIF"; "b.tif"] ["a.tif"; "b.tif"] 1 "b.tif" "b.tif"
              (RuntimeError "in/img/b.tif"))
    as (Hout & _ & _ & _ & Hjson & _); try reflexivity.
  split; [exact Hout|exact Hjson].
Defined.

End Failure.

(** ** Case identifiers and the order of the listing *)

Module Order.
Import Py OS Script Layout PyFacts PathFacts NameFacts DiskFacts StepFacts LoopFacts.
Import Claims.

Section Order.
Context `{P : Platform}.

Implicit Types (s : state) (d : gmap (list string) node).

(** The result of [get_file_list] does not depend on the order in which the
    system lists the directory. *)
Lemma get_file_list_order order' directory extension s :
  (forall p l, scandir_order p l ≡ₚ l) ->
  (forall p l, order' p l ≡ₚ l) ->
  get_file_list (P := with_order P order') directory extension s =
  get_file_list directory extension s.
Proof.
  intros Hperm Hperm'. rewrite !get_file_list_eq.
  destruct (negb _ && _); [|done]. do 2 f_equal.
  apply sorted_proper. cbn [scandir_order with_order].
  by rewrite Hperm, Hperm'.
Qed.

Lemma run_order order' a b out dname s :
  (forall p l, scandir_order p l ≡ₚ l) ->
  (forall p l, order' p l ≡ₚ l) ->
  convert_to_nnunet_format (P := with_order P order') a b out dname s =
  convert_to_nnunet_format a b out dname s.
Proof.
  intros Hperm Hperm'. rewrite !run_phases.
  destruct (provision out dname s) as [[[dirs r]|e] s1]; [|done].
  rewrite !(get_file_list_order order') by done.
  destruct (get_file_list a ".tif" s1) as [[data_files|e] s2]; [|done].
  rewrite !(get_file_list_order order') by done.
  destruct (get_file_list b ".tif" s2) as [[mask_files|e] s3]; [|done].
  reflexivity.
Qed.

Lemma entry_of_text i :
  entry_of i =
  {| image := "./imagesTr/case_" +:+ format_0d 4 i +:+ "_0000.nii.gz";
     label := "./labelsTr/case_" +:+ format_0d 4 i +:+ ".nii.gz" |}.
Proof. reflexivity. Qed.

(** C4.  In a run that returns, the case at position [i] of the two sorted
    lists gets the identifier [case_{i:04d}]: the files
    [imagesTr/case_{i:04d}_0000.nii.gz] and [labelsTr/case_{i:04d}.nii.gz]
    are the conversions of the [i]-th image and the [i]-th mask, and the
    [i]-th training entry names exactly these two files, relative to the
    dataset root.  The digits of the identifier at position [i] are the
    number [i], so the identifiers ascend with the positions and those of
    different positions differ; below 10000 they are exactly four
    characters, filled with zeros on the left, and from 1000 on no zero
    is put in front; and the whole run is the same whatever the order in
    which the system lists the directories. *)
Theorem case_ids_follow_sorted_order a b out dname s x data_files mask_files :
  (forall p l, scandir_order p l ≡ₚ l) ->
  outcome (provision out dname) s = Return x ->
  outcome (get_file_list a ".tif") (after (provision out dname) s) = Return data_files ->
  outcome (get_file_list b ".tif") (after (provision out dname) s) = Return mask_files ->
  outcome (convert_to_nnunet_format a b out dname) s = Return tt ->
  let dd := dataset_dir out dname in
  let s1 := after (provision out dname) s in
  let s' := after (convert_to_nnunet_format a b out dname) s in
  (exists m,
     disk s' !! resolve (json_path dd) = Some (File (Json m)) /\
     length (training m) = length data_files /\
     forall i, i < length data_files ->
       training m !! i = Some
         {| image := "./imagesTr/case_" +:+ format_0d 4 i +:+ "_0000.nii.gz";
            label := "./labelsTr/case_" +:+ format_0d 4 i +:+ ".nii.gz" |}) /\
  Sorted String.le data_files /\ Sorted String.le mask_files /\
  (forall i df mf,
     data_files !! i = Some df -> mask_files !! i = Some mf ->
     converted_file dd (os_path_join a df) (dst_data_path dd i) (disk s1) (disk s') /\
     converted_file dd (os_path_join b mf) (dst_mask_path dd i) (disk s1) (disk s')) /\
  (forall i, Nat.of_uint <$> DecimalString.NilEmpty.uint_of_string (format_0d 4 i)
             = Some i) /\
  (forall i j, case_id i = case_id j -> i = j) /\
  (forall i, i < 10 ^ 4 -> String.length (format_0d 4 i) = 4) /\
  (forall i, 10 ^ 3 <= i -> format_0d 4 i = str i) /\
  (forall order', (forall p l, order' p l ≡ₚ l) ->
     convert_to_nnunet_format (P := with_order P order') a b out dname s =
     convert_to_nnunet_format a b out dname s).
Proof.
  intros Hperm Hp%outcome_eq Ha%get_file_list_outcome Hb%get_file_list_outcome
    Hrun%outcome_eq dd s1 s'.
  destruct (run_ok _ _ _ _ _ _ Hrun)
    as (s1' & data' & mask' & s2 & Hp' & Ha' & Hb' & Hlen & Hinv & Hs').
  rewrite Hp in Hp'. injection Hp' as _ <-.
  rewrite Ha in Ha'. injection Ha' as <-.
  rewrite Hb in Hb'. injection Hb' as <-.
  fold dd s1 s' in Hs', Hinv, Ha, Hb.
  split; [|split; [|split; [|split; [|split; [|split; [|split; [|split]]]]]]].
  - exists (manifest_of dname (length data_files)). rewrite Hs'. cbn [disk].
    split; [by rewrite lookup_insert_eq|]. cbn [training manifest_of].
    split; [by rewrite length_fmap, length_seq|].
    intros i Hi. rewrite list_lookup_fmap, lookup_seq_lt by done. done.
  - rewrite get_file_list_eq in Ha. destruct (negb _ && _); [|done].
    injection Ha as <-. apply sorted_Sorted.
  - rewrite get_file_list_eq in Hb. destruct (negb _ && _); [|done].
    injection Hb as <-. apply sorted_Sorted.
  - intros i df mf Hdf Hmf. destruct Hinv as (_ & _ & _ & Hcv & _).
    destruct (Hcv i df mf) as [(c0 & img & c & ? & ? & Hc & ?)
                               (c0' & img' & c' & ? & ? & Hc' & ?)];
      [by eapply lookup_lt_Some|done..|].
    rewrite Hs'. cbn [disk]. split.
    + exists c0, img, c. rewrite lookup_insert_ne by apply json_dst_data_ne. done.
    + exists c0', img', c'. rewrite lookup_insert_ne by apply json_dst_mask_ne. done.
  - apply format_0d_value.
  - apply case_id_inj.
  - intros i Hi. apply format_0d_length; [lia|done].
  - intros i Hi. apply format_0d_wide; [lia|done].
  - intros order' Hperm'. by apply run_order.
Qed.

End Order.

Lemma case_ids_follow_sorted_order_witness :
  exists m,
    disk (after (convert_to_nnunet_format (P := Demo.platform)
                   "in/img" "in/msk" "out" default_dataset_name) Demo.state0)
      !! resolve (json_path (dataset_dir "out" default_dataset_name))
      = Some (File (Json m)) /\
    training m =
      [ {| image := "./imagesTr/case_0000_0000.nii.gz";
           label := "./labelsTr/case_0000.nii.gz" |};
        {| image := "./imagesTr/case_0001_0000.nii.gz";
           label := "./labelsTr/case_0001.nii.gz" |} ].
Proof.
  destruct (case_ids_follow_sorted_order (P := Demo.platform)
              "in/img" "in/msk" "out" default_dataset_name Demo.state0
              (dirs_of (dataset_dir "out" default_dataset_name), 0)
              ["a.TIF"; "b.tif"] ["a.tif"; "b.tif"])
    as [(m & Hm & Hlen & Hi) _].
  - intros p l. apply reverse_Permutation.
  - reflexivity.
  - reflexivity.
  - reflexivity.
  - reflexivity.
  - exists m. split; [exact Hm|].
    pose proof (Hi 0 Nat.lt_0_2) as H0. pose proof (Hi 1 Nat.lt_1_2) as H1.
    destruct (training m) as [|e0 [|e1 [|e2 rest]]]; try discriminate Hlen.
    injection H0 as ->. injection H1 as ->. reflexivity.
Defined.

End Order.

(** ** Running the conversion again *)

Module Rerun.
Import Py OS Script Layout PyFacts PathFacts NameFacts DiskFacts StepFacts LoopFacts.
Import Claims.

Implicit Types (s : state) (d : gmap (list string) node).

(** The components of a resolved path are names. *)
Lemma split_path_names cur p :
  no_slash cur = true -> forallb simple_name (split_path cur p) = true.
Proof.
  revert cur. induction p as [|c p IH]; intros cur Hcur.
  - cbn. destruct (String.eqb cur "") eqn:E; [done|].
    cbn. unfold simple_name. by rewrite E, Hcur.
  - rewrite split_path_unfold. destruct (Ascii.eqb c "/") eqn:Ec.
    + rewrite forallb_app, IH by done.
      destruct (String.eqb cur "") eqn:E; [done|].
      cbn. unfold simple_name. by rewrite E, Hcur.
    + apply IH. rewrite no_slash_app, Hcur. cbn. by rewrite Ec.
Qed.

Lemma resolve_names p : forallb simple_name (resolve p) = true.
Proof. by apply split_path_names. Qed.

Lemma wf_disk_spec d :
  wf_disk d = true <->
  forall k v, d !! k = Some v -> forallb simple_name k = true.
Proof.
  unfold wf_disk. rewrite forallb_forall. split.
  - intros Hd k v Hk. apply (Hd (k, v)).
    apply list_elem_of_In. by apply elem_of_map_to_list.
  - intros Hd [k v] Hin%list_elem_of_In%elem_of_map_to_list. by eapply Hd.
Qed.

Lemma wf_disk_insert d k v :
  wf_disk d = true -> forallb simple_name k = true -> wf_disk (<[k := v]> d) = true.
Proof.
  rewrite !wf_disk_spec. intros Hd Hk k' v'.
  destruct (decide (k = k')) as [<-|Hne]; [done|].
  rewrite lookup_insert_ne by done. apply Hd.
Qed.

Lemma mkdir_p_wf name made todo d r d' :
  wf_disk d = true ->
  forallb simple_name made = true -> forallb simple_name todo = true ->
  mkdir_p name made todo d = (r, d') -> wf_disk d' = true.
Proof.
  revert made d. induction todo as [|c todo IH]; intros made d Hd Hmade Htodo; cbn.
  - by intros [= _ <-].
  - cbn in Htodo. apply andb_prop in Htodo as [Hc Htodo].
    assert (forallb simple_name (made ++ [c]) = true) as Hmc.
    { rewrite forallb_app, Hmade. cbn. by rewrite Hc. }
    destruct (d !! (made ++ [c])) as [[?|]|] eqn:E.
    + by intros [= _ <-].
    + by apply IH.
    + apply IH; [|done..]. by apply wf_disk_insert.
Qed.

Lemma os_makedirs_wf p s r s' :
  wf_disk (disk s) = true -> os_makedirs p s = (r, s') -> wf_disk (disk s') = true.
Proof.
  intros Hd. unfold os_makedirs. destruct (String.eqb p ""); [by intros [= _ <-]|].
  destruct (mkdir_p _ _ _ _) as [[e|] d'] eqn:E; intros [= _ <-]; cbn;
    apply (mkdir_p_wf _ [] _ _ _ _ Hd eq_refl (resolve_names p) E).
Qed.

(** The first phase keeps the disk well formed. *)
Lemma provision_wf out dname s x s1 :
  wf_disk (disk s) = true ->
  provision out dname s = (Return x, s1) -> wf_disk (disk s1) = true.
Proof.
  intros Hd. unfold provision, setup_directories, bind, ret.
  cbn [fmap list_fmap snd for_each]. unfold bind, ret.
  destruct (os_makedirs _ s) as [[[]|e] sa] eqn:Ea; [|done].
  destruct (os_makedirs _ sa) as [[[]|e] sb] eqn:Eb; [|done].
  destruct (os_makedirs _ sb) as [[[]|e] sc] eqn:Ec; [|done].
  destruct (os_makedirs _ sc) as [[[]|e] sd] eqn:Ed; [|done].
  destruct (create_dataset_json _ _ _ _ sd) as [[r|e] se] eqn:Ee; [|done].
  intros [= _ <-].
  apply create_dataset_json_ok in Ee as (_ & -> & _). cbn [disk].
  apply wf_disk_insert; [|apply resolve_names].
  eauto using os_makedirs_wf.
Qed.

(** After [mkdir_p] returned, the path and every directory above it is a
    directory. *)
Lemma mkdir_p_prefixes name made todo d d' i :
  mkdir_p name made todo d = (None, d') ->
  0 < i <= length todo -> d' !! (made ++ take i todo) = Some Dir.
Proof.
  revert made d i. induction todo as [|c todo IH]; intros made d i; cbn; [lia|].
  intros Hm Hi. destruct i as [|i]; [lia|]. cbn [take].
  assert (exists d1, mkdir_p name (made ++ [c]) todo d1 = (None, d') /\
                     d1 !! (made ++ [c]) = Some Dir) as (d1 & Hm1 & Hd1).
  { destruct (d !! (made ++ [c])) as [[?|]|] eqn:E; [done|by eauto|].
    eexists. split; [exact Hm|]. by rewrite lookup_insert_eq. }
  destruct i as [|i].
  - rewrite take_0. by eapply mkdir_p_keeps.
  - rewrite (cons_middle c), (assoc_L (++)). apply (IH _ _ _ Hm1). cbn in Hi. lia.
Qed.

Lemma os_makedirs_prefixes p s s' i :
  os_makedirs p s = (Return tt, s') ->
  0 < i <= length (resolve p) -> disk s' !! take i (resolve p) = Some Dir.
Proof.
  unfold os_makedirs. destruct (String.eqb p ""); [done|].
  destruct (mkdir_p _ _ _ _) as [[e|] d'] eqn:E; intros [= <-] Hi; cbn.
  by apply (mkdir_p_prefixes _ [] _ _ _ _ E).
Qed.

Lemma os_makedirs_nonempty p s s' : os_makedirs p s = (Return tt, s') -> p <> "".
Proof.
  unfold os_makedirs. by destruct (String.eqb_spec p "") as [->|].
Qed.

Lemma set_disk_id s : set_disk (disk s) s = s.
Proof. by destruct s. Qed.

(** Directories that exist are accepted, and nothing changes. *)
Lemma os_makedirs_exists p s :
  p <> "" ->
  (forall i, 0 < i <= length (resolve p) -> disk s !! take i (resolve p) = Some Dir) ->
  os_makedirs p s = (Return tt, s).
Proof.
  intros Hp%String.eqb_neq Hd. unfold os_makedirs. rewrite Hp.
  rewrite mkdir_p_exists by done. by rewrite set_disk_id.
Qed.

Lemma elem_of_subdirs sub :
  sub ∈ ["imagesTr"; "labelsTr"; "imagesTs"] ->
  sub = "imagesTr" \/ sub = "labelsTr" \/ sub = "imagesTs".
Proof. rewrite !elem_of_cons, elem_of_nil. tauto. Qed.

Lemma simple_name_subdir sub :
  sub ∈ ["imagesTr"; "labelsTr"; "imagesTs"] -> simple_name sub = true.
Proof. by intros [->|[->| ->]]%elem_of_subdirs. Qed.

(** The first phase leaves the tree in place. *)
Lemma provision_tree_ready out dname s x s1 :
  provision out dname s = (Return x, s1) ->
  tree_ready (dataset_dir out dname) (disk s1).
Proof.
  unfold provision, setup_directories, bind, ret.
  cbn [fmap list_fmap snd for_each]. unfold bind, ret. fold (dataset_dir out dname).
  destruct (os_makedirs _ s) as [[[]|e] sa] eqn:Ea; [|done].
  destruct (os_makedirs _ sa) as [[[]|e] sb] eqn:Eb; [|done].
  destruct (os_makedirs _ sb) as [[[]|e] sc] eqn:Ec; [|done].
  destruct (os_makedirs _ sc) as [[[]|e] sd] eqn:Ed; [|done].
  destruct (create_dataset_json _ _ _ _ sd) as [[r|e] se] eqn:Ee; [|done].
  intros [= _ <-]. split; [by eapply os_makedirs_nonempty|].
  intros sub i Hsub Hi.
  apply create_dataset_json_ok in Ee as (_ & -> & _ & Hnd & _). cbn [disk].
  destruct (os_makedirs_grows _ _ _ _ Ec) as ([Gc _] & _).
  destruct (os_makedirs_grows _ _ _ _ Ed) as ([Gd _] & _).
  assert (disk sd !! take i (resolve (dataset_dir out dname) ++ [sub]) = Some Dir)
    as Hdir.
  { apply elem_of_subdirs in Hsub as [->|[->| ->]].
    - apply Gd, Gc. rewrite <- resolve_join_simple by done.
      apply (os_makedirs_prefixes _ _ _ _ Eb).
      rewrite resolve_join_simple, length_app by done. cbn. lia.
    - apply Gd. rewrite <- resolve_join_simple by done.
      apply (os_makedirs_prefixes _ _ _ _ Ec).
      rewrite resolve_join_simple, length_app by done. cbn. lia.
    - rewrite <- resolve_join_simple by done.
      apply (os_makedirs_prefixes _ _ _ _ Ed).
      rewrite resolve_join_simple, length_app by done. cbn. lia. }
  rewrite lookup_insert_ne; [done|]. intros E. rewrite <- E in Hdir.
  by apply (is_dir_not_dir _ _ Hnd).
Qed.

Lemma tree_ready_sub dd d sub :
  tree_ready dd d -> sub ∈ ["imagesTr"; "labelsTr"; "imagesTs"] ->
  d !! (resolve dd ++ [sub]) = Some Dir.
Proof.
  intros [_ Ht] Hsub. specialize (Ht sub (S (length (resolve dd))) Hsub).
  rewrite take_ge in Ht by (rewrite length_app; cbn; lia). apply Ht. lia.
Qed.

Lemma tree_ready_root dd d : tree_ready dd d -> is_dir d (resolve dd) = true.
Proof.
  intros [_ Ht]. unfold is_dir. destruct (resolve dd) as [|c k] eqn:E; [done|].
  specialize (Ht "imagesTr" (length (c :: k))).
  rewrite take_app_length in Ht. rewrite Ht; [done| |cbn; lia].
  rewrite !elem_of_cons. by left.
Qed.

Lemma tree_ready_keep dd d d' :
  tree_ready dd d -> (forall key, d !! key = Some Dir -> d' !! key = Some Dir) ->
  tree_ready dd d'.
Proof. intros [Hne Ht] Hk. split; [done|]. intros sub i Hsub Hi. by apply Hk, Ht. Qed.

Lemma create_dataset_json_succeeds dd dname s c :
  is_dir (disk s) (resolve dd) = true ->
  disk s !! resolve (json_path dd) = Some (File c) ->
  create_dataset_json dd ["CT"] [("0", "background"); ("1", "roi")] dname s =
    (Return (length (heap s)),
     {| disk := <[resolve (json_path dd) := File (Json (manifest_of dname 0))]> (disk s);
        heap := heap s ++ [manifest_of dname 0];
        stdout := stdout s |}).
Proof.
  intros Hd Hj. unfold create_dataset_json, json_dump_to, new_dict, deref, bind, ret.
  cbn [heap set_heap]. rewrite lookup_app_r, Nat.sub_diag by done.
  cbn [lookup list_lookup]. fold (json_path dd).
  rewrite write_file_succeeds.
  - reflexivity.
  - apply json_path_nonempty.
  - cbn [disk set_heap]. rewrite resolve_json_path in *.
    unfold is_dir. rewrite Hj. by destruct (resolve dd).
  - cbn [disk set_heap]. by rewrite resolve_json_path, parent_snoc.
Qed.

(** The first phase on a disk where the tree is in place and
    [dataset.json] is a file: the directories are accepted as they are and
    the file is replaced by the skeleton. *)
Lemma provision_again out dname s c :
  let dd := dataset_dir out dname in
  tree_ready dd (disk s) ->
  disk s !! resolve (json_path dd) = Some (File c) ->
  provision out dname s =
    (Return (dirs_of dd, length (heap s)),
     {| disk := <[resolve (json_path dd) := File (Json (manifest_of dname 0))]> (disk s);
        heap := heap s ++ [manifest_of dname 0];
        stdout := stdout s |}).
Proof.
  intros dd Ht Hj. pose proof Ht as [Hne Hdirs].
  assert (forall sub, sub ∈ ["imagesTr"; "labelsTr"; "imagesTs"] ->
            os_makedirs (os_path_join dd sub) s = (Return tt, s)) as Hsub.
  { intros sub Hin. pose proof (simple_name_subdir _ Hin) as Hs.
    apply os_makedirs_exists.
    - intros E%(f_equal resolve). rewrite resolve_join_simple in E by done.
      by destruct (resolve dd).
    - intros i Hi. rewrite resolve_join_simple in * by done.
      apply Hdirs; [done|]. rewrite length_app in Hi. cbn in Hi. lia. }
  unfold provision, setup_directories, bind, ret.
  cbn [fmap list_fmap snd for_each]. unfold bind, ret.
  change (os_path_join out dname) with dd.
  rewrite os_makedirs_exists; [|done|].
  - rewrite !Hsub by (rewrite !elem_of_cons; tauto).
    rewrite (create_dataset_json_succeeds dd dname s c); [done| |done].
    by apply tree_ready_root.
  - intros i Hi. specialize (Hdirs "imagesTr" i).
    rewrite take_app_le in Hdirs by lia. apply Hdirs; [|lia].
    rewrite !elem_of_cons. by left.
Qed.

(** A loop returns when each of its positions does. *)
Lemma for_each_enumerate_returns {A} (Inv : nat -> state -> Prop)
    (body : nat * A -> M unit) (l : list A) k s :
  (forall i x si, l !! i = Some x -> Inv (k + i) si ->
     exists si', body (k + i, x) si = (Return tt, si') /\ Inv (S (k + i)) si') ->
  Inv k s ->
  exists s', for_each (enumerate_from k l) body s = (Return tt, s') /\
             Inv (k + length l) s'.
Proof.
  revert k s. induction l as [|x l IH]; intros k s Hstep Hinv; cbn.
  - exists s. by rewrite Nat.add_0_r.
  - destruct (Hstep 0 x s) as (s1 & Hb & Hinv1); [done|by rewrite Nat.add_0_r|].
    rewrite Nat.add_0_r in Hb, Hinv1. unfold bind. rewrite Hb.
    destruct (IH (S k) s1) as (s' & Hl & Hinv'); [|done|].
    + intros i y si Hy. replace (S k + i) with (k + S i) by lia. by apply Hstep.
    + exists s'. split; [done|]. by replace (k + S (length l)) with (S k + length l) by lia.
Qed.

Section Rerun.
Context `{P : Platform}.

(** The names [get_file_list] returns are entries of the directory that
    end with the extension. *)
Lemma get_file_list_names directory extension s l n :
  (forall p l, scandir_order p l ≡ₚ l) ->
  get_file_list directory extension s = (Return l, s) -> n ∈ l ->
  is_dir (disk s) (resolve directory) = true /\
  is_Some (disk s !! (resolve directory ++ [n])) /\
  endswith (lower n) (lower extension) = true.
Proof.
  intros Hperm. rewrite get_file_list_eq.
  destruct (negb _) ; [|done]. cbn [andb].
  destruct (is_dir _ _); [|done]. intros [= <-].
  rewrite elem_of_sorted, list_elem_of_filter, Hperm, elem_of_children. tauto.
Qed.

(** [get_file_list] gives the same list on two disks on which the directory
    has the same entries with that extension. *)
Lemma get_file_list_ext directory extension s s' :
  (forall p l, scandir_order p l ≡ₚ l) ->
  is_dir (disk s) (resolve directory) = is_dir (disk s') (resolve directory) ->
  (forall n, endswith (lower n) (lower extension) = true ->
     is_Some (disk s !! (resolve directory ++ [n])) <->
     is_Some (disk s' !! (resolve directory ++ [n]))) ->
  outcome (get_file_list directory extension) s =
  outcome (get_file_list directory extension) s'.
Proof.
  intros Hperm Hd Hn. unfold outcome. rewrite !get_file_list_eq. cbn [fst].
  rewrite Hd. destruct (negb _ && _); [|done]. f_equal.
  apply sorted_proper. rewrite !Hperm.
  apply NoDup_Permutation; [apply NoDup_filter, NoDup_children..|].
  intros n. rewrite !list_elem_of_filter, !elem_of_children.
  split; intros [He Hs]; (split; [done|]); by apply (Hn n He).
Qed.

Lemma lookup_dir_is_dir (d : gmap (list string) node) k :
  d !! k = Some Dir -> is_dir d k = true.
Proof. intros Hk. unfold is_dir. rewrite Hk. by destruct k. Qed.

Lemma lookup_file_is_dir (d : gmap (list string) node) k c :
  k <> [] -> d !! k = Some (File c) -> is_dir d k = false.
Proof. intros Hne Hk. unfold is_dir. rewrite Hk. by destruct k. Qed.

(** Converting again a file whose conversion is already in place changes
    nothing. *)
Lemma convert_again src dst s c0 img c :
  disk s !! resolve src = Some (File c0) ->
  sitk_decode src c0 = Some img ->
  sitk_encode dst img = Some c ->
  resolve dst <> [] ->
  disk s !! resolve dst = Some (File c) ->
  is_dir (disk s) (parent (resolve dst)) = true ->
  convert_tif_to_nifti src dst s = (Return dst, s).
Proof.
  intros Hsrc Hd He Hne Hdst Hpar.
  rewrite (convert_tif_to_nifti_succeeds src dst s c0 img c); try done.
  - by rewrite insert_id, set_disk_id.
  - intros ->. by apply Hne.
  - by eapply lookup_file_is_dir.
Qed.

Lemma set_heap_id s h : heap s = h -> set_heap h s = s.
Proof. intros <-. by destruct s. Qed.

(** The loop on a disk where every conversion is already in place: it
    returns, and only the manifest in memory has changed. *)
Lemma convert_all_again a b dd dname data_files mask_files h0 s1 s2 h' st v :
  loop_inv a b dd dname data_files mask_files h0 s1 (length data_files) s2 ->
  length data_files = length mask_files ->
  (forall df, df ∈ data_files ->
     resolve (os_path_join a df) <> resolve (json_path dd) /\
     forall j, resolve (os_path_join a df) <> resolve (dst_data_path dd j) /\
               resolve (os_path_join a df) <> resolve (dst_mask_path dd j)) ->
  (forall mf, mf ∈ mask_files ->
     resolve (os_path_join b mf) <> resolve (json_path dd) /\
     forall j, resolve (os_path_join b mf) <> resolve (dst_data_path dd j) /\
               resolve (os_path_join b mf) <> resolve (dst_mask_path dd j)) ->
  tree_ready dd (disk st) ->
  disk st = <[resolve (json_path dd) := v]> (disk s2) ->
  heap st = h' ++ [manifest_in_progress dname 0] ->
  convert_all a b (dirs_of dd) (length h') data_files mask_files st =
    (Return tt, set_heap (h' ++ [manifest_in_progress dname (length data_files)]) st).
Proof.
  intros (_ & _ & Hfr & Hcv & _) Hlen Hda Hma Ht Hdisk Hheap.
  destruct (for_each_enumerate_returns
              (fun i x => x = set_heap (h' ++ [manifest_in_progress dname i]) st)
              (convert_case a b (dirs_of dd) (length h'))
              (zip data_files mask_files) 0 st) as (s' & Hloop & Hs').
  - intros i [df mf] si (x & y & [= <- <-] & Hdf & Hmf)%lookup_zip_with_Some ->.
    cbn [Nat.add].
    assert (i < length data_files) as Hi by by eapply lookup_lt_Some.
    destruct (Hcv i df mf Hi Hdf Hmf)
      as [(c0 & img & c & Hd & He & Hc & Ho) (c0' & img' & c' & Hd' & He' & Hc' & Ho')].
    destruct (Hda df) as [Hj1 Hs1]; [by eapply list_elem_of_lookup_2|].
    destruct (Hma mf) as [Hj2 Hs2]; [by eapply list_elem_of_lookup_2|].
    eexists. split; [|reflexivity].
    rewrite convert_case_eq. unfold bind.
    rewrite (convert_again _ _ _ c0 img c); cbn [disk set_heap]; try done.
    + rewrite (convert_again _ _ _ c0' img' c'); cbn [disk set_heap]; try done.
      * rewrite (update_last h' (manifest_in_progress dname i)) by done.
        by rewrite append_training_in_progress.
      * rewrite Hdisk, lookup_insert_ne by done.
        rewrite Hfr by (intros j _; apply Hs2). by apply Ho'.
      * rewrite resolve_dst_mask. by destruct (resolve dd).
      * rewrite Hdisk, lookup_insert_ne by apply json_dst_mask_ne. done.
      * rewrite resolve_dst_mask.
        change (resolve dd ++ ["labelsTr"; case_id i +:+ ".nii.gz"])
          with (resolve dd ++ ["labelsTr"] ++ [case_id i +:+ ".nii.gz"]).
        rewrite (assoc_L (++)), parent_snoc. apply lookup_dir_is_dir.
        apply tree_ready_sub; [done|]. rewrite !elem_of_cons. tauto.
    + rewrite Hdisk, lookup_insert_ne by done.
      rewrite Hfr by (intros j _; apply Hs1). by apply Ho.
    + rewrite resolve_dst_data. by destruct (resolve dd).
    + rewrite Hdisk, lookup_insert_ne by apply json_dst_data_ne. done.
    + rewrite resolve_dst_data.
      change (resolve dd ++ ["imagesTr"; case_id i +:+ "_0000.nii.gz"])
        with (resolve dd ++ ["imagesTr"] ++ [case_id i +:+ "_0000.nii.gz"]).
      rewrite (assoc_L (++)), parent_snoc. apply lookup_dir_is_dir.
      apply tree_ready_sub; [done|]. rewrite !elem_of_cons. tauto.
  - by rewrite set_heap_id.
  - unfold convert_all, enumerate. rewrite Hloop, Hs'. cbn [Nat.add].
    rewrite length_zip_with. by replace (length data_files `min` length mask_files)
      with (length data_files) by lia.
Qed.

Lemma outcome_eq_inv {A} (m : M A) s r s' : m s = (r, s') -> outcome m s = r.
Proof. unfold outcome. by intros ->. Qed.

Lemma get_file_list_is_dir directory extension s l :
  get_file_list directory extension s = (Return l, s) ->
  is_dir (disk s) (resolve directory) = true.
Proof.
  rewrite get_file_list_eq. destruct (negb _); [|done]. cbn [andb].
  by destruct (is_dir _ _).
Qed.

Lemma is_dir_keep (d d' : gmap (list string) node) k :
  (forall key, d !! key = Some Dir -> d' !! key = Some Dir) ->
  is_dir d k = true -> is_dir d' k = true.
Proof.
  intros Hk. unfold is_dir. destruct k as [|c k]; [done|].
  destruct (d !! (c :: k)) as [[?|]|] eqn:E; try done. by rewrite (Hk _ E).
Qed.

(** A listed [.tif] name is no destination of the loop, and it is not
    [dataset.json]. *)
Lemma tif_entry_not_destination dd (k : list string) n :
  endswith (lower n) (lower ".tif") = true ->
  k ++ [n] <> resolve (json_path dd) /\
  forall j, k ++ [n] <> resolve (dst_data_path dd j) /\
            k ++ [n] <> resolve (dst_mask_path dd j).
Proof.
  intros Hn. split; [|intros j; split].
  - rewrite resolve_json_path. intros [_ ->]%app_inj_tail. done.
  - rewrite resolve_dst_data.
    change (resolve dd ++ ["imagesTr"; case_id j +:+ "_0000.nii.gz"])
      with (resolve dd ++ ["imagesTr"] ++ [case_id j +:+ "_0000.nii.gz"]).
    rewrite (assoc_L (++)). intros [_ ->]%app_inj_tail.
    change "_0000.nii.gz" with ("_0000" +:+ ".nii.gz") in Hn.
    rewrite <- append_assoc in Hn. by rewrite nii_gz_not_tif in Hn.
  - rewrite resolve_dst_mask.
    change (resolve dd ++ ["labelsTr"; case_id j +:+ ".nii.gz"])
      with (resolve dd ++ ["labelsTr"] ++ [case_id j +:+ ".nii.gz"]).
    rewrite (assoc_L (++)). intros [_ ->]%app_inj_tail.
    by rewrite nii_gz_not_tif in Hn.
Qed.

(** On a well-formed disk the sources of the loop are no destinations. *)
Lemma source_not_destination directory dd s l n :
  (forall p l, scandir_order p l ≡ₚ l) ->
  wf_disk (disk s) = true ->
  get_file_list directory ".tif" s = (Return l, s) -> n ∈ l ->
  resolve (os_path_join directory n) <> resolve (json_path dd) /\
  forall j, resolve (os_path_join directory n) <> resolve (dst_data_path dd j) /\
            resolve (os_path_join directory n) <> resolve (dst_mask_path dd j).
Proof.
  intros Hperm Hwf Hl Hn.
  destruct (get_file_list_names _ _ _ _ _ Hperm Hl Hn) as (_ & [v Hv] & Hext).
  assert (simple_name n = true) as Hs.
  { apply (proj1 (wf_disk_spec _) Hwf) in Hv. rewrite forallb_app in Hv.
    apply andb_prop in Hv as [_ Hv]. cbn in Hv. by rewrite andb_true_r in Hv. }
  rewrite resolve_join_simple by done. by apply tif_entry_not_destination.
Qed.

(** C9.  On a well-formed disk, a run that returned can be run again with
    the same arguments on the state it left.  The second run returns too:
    the directories that exist are accepted, [dataset.json] and every
    destination file are written over, and the disk it leaves is the disk
    the first run left. *)
Theorem rerun_accepts_tree_and_overwrites a b out dname s :
  (forall p l, scandir_order p l ≡ₚ l) ->
  wf_disk (disk s) = true ->
  outcome (convert_to_nnunet_format a b out dname) s = Return tt ->
  outcome (convert_to_nnunet_format a b out dname)
          (after (convert_to_nnunet_format a b out dname) s) = Return tt /\
  disk (after (convert_to_nnunet_format a b out dname)
              (after (convert_to_nnunet_format a b out dname) s))
    = disk (after (convert_to_nnunet_format a b out dname) s).
Proof.
  intros Hperm Hwf Hrun%outcome_eq.
  set (s' := after (convert_to_nnunet_format a b out dname) s) in *.
  destruct (run_ok _ _ _ _ _ _ Hrun)
    as (s1 & data_files & mask_files & s2 & Hp & Ha & Hb & Hlen & Hinv & Hs').
  set (dd := dataset_dir out dname) in *.
  set (jk := resolve (json_path dd)) in *.
  set (N := length data_files) in *.
  pose proof (provision_wf _ _ _ _ _ Hwf Hp) as Hwf1.
  pose proof (provision_tree_ready _ _ _ _ _ Hp) as Ht1. fold dd in Ht1.
  pose proof (provision_tree _ _ _ _ _ Hp) as (Hj1 & _). fold dd jk in Hj1.
  pose proof Hinv as (_ & _ & Hfr & _ & Hdirs).
  assert (disk s2 !! jk = Some (File (Json (manifest_of dname 0)))) as Hj2.
  { rewrite Hfr; [done|]. intros j _.
    split; [apply json_dst_data_ne|apply json_dst_mask_ne]. }
  assert (forall v key, disk s2 !! key = Some Dir ->
            <[jk := File v]> (disk s2) !! key = Some Dir) as Hkeep.
  { intros v key Hkey. rewrite lookup_insert_ne; [done|]. intros <-. congruence. }
  assert (disk s' = <[jk := File (Json (manifest_of dname N))]> (disk s2)) as Hd'
    by by rewrite Hs'.
  assert (tree_ready dd (disk s')) as Ht'.
  { rewrite Hd'. eapply tree_ready_keep; [exact Ht1|]. intros key Hkey.
    by apply Hkeep, Hdirs. }
  assert (disk s' !! jk = Some (File (Json (manifest_of dname N)))) as Hj'
    by by rewrite Hd', lookup_insert_eq.
  pose proof (provision_again out dname s' _ Ht' Hj') as Hp'. fold dd jk in Hp'.
  set (s1' := {| disk := <[jk := File (Json (manifest_of dname 0))]> (disk s');
                 heap := heap s' ++ [manifest_of dname 0];
                 stdout := stdout s' |}) in *.
  assert (disk s1' = <[jk := File (Json (manifest_of dname 0))]> (disk s2)) as Hd1'.
  { cbn [s1' disk]. by rewrite Hd', insert_insert_eq. }
  assert (forall key, disk s1 !! key = Some Dir -> disk s1' !! key = Some Dir)
    as Hdirs1'.
  { intros key Hkey. rewrite Hd1'. by apply Hkeep, Hdirs. }
  assert (forall directory l,
            get_file_list directory ".tif" s1 = (Return l, s1) ->
            get_file_list directory ".tif" s1' = (Return l, s1')) as Hlist.
  { intros directory l Hl. apply get_file_list_outcome.
    rewrite <- (outcome_eq_inv _ _ _ _ Hl).
    apply get_file_list_ext; [done| |].
    - pose proof (get_file_list_is_dir _ _ _ _ Hl) as Hdir. rewrite Hdir.
      by apply (is_dir_keep _ _ _ Hdirs1').
    - intros n Hn.
      destruct (tif_entry_not_destination dd (resolve directory) n Hn) as [Hnj Hnd].
      fold jk in Hnj. rewrite Hd1', lookup_insert_ne by done.
      rewrite Hfr; [done|]. intros j _. apply Hnd. }
  pose proof (Hlist _ _ Ha) as Ha'. pose proof (Hlist _ _ Hb) as Hb'.
  assert (tree_ready dd (disk s1')) as Ht1'.
  { eapply tree_ready_keep; [exact Ht1|done]. }
  assert (convert_all a b (dirs_of dd) (length (heap s')) data_files mask_files s1'
          = (Return tt, set_heap (heap s' ++ [manifest_in_progress dname N]) s1'))
    as Hloop.
  { apply (convert_all_again a b dd dname data_files mask_files
             (heap s) s1 s2 (heap s') s1' (File (Json (manifest_of dname 0))));
      try done.
    - intros df Hdf. by eapply source_not_destination.
    - intros mf Hmf. by eapply source_not_destination. }
  assert (finalize dd (length (heap s')) N
            (set_heap (heap s' ++ [manifest_in_progress dname N]) s1')
          = (Return tt,
             {| disk := <[jk := File (Json (manifest_of dname N))]> (disk s1');
                heap := heap s' ++ [manifest_of dname N];
                stdout := stdout s1' ++
                  ["Dataset converted successfully to: " +:+ dd;
                   "Total training cases: " +:+ str N] |})) as Hfin.
  { rewrite (finalize_succeeds dd dname (heap s') N
               (set_heap (heap s' ++ [manifest_in_progress dname N]) s1')
               (Json (manifest_of dname 0))).
    - reflexivity.
    - done.
    - by apply tree_ready_root.
    - fold jk. cbn [set_heap disk]. cbn [disk] in Hd1'.
      by rewrite Hd1', lookup_insert_eq. }
  assert (convert_to_nnunet_format a b out dname s'
          = (Return tt,
             {| disk := <[jk := File (Json (manifest_of dname N))]> (disk s1');
                heap := heap s' ++ [manifest_of dname N];
                stdout := stdout s1' ++
                  ["Dataset converted successfully to: " +:+ dd;
                   "Total training cases: " +:+ str N] |})) as Hrun'.
  { rewrite run_phases. fold dd. rewrite Hp', Ha', Hb'. fold N.
    rewrite <- Hlen, Nat.eqb_refl. cbn [negb]. unfold bind.
    by rewrite Hloop, Hfin. }
  split.
  - unfold outcome. by rewrite Hrun'.
  - unfold after. rewrite Hrun'. cbn [snd disk].
    by rewrite Hd1', insert_insert_eq, Hd'.
Qed.

End Rerun.

Lemma rerun_accepts_tree_and_overwrites_witness :
  outcome (convert_to_nnunet_format (P := Demo.platform)
             "in/img" "in/msk" "out" default_dataset_name)
          (after (convert_to_nnunet_format (P := Demo.platform)
                    "in/img" "in/msk" "out" default_dataset_name) Demo.state0)
    = Return tt /\
  disk (after (convert_to_nnunet_format (P := Demo.platform)
                 "in/img" "in/msk" "out" default_dataset_name)
              (after (convert_to_nnunet_format (P := Demo.platform)
                        "in/img" "in/msk" "out" default_dataset_name) Demo.state0))
    = disk (after (convert_to_nnunet_format (P := Demo.platform)
                     "in/img" "in/msk" "out" default_dataset_name) Demo.state0).
Proof.
  apply (rerun_accepts_tree_and_overwrites (P := Demo.platform)
           "in/img" "in/msk" "out" default_dataset_name Demo.state0).
  - intros p l. apply reverse_Permutation.
  - reflexivity.
  - reflexivity.
Defined.

End Rerun.

(** * Further properties of the functions of the script *)

(** ** [create_dataset_json] *)

Module ManifestBuilder.
Import Py OS Script Layout PyFacts PathFacts NameFacts DiskFacts StepFacts LoopFacts.
Import Claims.

Implicit Types (s : state) (d : gmap (list string) node).

Lemma str_inj n n' : str n = str n' -> n = n'.
Proof.
  unfold str. intros E%(f_equal DecimalString.NilEmpty.uint_of_string).
  rewrite !DecimalString.NilEmpty.usu in E. injection E as E.
  by apply DecimalNat.Unsigned.to_uint_inj.
Qed.

Lemma enumerate_from_lookup {A} k (l : list A) i x :
  l !! i = Some x -> enumerate_from k l !! i = Some (k + i, x).
Proof.
  revert k i. induction l as [|y l IH]; intros k i; [done|].
  destruct i as [|i].
  - intros [= ->]. cbn. by rewrite Nat.add_0_r.
  - intros Hx. replace (k + S i) with (S k + i) by lia. exact (IH (S k) i Hx).
Qed.

Lemma length_enumerate_from {A} k (l : list A) :
  length (enumerate_from k l) = length l.
Proof.
  revert k. induction l as [|y l IH]; intros k; [done|].
  cbn [enumerate_from length]. by rewrite IH.
Qed.

Lemma modality_lookup k (names : list string) i n :
  names !! i = Some n ->
  ((fun im : nat * string => (str (fst im), snd im)) <$> enumerate_from k names) !! i
    = Some (str (k + i), n).
Proof.
  intros Hn. by rewrite list_lookup_fmap, (enumerate_from_lookup k names i n Hn).
Qed.

Lemma modality_keys k (names : list string) :
  fst <$> ((fun im : nat * string => (str (fst im), snd im)) <$> enumerate_from k names)
    = str <$> seq k (length names).
Proof.
  revert k. induction names as [|x names IH]; intros k; [done|].
  cbn. by rewrite IH.
Qed.

(** What [create_dataset_json] does when it returns, for any arguments. *)
Lemma create_dataset_json_inv output_dir names labels0 dname s r :
  outcome (create_dataset_json output_dir names labels0 dname) s = Return r ->
  let m := {| name := "ROI Dataset";
              description := "Converted ROI segmentation dataset";
              reference := "None"; licence := "None"; release := "1.0";
              tensorImageSize := "4D";
              modality := (fun im : nat * string => (str (fst im), snd im))
                            <$> enumerate names;
              labels := labels0; task := dname;
              numTraining := 0; numTest := 0; training := []; test := [] |} in
  r = length (heap s) /\
  after (create_dataset_json output_dir names labels0 dname) s =
    {| disk := <[resolve (os_path_join output_dir "dataset.json") := File (Json m)]>
                 (disk s);
       heap := heap s ++ [m];
       stdout := stdout s |}.
Proof.
  unfold outcome, after, create_dataset_json, json_dump_to, new_dict, deref, bind, ret.
  cbn [heap set_heap]. rewrite lookup_app_r, Nat.sub_diag by done.
  cbn [lookup list_lookup].
  destruct (write_file _ _ _) as [[[]|e] s1] eqn:E; [|done].
  cbn [fst snd]. intros [= <-]. split; [done|].
  by apply write_file_ok in E as (-> & _ & _).
Qed.

(** X1.  When [create_dataset_json] returns, the document in
    [<output_dir>/dataset.json] is the very dictionary it returns: labels
    and task as given, both counts zero, both lists empty.  Nothing else
    on the disk has changed and nothing was printed. *)
Theorem create_dataset_json_writes_what_it_returns output_dir names labels0 dname s r :
  outcome (create_dataset_json output_dir names labels0 dname) s = Return r ->
  exists m,
    r = length (heap s) /\
    heap (after (create_dataset_json output_dir names labels0 dname) s) !! r = Some m /\
    disk (after (create_dataset_json output_dir names labels0 dname) s)
      = <[resolve (os_path_join output_dir "dataset.json") := File (Json m)]> (disk s) /\
    stdout (after (create_dataset_json output_dir names labels0 dname) s) = stdout s /\
    labels m = labels0 /\ task m = dname /\
    numTraining m = 0 /\ numTest m = 0 /\ training m = [] /\ test m = [].
Proof.
  intros [-> Hs]%create_dataset_json_inv. rewrite Hs. eexists.
  split; [done|]. cbn [heap disk stdout].
  split; [by rewrite lookup_app_r, Nat.sub_diag|]. done.
Qed.

(** X2.  The modality map of the dictionary [create_dataset_json] returns
    has one entry for each modality name, in the order given, keyed by the
    decimal index of the name; the keys are pairwise different, so no
    name is lost. *)
Theorem modality_map_keeps_every_name output_dir names labels0 dname s r :
  outcome (create_dataset_json output_dir names labels0 dname) s = Return r ->
  exists m,
    heap (after (create_dataset_json output_dir names labels0 dname) s) !! r = Some m /\
    length (modality m) = length names /\
    (forall i n, names !! i = Some n -> modality m !! i = Some (str i, n)) /\
    NoDup (fst <$> modality m).
Proof.
  intros [-> Hs]%create_dataset_json_inv. rewrite Hs. eexists.
  cbn [heap]. split; [by rewrite lookup_app_r, Nat.sub_diag|].
  cbn [modality]. split; [|split].
  - unfold enumerate. by rewrite length_fmap, length_enumerate_from.
  - intros i n Hn. unfold enumerate. by rewrite (modality_lookup 0 names i n Hn).
  - unfold enumerate. rewrite modality_keys.
    assert (Inj (=) (=) str) as Hinj by (intros x y; apply str_inj).
    apply (NoDup_fmap_2 str), NoDup_seq.
Qed.

(** X3.  [create_dataset_json] does not create its output directory: where
    [output_dir] is no directory it raises an operating system error and
    leaves the disk as it was. *)
Theorem create_dataset_json_needs_directory output_dir names labels0 dname s :
  is_dir (disk s) (resolve output_dir) = false ->
  let path := os_path_join output_dir "dataset.json" in
  (outcome (create_dataset_json output_dir names labels0 dname) s
     = Raise (FileNotFoundError path) \/
   outcome (create_dataset_json output_dir names labels0 dname) s
     = Raise (NotADirectoryError path) \/
   outcome (create_dataset_json output_dir names labels0 dname) s
     = Raise (IsADirectoryError path)) /\
  disk (after (create_dataset_json output_dir names labels0 dname) s) = disk s /\
  stdout (after (create_dataset_json output_dir names labels0 dname) s) = stdout s.
Proof.
  intros Hd path. subst path.
  unfold outcome, after, create_dataset_json, json_dump_to, new_dict, deref, bind, ret.
  cbn [heap set_heap]. rewrite lookup_app_r, Nat.sub_diag by done.
  cbn [lookup list_lookup]. unfold write_file.
  fold (json_path output_dir).
  destruct (String.eqb_spec (json_path output_dir) "") as [E|_];
    [by apply json_path_nonempty in E|].
  cbn [disk set_heap]. rewrite resolve_json_path, parent_snoc, Hd.
  destruct (is_dir (disk s) (resolve output_dir ++ ["dataset.json"])); [by eauto|].
  destruct (disk s !! resolve output_dir); by eauto.
Qed.

Lemma create_dataset_json_writes_what_it_returns_witness :
  exists m,
    0 = length (heap Demo.state0) /\
    heap (after (create_dataset_json "in" ["CT"; "MR"] [("0", "bg")] "T") Demo.state0)
      !! 0 = Some m /\
    disk (after (create_dataset_json "in" ["CT"; "MR"] [("0", "bg")] "T") Demo.state0)
      = <[resolve (os_path_join "in" "dataset.json") := File (Json m)]>
          (disk Demo.state0) /\
    stdout (after (create_dataset_json "in" ["CT"; "MR"] [("0", "bg")] "T") Demo.state0)
      = stdout Demo.state0 /\
    labels m = [("0", "bg")] /\ task m = "T" /\
    numTraining m = 0 /\ numTest m = 0 /\ training m = [] /\ test m = [].
Proof.
  apply (create_dataset_json_writes_what_it_returns
           "in" ["CT"; "MR"] [("0", "bg")] "T" Demo.state0 0).
  reflexivity.
Defined.

Lemma modality_map_keeps_every_name_witness :
  exists m,
    heap (after (create_dataset_json "in" ["CT"; "MR"] [("0", "bg")] "T") Demo.state0)
      !! 0 = Some m /\
    length (modality m) = length ["CT"; "MR"] /\
    (forall i n, ["CT"; "MR"] !! i = Some n -> modality m !! i = Some (str i, n)) /\
    NoDup (fst <$> modality m).
Proof.
  apply (modality_map_keeps_every_name
           "in" ["CT"; "MR"] [("0", "bg")] "T" Demo.state0 0).
  reflexivity.
Defined.

Lemma create_dataset_json_needs_directory_witness :
  disk (after (create_dataset_json "in/nope" ["CT"] [("0", "bg")] "T") Demo.state0)
    = disk Demo.state0.
Proof.
  apply (create_dataset_json_needs_directory
           "in/nope" ["CT"] [("0", "bg")] "T" Demo.state0).
  reflexivity.
Defined.

End ManifestBuilder.

(** ** [setup_directories] *)

Module Provisioner.
Import Py OS Script Layout PyFacts PathFacts NameFacts DiskFacts StepFacts LoopFacts.
Import Claims Rerun.

Implicit Types (s : state) (d : gmap (list string) node).

(** The entries [mkdir_p] adds are the directories of its path. *)
Lemma mkdir_p_adds_where name made todo d r d' k v :
  mkdir_p name made todo d = (r, d') -> d' !! k = Some v ->
  d !! k = Some v \/
  exists i, 0 < i <= length todo /\ k = made ++ take i todo /\ v = Dir.
Proof.
  revert made d. induction todo as [|c todo IH]; intros made d; cbn.
  - intros [= _ <-]. by left.
  - assert (forall i, 0 < i <= length todo ->
              exists i', 0 < i' <= S (length todo) /\
                         (made ++ [c]) ++ take i todo = made ++ take i' (c :: todo))
      as Hshift.
    { intros i Hi. exists (S i). split; [lia|]. by rewrite <- (assoc_L (++)). }
    destruct (d !! (made ++ [c])) as [[?|]|] eqn:E.
    + intros [= _ <-]. by left.
    + intros Hm Hk. destruct (IH _ _ Hm Hk) as [?|(i & Hi & -> & ->)]; [by left|].
      right. destruct (Hshift i Hi) as (i' & Hi' & ->). eauto.
    + intros Hm Hk. destruct (IH _ _ Hm Hk) as [Hv|(i & Hi & -> & ->)].
      * destruct (decide (made ++ [c] = k)) as [<-|Hne].
        -- rewrite lookup_insert_eq in Hv. injection Hv as <-.
           right. exists 1. split; [lia|]. split; reflexivity.
        -- rewrite lookup_insert_ne in Hv by done. by left.
      * right. destruct (Hshift i Hi) as (i' & Hi' & ->). eauto.
Qed.

Lemma os_makedirs_adds_where p s r s' k v :
  os_makedirs p s = (r, s') -> disk s' !! k = Some v ->
  disk s !! k = Some v \/
  exists i, 0 < i <= length (resolve p) /\ k = take i (resolve p) /\ v = Dir.
Proof.
  unfold os_makedirs. destruct (String.eqb p ""); [intros [= _ <-]; by left|].
  destruct (mkdir_p _ _ _ _) as [[e|] d'] eqn:E; intros [= _ <-]; cbn;
    apply (mkdir_p_adds_where _ _ _ _ _ _ _ _ E).
Qed.

(** A file at the end of the path, below directories that exist, stops
    [mkdir_p] with nothing changed. *)
Lemma mkdir_p_blocked name made todo x d c :
  (forall i, 0 < i <= length todo -> d !! (made ++ take i todo) = Some Dir) ->
  d !! (made ++ todo ++ [x]) = Some (File c) ->
  mkdir_p name made (todo ++ [x]) d = (Some (FileExistsError name), d).
Proof.
  revert made. induction todo as [|y todo IH]; intros made Hd Hf; cbn.
  - cbn in Hf. by rewrite Hf.
  - assert (d !! (made ++ [y]) = Some Dir) as ->.
    { apply (Hd 1). cbn. lia. }
    apply IH.
    + intros i Hi. rewrite <- (assoc_L (++)). apply (Hd (S i)). cbn. lia.
    + by rewrite <- (assoc_L (++)).
Qed.

Lemma os_makedirs_blocked p s c :
  resolve p <> [] ->
  (forall i, 0 < i < length (resolve p) -> disk s !! take i (resolve p) = Some Dir) ->
  disk s !! resolve p = Some (File c) ->
  os_makedirs p s = (Raise (FileExistsError p), s).
Proof.
  intros Hne Hd Hf. unfold os_makedirs.
  destruct (String.eqb_spec p "") as [->|_]; [done|].
  destruct (resolve p) as [|y k] eqn:E using rev_ind; [done|]. clear IHk.
  rewrite (mkdir_p_blocked _ [] k y _ c).
  - by rewrite set_disk_id.
  - intros i Hi. specialize (Hd i). rewrite take_app_le in Hd by lia.
    apply Hd. rewrite length_app. cbn. lia.
  - done.
Qed.

Lemma join_subdir_resolve base sub :
  sub ∈ ["imagesTr"; "labelsTr"; "imagesTs"] ->
  resolve (os_path_join base sub) = resolve base ++ [sub].
Proof. intros Hs. by rewrite resolve_join_simple by by apply simple_name_subdir. Qed.

(** X4.  When [setup_directories] returns, its result maps the three roles
    to [<base>/imagesTr], [<base>/labelsTr] and [<base>/imagesTs], the
    three are directories, every entry that was on the disk is still
    there unchanged, and no file has appeared. *)
Theorem setup_directories_creates_tree base s dirs :
  outcome (setup_directories base) s = Return dirs ->
  dirs = [("imagesTr", os_path_join base "imagesTr");
          ("labelsTr", os_path_join base "labelsTr");
          ("imagesTs", os_path_join base "imagesTs")] /\
  (forall sub, sub ∈ ["imagesTr"; "labelsTr"; "imagesTs"] ->
     is_dir (disk (after (setup_directories base) s))
            (resolve (os_path_join base sub)) = true) /\
  (forall k v, disk s !! k = Some v ->
     disk (after (setup_directories base) s) !! k = Some v) /\
  (forall k c, disk (after (setup_directories base) s) !! k = Some (File c) ->
     disk s !! k = Some (File c)) /\
  heap (after (setup_directories base) s) = heap s /\
  stdout (after (setup_directories base) s) = stdout s.
Proof.
  intros (-> & [Hk Hg] & Hh & Ho & H1 & H2 & H3)%outcome_eq%setup_directories_ok.
  split; [done|]. split.
  { by intros sub [->|[->| ->]]%elem_of_subdirs. }
  split; [done|]. split; [|done].
  intros k c Hc. by destruct (Hg _ _ Hc) as [?|[_ ?]].
Qed.

(** X5.  [setup_directories] can be called again: on the state it left it
    returns the same result and changes nothing. *)
Theorem setup_directories_idempotent base s dirs :
  outcome (setup_directories base) s = Return dirs ->
  setup_directories base (after (setup_directories base) s)
    = (Return dirs, after (setup_directories base) s).
Proof.
  intros Hdirs. pose proof Hdirs as Hrun%outcome_eq.
  set (s' := after (setup_directories base) s) in *.
  pose proof Hrun as (-> & _)%setup_directories_ok.
  assert (forall sub, sub ∈ ["imagesTr"; "labelsTr"; "imagesTs"] ->
            os_makedirs (os_path_join base sub) s' = (Return tt, s')) as Hsub.
  { revert Hrun. unfold setup_directories. cbn [fmap list_fmap snd for_each].
    unfold bind, ret.
    destruct (os_makedirs _ s) as [[[]|e] s1] eqn:E1; [|done].
    destruct (os_makedirs _ s1) as [[[]|e] s2] eqn:E2; [|done].
    destruct (os_makedirs _ s2) as [[[]|e] s3] eqn:E3; [|done].
    intros [= <-].
    destruct (os_makedirs_grows _ _ _ _ E2) as ([G2 _] & _).
    destruct (os_makedirs_grows _ _ _ _ E3) as ([G3 _] & _).
    intros sub Hsub. apply os_makedirs_exists.
    - intros E%(f_equal resolve). rewrite join_subdir_resolve in E by done.
      by destruct (resolve base).
    - intros i Hi. apply elem_of_subdirs in Hsub as [->|[->| ->]].
      + by apply G3, G2, (os_makedirs_prefixes _ _ _ _ E1).
      + by apply G3, (os_makedirs_prefixes _ _ _ _ E2).
      + by apply (os_makedirs_prefixes _ _ _ _ E3). }
  unfold setup_directories. cbn [fmap list_fmap snd for_each]. unfold bind, ret.
  by rewrite !Hsub by (rewrite !elem_of_cons; tauto).
Qed.

(** X6.  [setup_directories] stops at the first directory it cannot
    create and undoes nothing: with a file at [<base>/labelsTr] it raises
    [FileExistsError] for that path in the state in which [imagesTr] was
    created, and [imagesTs] is not created. *)
Theorem setup_directories_stops_at_first_failure base s c :
  outcome (os_makedirs (os_path_join base "imagesTr")) s = Return tt ->
  disk s !! (resolve base ++ ["labelsTr"]) = Some (File c) ->
  outcome (setup_directories base) s
    = Raise (FileExistsError (os_path_join base "labelsTr")) /\
  after (setup_directories base) s
    = after (os_makedirs (os_path_join base "imagesTr")) s /\
  is_dir (disk (after (setup_directories base) s)) (resolve base ++ ["imagesTr"])
    = true /\
  disk (after (setup_directories base) s) !! (resolve base ++ ["imagesTs"])
    = disk s !! (resolve base ++ ["imagesTs"]).
Proof.
  intros E1%outcome_eq Hf.
  set (s1 := after (os_makedirs (os_path_join base "imagesTr")) s) in *.
  destruct (os_makedirs_grows _ _ _ _ E1) as ([G1 G1'] & _).
  assert (resolve (os_path_join base "imagesTr") = resolve base ++ ["imagesTr"]) as R1
    by by rewrite resolve_join_simple.
  assert (resolve (os_path_join base "labelsTr") = resolve base ++ ["labelsTr"]) as R2
    by by rewrite resolve_join_simple.
  assert (os_makedirs (os_path_join base "labelsTr") s1
          = (Raise (FileExistsError (os_path_join base "labelsTr")), s1)) as E2.
  { apply (os_makedirs_blocked _ _ c).
    - rewrite R2. by destruct (resolve base).
    - rewrite R2. intros i Hi. rewrite length_app in Hi. cbn in Hi.
      rewrite take_app_le by lia.
      pose proof (os_makedirs_prefixes _ _ _ i E1) as Hp. rewrite R1 in Hp.
      rewrite take_app_le in Hp by lia. apply Hp. rewrite length_app. cbn. lia.
    - rewrite R2. by apply G1. }
  assert (setup_directories base s
          = (Raise (FileExistsError (os_path_join base "labelsTr")), s1)) as Hrun.
  { unfold setup_directories. cbn [fmap list_fmap snd for_each]. unfold bind, ret.
    by rewrite E1, E2. }
  unfold outcome, after at 1 2 3. rewrite Hrun. cbn [fst snd].
  split; [done|]. split; [done|]. split.
  - rewrite <- R1. by apply (os_makedirs_is_dir _ _ _ E1).
  - destruct (disk s1 !! (resolve base ++ ["imagesTs"])) as [v|] eqn:Ev.
    + destruct (os_makedirs_adds_where _ _ _ _ _ _ E1 Ev) as [?|(i & Hi & Hk & _)];
        [done|].
      rewrite R1 in Hk, Hi. rewrite length_app in Hi. cbn in Hi.
      destruct (decide (i = S (length (resolve base)))) as [->|Hne].
      * rewrite take_ge in Hk by (rewrite length_app; cbn; lia).
        by apply (inj (app _)) in Hk.
      * apply (f_equal length) in Hk. rewrite length_take, !length_app in Hk.
        cbn in Hk. lia.
    + destruct (disk s !! (resolve base ++ ["imagesTs"])) as [v|] eqn:Ev'; [|done].
      apply G1 in Ev'. congruence.
Qed.

Lemma setup_directories_creates_tree_witness :
  [("imagesTr", os_path_join "out/T" "imagesTr");
   ("labelsTr", os_path_join "out/T" "labelsTr");
   ("imagesTs", os_path_join "out/T" "imagesTs")]
  = [("imagesTr", os_path_join "out/T" "imagesTr");
     ("labelsTr", os_path_join "out/T" "labelsTr");
     ("imagesTs", os_path_join "out/T" "imagesTs")] /\
  (forall sub, sub ∈ ["imagesTr"; "labelsTr"; "imagesTs"] ->
     is_dir (disk (after (setup_directories "out/T") Demo.state0))
            (resolve (os_path_join "out/T" sub)) = true) /\
  (forall k v, disk Demo.state0 !! k = Some v ->
     disk (after (setup_directories "out/T") Demo.state0) !! k = Some v) /\
  (forall k c, disk (after (setup_directories "out/T") Demo.state0) !! k = Some (File c) ->
     disk Demo.state0 !! k = Some (File c)) /\
  heap (after (setup_directories "out/T") Demo.state0) = heap Demo.state0 /\
  stdout (after (setup_directories "out/T") Demo.state0) = stdout Demo.state0.
Proof.
  apply (setup_directories_creates_tree "out/T" Demo.state0
           [("imagesTr", os_path_join "out/T" "imagesTr");
            ("labelsTr", os_path_join "out/T" "labelsTr");
            ("imagesTs", os_path_join "out/T" "imagesTs")]).
  reflexivity.
Defined.

Lemma setup_directories_idempotent_witness :
  setup_directories "out/T" (after (setup_directories "out/T") Demo.state0)
    = (Return [("imagesTr", os_path_join "out/T" "imagesTr");
               ("labelsTr", os_path_join "out/T" "labelsTr");
               ("imagesTs", os_path_join "out/T" "imagesTs")],
       after (setup_directories "out/T") Demo.state0).
Proof.
  apply (setup_directories_idempotent "out/T" Demo.state0).
  reflexivity.
Defined.

Lemma setup_directories_stops_at_first_failure_witness :
  outcome (setup_directories "base") Demo.state_labels_file
    = Raise (FileExistsError (os_path_join "base" "labelsTr")) /\
  after (setup_directories "base") Demo.state_labels_file
    = after (os_makedirs (os_path_join "base" "imagesTr")) Demo.state_labels_file.
Proof.
  destruct (setup_directories_stops_at_first_failure
              "base" Demo.state_labels_file (Bytes "in the way"))
    as (H1 & H2 & _).
  - reflexivity.
  - reflexivity.
  - split; [exact H1|exact H2].
Defined.

End Provisioner.

(** ** [get_file_list] and [convert_tif_to_nifti] *)

Module Leaves.
Import Py OS Script Layout PyFacts PathFacts NameFacts DiskFacts StepFacts LoopFacts.
Import Claims Rerun.

Section Leaves.
Context `{P : Platform}.

Implicit Types (s : state) (d : gmap (list string) node).

(** X7.  [get_file_list] does not tell directories from files: a
    subdirectory whose name ends with the extension is in the list. *)
Theorem get_file_list_lists_subdirectories directory extension s n :
  (forall p l, scandir_order p l ≡ₚ l) ->
  outcome (os_path_isdir directory) s = Return true ->
  disk s !! (resolve directory ++ [n]) = Some Dir ->
  endswith (lower n) (lower extension) = true ->
  exists l, outcome (get_file_list directory extension) s = Return l /\ n ∈ l.
Proof.
  intros Hperm Hdir Hn He. unfold outcome in *. rewrite get_file_list_eq.
  unfold os_path_isdir in Hdir. cbn [fst] in *. injection Hdir as ->.
  eexists. split; [done|].
  rewrite elem_of_sorted, list_elem_of_filter, Hperm, elem_of_children.
  split; [done|by eexists].
Qed.

(** X8.  With the empty extension [get_file_list] returns every entry of
    the directory. *)
Theorem get_file_list_empty_extension directory s :
  (forall p l, scandir_order p l ≡ₚ l) ->
  outcome (os_path_isdir directory) s = Return true ->
  exists l,
    outcome (get_file_list directory "") s = Return l /\
    length l = length (children (disk s) (resolve directory)) /\
    forall n, n ∈ l <-> is_Some (disk s !! (resolve directory ++ [n])).
Proof.
  intros Hperm Hdir. unfold outcome in *. rewrite get_file_list_eq.
  unfold os_path_isdir in Hdir. cbn [fst] in *. injection Hdir as ->.
  eexists. split; [done|].
  assert (forall l : list string,
            filter (fun f => endswith (lower f) (lower "") = true) l = l) as Hall.
  { intros l. induction l as [|x l IH]; [done|].
    rewrite filter_cons_True, IH; [done|].
    apply endswith_spec. exists (lower x). by rewrite append_nil_r. }
  rewrite Hall. split.
  - by rewrite length_sorted, Hperm.
  - intros n. by rewrite elem_of_sorted, Hperm, elem_of_children.
Qed.

(** X9.  When [convert_tif_to_nifti] returns, it returns the output path;
    the file at that path is the encoding of the image decoded from the
    source file, and nothing else has changed: no other path of the disk,
    not the heap, not the output. *)
Theorem convert_tif_to_nifti_result tif_path output_path s p :
  outcome (convert_tif_to_nifti tif_path output_path) s = Return p ->
  p = output_path /\
  exists c0 img c,
    disk s !! resolve tif_path = Some (File c0) /\
    sitk_decode tif_path c0 = Some img /\
    sitk_encode output_path img = Some c /\
    disk (after (convert_tif_to_nifti tif_path output_path) s)
      = <[resolve output_path := File c]> (disk s) /\
    heap (after (convert_tif_to_nifti tif_path output_path) s) = heap s /\
    stdout (after (convert_tif_to_nifti tif_path output_path) s) = stdout s.
Proof.
  intros Hrun%outcome_eq. split.
  - revert Hrun. unfold convert_tif_to_nifti, bind, ret.
    destruct (sitk_ReadImage _ _) as [[img|e] s1]; [|done].
    destruct (sitk_WriteImage _ _ _) as [[[]|e] s2]; [|done]. by intros [= <-].
  - apply convert_tif_to_nifti_ok in Hrun as (c0 & img & c & ? & ? & ? & -> & _).
    by exists c0, img, c.
Qed.

(** X10.  A conversion that fails raises a [RuntimeError] and has changed
    nothing: the source is read before anything is written, and a write
    that fails writes nothing. *)
Theorem convert_tif_to_nifti_failure_changes_nothing tif_path output_path s e :
  outcome (convert_tif_to_nifti tif_path output_path) s = Raise e ->
  (exists path, e = RuntimeError path) /\
  after (convert_tif_to_nifti tif_path output_path) s = s.
Proof.
  intros Hrun%outcome_eq.
  destruct (convert_tif_to_nifti_raise _ _ _ _ _ Hrun) as [Hs He]. done.
Qed.

(** X11.  [convert_tif_to_nifti] creates no directory: where the directory
    of the output path does not exist it raises a [RuntimeError] and
    leaves the state as it was. *)
Theorem convert_tif_to_nifti_needs_directory tif_path output_path s :
  is_dir (disk s) (parent (resolve output_path)) = false ->
  (exists path,
     outcome (convert_tif_to_nifti tif_path output_path) s = Raise (RuntimeError path)) /\
  after (convert_tif_to_nifti tif_path output_path) s = s.
Proof.
  intros Hd.
  destruct (outcome (convert_tif_to_nifti tif_path output_path) s) as [p|e] eqn:E.
  - apply outcome_eq, convert_tif_to_nifti_ok in E
      as (? & ? & ? & _ & _ & _ & _ & _ & _ & Hp). congruence.
  - apply outcome_eq in E.
    destruct (convert_tif_to_nifti_raise _ _ _ _ _ E) as [Hs [path ->]]. eauto.
Qed.

(** X12.  A file that is already at the output path is no error: it is
    replaced by the conversion (also when the output path is the source
    path itself). *)
Theorem convert_tif_to_nifti_overwrites tif_path output_path s c0 img c old :
  disk s !! resolve tif_path = Some (File c0) ->
  sitk_decode tif_path c0 = Some img ->
  sitk_encode output_path img = Some c ->
  resolve output_path <> [] ->
  disk s !! resolve output_path = Some (File old) ->
  is_dir (disk s) (parent (resolve output_path)) = true ->
  convert_tif_to_nifti tif_path output_path s
    = (Return output_path, set_disk (<[resolve output_path := File c]> (disk s)) s).
Proof.
  intros Hsrc Hd He Hne Hold Hpar.
  apply (convert_tif_to_nifti_succeeds _ _ _ c0 img c); try done.
  - intros ->. by apply Hne.
  - by eapply lookup_file_is_dir.
Qed.

End Leaves.

Lemma get_file_list_lists_subdirectories_witness :
  exists l,
    outcome (get_file_list (P := Demo.platform) "in" ".tif") Demo.state_subdir
      = Return l /\ "scans.tif" ∈ l.
Proof.
  apply (get_file_list_lists_subdirectories (P := Demo.platform)
           "in" ".tif" Demo.state_subdir "scans.tif").
  - intros p l. apply reverse_Permutation.
  - reflexivity.
  - reflexivity.
  - reflexivity.
Defined.

Lemma get_file_list_empty_extension_witness :
  exists l,
    outcome (get_file_list (P := Demo.platform) "in/img" "") Demo.state0 = Return l /\
    length l = length (children (disk Demo.state0) (resolve "in/img")) /\
    forall n, n ∈ l <-> is_Some (disk Demo.state0 !! (resolve "in/img" ++ [n])).
Proof.
  apply (get_file_list_empty_extension (P := Demo.platform) "in/img" Demo.state0).
  - intros p l. apply reverse_Permutation.
  - reflexivity.
Defined.

Lemma convert_tif_to_nifti_result_witness :
  "in/x.nii.gz" = "in/x.nii.gz" /\
  exists c0 img c,
    disk Demo.state0 !! resolve "in/img/a.TIF" = Some (File c0) /\
    sitk_decode (Platform := Demo.platform) "in/img/a.TIF" c0 = Some img /\
    sitk_encode (Platform := Demo.platform) "in/x.nii.gz" img = Some c /\
    disk (after (convert_tif_to_nifti (P := Demo.platform)
                   "in/img/a.TIF" "in/x.nii.gz") Demo.state0)
      = <[resolve "in/x.nii.gz" := File c]> (disk Demo.state0) /\
    heap (after (convert_tif_to_nifti (P := Demo.platform)
                   "in/img/a.TIF" "in/x.nii.gz") Demo.state0) = heap Demo.state0 /\
    stdout (after (convert_tif_to_nifti (P := Demo.platform)
                     "in/img/a.TIF" "in/x.nii.gz") Demo.state0) = stdout Demo.state0.
Proof.
  apply (convert_tif_to_nifti_result (P := Demo.platform)
           "in/img/a.TIF" "in/x.nii.gz" Demo.state0 "in/x.nii.gz").
  reflexivity.
Defined.

Lemma convert_tif_to_nifti_failure_changes_nothing_witness :
  (exists path, RuntimeError "in/img/notes.txt" = RuntimeError path) /\
  after (convert_tif_to_nifti (P := Demo.platform)
           "in/img/notes.txt" "in/x.nii.gz") Demo.state0 = Demo.state0.
Proof.
  apply (convert_tif_to_nifti_failure_changes_nothing (P := Demo.platform)
           "in/img/notes.txt" "in/x.nii.gz" Demo.state0).
  reflexivity.
Defined.

Lemma convert_tif_to_nifti_needs_directory_witness :
  (exists path,
     outcome (convert_tif_to_nifti (P := Demo.platform)
                "in/img/a.TIF" "out/x.nii.gz") Demo.state0
       = Raise (RuntimeError path)) /\
  after (convert_tif_to_nifti (P := Demo.platform)
           "in/img/a.TIF" "out/x.nii.gz") Demo.state0 = Demo.state0.
Proof.
  apply (convert_tif_to_nifti_needs_directory (P := Demo.platform)
           "in/img/a.TIF" "out/x.nii.gz" Demo.state0).
  reflexivity.
Defined.

Lemma convert_tif_to_nifti_overwrites_witness :
  convert_tif_to_nifti (P := Demo.platform) "in/img/a.TIF" "in/img/notes.txt" Demo.state0
    = (Return "in/img/notes.txt",
       set_disk (<[resolve "in/img/notes.txt" := File (Bytes "nii:II*a")]>
                   (disk Demo.state0)) Demo.state0).
Proof.
  apply (convert_tif_to_nifti_overwrites (P := Demo.platform)
           "in/img/a.TIF" "in/img/notes.txt" Demo.state0
           (Bytes "II*a") "II*a" (Bytes "nii:II*a") (Bytes "hello"));
    try reflexivity.
  discriminate.
Defined.

End Leaves.

(** ** [convert_to_nnunet_format] *)

Module Orchestrator.
Import Py OS Script Layout PyFacts PathFacts NameFacts DiskFacts StepFacts LoopFacts.
Import Claims Rerun Provisioner.

Section Orchestrator.
Context `{P : Platform}.

Implicit Types (s : state) (d : gmap (list string) node).

(** Nothing but the last phase prints. *)
Lemma write_file_stdout p c s r s' : write_file p c s = (r, s') -> stdout s' = stdout s.
Proof.
  destruct r as [[]|e].
  - by intros (-> & _)%write_file_ok.
  - by intros ->%write_file_raise.
Qed.

Lemma provision_stdout out dname s r s' :
  provision out dname s = (r, s') -> stdout s' = stdout s.
Proof.
  unfold provision, setup_directories, bind, ret.
  cbn [fmap list_fmap snd for_each]. unfold bind, ret.
  destruct (os_makedirs _ s) as [[[]|e] sa] eqn:Ea;
    [|intros [= _ <-]; by apply os_makedirs_grows in Ea as (_ & _ & ?)].
  destruct (os_makedirs _ sa) as [[[]|e] sb] eqn:Eb;
    [|intros [= _ <-]; apply os_makedirs_grows in Ea as (_ & _ & ?);
      apply os_makedirs_grows in Eb as (_ & _ & ?); congruence].
  destruct (os_makedirs _ sb) as [[[]|e] sc] eqn:Ec;
    [|intros [= _ <-]; apply os_makedirs_grows in Ea as (_ & _ & ?);
      apply os_makedirs_grows in Eb as (_ & _ & ?);
      apply os_makedirs_grows in Ec as (_ & _ & ?); congruence].
  destruct (os_makedirs _ sc) as [[[]|e] sd] eqn:Ed;
    [|intros [= _ <-]; apply os_makedirs_grows in Ea as (_ & _ & ?);
      apply os_makedirs_grows in Eb as (_ & _ & ?);
      apply os_makedirs_grows in Ec as (_ & _ & ?);
      apply os_makedirs_grows in Ed as (_ & _ & ?); congruence].
  apply os_makedirs_grows in Ea as (_ & _ & Ha).
  apply os_makedirs_grows in Eb as (_ & _ & Hb).
  apply os_makedirs_grows in Ec as (_ & _ & Hc).
  apply os_makedirs_grows in Ed as (_ & _ & Hd).
  unfold create_dataset_json, json_dump_to, new_dict, deref, bind, ret.
  cbn [heap set_heap]. rewrite lookup_app_r, Nat.sub_diag by done.
  cbn [lookup list_lookup].
  destruct (write_file _ _ _) as [[[]|e] se] eqn:Ee; intros [= _ <-];
    apply write_file_stdout in Ee; cbn [stdout set_heap] in Ee; congruence.
Qed.

Lemma convert_tif_to_nifti_stdout src dst s r s' :
  convert_tif_to_nifti src dst s = (r, s') -> stdout s' = stdout s.
Proof.
  destruct r as [p|e].
  - by intros (? & ? & ? & _ & _ & _ & -> & _)%convert_tif_to_nifti_ok.
  - by intros [-> _]%convert_tif_to_nifti_raise.
Qed.

Lemma update_stdout r f s x s' : update r f s = (x, s') -> stdout s' = stdout s.
Proof. unfold update. by destruct (heap s !! r); intros [= _ <-]. Qed.

Lemma convert_case_stdout a b dd r item s x s' :
  convert_case a b (dirs_of dd) r item s = (x, s') -> stdout s' = stdout s.
Proof.
  destruct item as [i [df mf]]. rewrite convert_case_eq. unfold bind.
  destruct (convert_tif_to_nifti _ _ s) as [[p1|e1] sa] eqn:E1;
    [|intros [= _ <-]; by eapply convert_tif_to_nifti_stdout].
  destruct (convert_tif_to_nifti _ _ sa) as [[p2|e2] sb] eqn:E2;
    [|intros [= _ <-]; apply convert_tif_to_nifti_stdout in E1, E2; congruence].
  intros Hu%update_stdout. apply convert_tif_to_nifti_stdout in E1, E2. congruence.
Qed.

(** What every round of a loop keeps, the loop keeps, however it ends. *)
Lemma for_each_keeps {A B} (f : state -> B) (body : A -> M unit) (l : list A) s x s' :
  (forall y t r t', y ∈ l -> body y t = (r, t') -> f t' = f t) ->
  for_each l body s = (x, s') -> f s' = f s.
Proof.
  revert s. induction l as [|y l IH]; intros s Hbody; cbn.
  - by intros [= _ <-].
  - unfold bind. destruct (body y s) as [[[]|e] s1] eqn:E.
    + intros Hl%IH; [|intros; eapply Hbody; [by right|done]].
      apply Hbody in E; [|by left]. congruence.
    + intros [= _ <-]. eapply Hbody; [by left|done].
Qed.

Lemma finalize_raise_stdout dd r n s e s' :
  finalize dd r n s = (Raise e, s') -> stdout s' = stdout s.
Proof.
  unfold finalize, json_dump_to, deref, print, bind.
  destruct (update r _ s) as [[[]|e1] s1] eqn:E1;
    [|intros [= _ <-]; by eapply update_stdout].
  apply update_stdout in E1.
  destruct (heap s1 !! r) as [m|]; [|intros [= _ <-]; done].
  destruct (write_file _ _ s1) as [[[]|e2] s2] eqn:E2; [done|].
  intros [= _ <-]. apply write_file_stdout in E2. congruence.
Qed.

(** X13.  A run that returns has printed two lines, after whatever was
    printed before: the dataset directory, and the number of training
    cases, which is the [numTraining] of the manifest it wrote. *)
Theorem run_prints_summary a b out dname s :
  outcome (convert_to_nnunet_format a b out dname) s = Return tt ->
  exists m,
    disk (after (convert_to_nnunet_format a b out dname) s)
      !! resolve (json_path (dataset_dir out dname)) = Some (File (Json m)) /\
    stdout (after (convert_to_nnunet_format a b out dname) s)
      = stdout s ++ ["Dataset converted successfully to: " +:+ os_path_join out dname;
                     "Total training cases: " +:+ str (numTraining m)].
Proof.
  intros (s1 & data_files & mask_files & s2 & _ & _ & _ & _ & _ & Hs')%outcome_eq%run_ok.
  rewrite Hs'. cbn [disk stdout]. eexists. split; [by rewrite lookup_insert_eq|done].
Qed.

(** X14.  A run that raises has printed nothing. *)
Theorem failed_run_prints_nothing a b out dname s e :
  outcome (convert_to_nnunet_format a b out dname) s = Raise e ->
  stdout (after (convert_to_nnunet_format a b out dname) s) = stdout s.
Proof.
  unfold outcome, after. rewrite run_phases.
  destruct (provision out dname s) as [[[dirs r]|e1] s1] eqn:Ep;
    [|intros _; by eapply provision_stdout].
  pose proof (provision_stdout _ _ _ _ _ Ep) as H1.
  destruct (provision_ok _ _ _ _ _ Ep) as (d & _ & [= -> ->] & Hs1 & _).
  rewrite !get_file_list_eq.
  destruct (negb (String.eqb a "") && _); [|done].
  destruct (negb (String.eqb b "") && _); [|done].
  destruct (negb (_ =? _)); [done|].
  unfold bind. destruct (convert_all _ _ _ _ _ _ s1) as [[[]|e2] s2] eqn:El.
  - assert (stdout s2 = stdout s1) as H2.
    { eapply (for_each_keeps stdout); [|exact El]. intros y t x t' _.
      apply convert_case_stdout. }
    destruct (finalize _ _ _ s2) as [[[]|e3] s3] eqn:Ef; [done|].
    intros _. apply finalize_raise_stdout in Ef. cbn [snd]. congruence.
  - intros _. cbn [snd].
    assert (stdout s2 = stdout s1) as H2; [|congruence].
    eapply (for_each_keeps stdout); [|exact El]. intros y t x t' _.
    apply convert_case_stdout.
Qed.

(** X15.  If the mask directory does not exist once the output tree has
    been provisioned and the images were listed, the run aborts with the
    missing-directory error that names the mask directory, in the state
    the provisioning left. *)
Theorem missing_mask_dir_aborts_after_provisioning a b out dname s x data_files :
  outcome (provision out dname) s = Return x ->
  outcome (get_file_list a ".tif") (after (provision out dname) s) = Return data_files ->
  outcome (os_path_isdir b) (after (provision out dname) s) = Return false ->
  convert_to_nnunet_format a b out dname s
    = (Raise (FileNotFoundError ("Directory not found: " +:+ b)),
       after (provision out dname) s).
Proof.
  intros Hp%outcome_eq Ha%get_file_list_outcome Hdir.
  rewrite run_phases, Hp. destruct x as [dirs r]. rewrite Ha.
  rewrite get_file_list_eq. unfold outcome, os_path_isdir in Hdir. cbn in Hdir.
  injection Hdir as ->. done.
Qed.

(** X16.  A dataset name that starts with ["/"] is taken as the dataset
    directory itself: the output base directory is not used at all. *)
Theorem absolute_dataset_name_ignores_base a b out out' dname s :
  startswith dname "/" = true ->
  dataset_dir out dname = dname /\
  convert_to_nnunet_format a b out dname s
  = convert_to_nnunet_format a b out' dname s.
Proof.
  intros Habs. split; [by apply join_absolute|].
  unfold convert_to_nnunet_format.
  by rewrite !(join_absolute _ dname Habs).
Qed.

(** What is written is written at the destination. *)
Lemma write_file_keeps p c s r s' key :
  write_file p c s = (r, s') -> key <> resolve p -> disk s' !! key = disk s !! key.
Proof.
  destruct r as [[]|e].
  - intros (-> & _)%write_file_ok Hne. cbn. by rewrite lookup_insert_ne.
  - by intros ->%write_file_raise.
Qed.

Lemma convert_tif_to_nifti_keeps src dst s r s' key :
  convert_tif_to_nifti src dst s = (r, s') -> key <> resolve dst ->
  disk s' !! key = disk s !! key.
Proof.
  destruct r as [p|e].
  - intros (? & ? & ? & _ & _ & _ & -> & _)%convert_tif_to_nifti_ok Hne.
    cbn. by rewrite lookup_insert_ne.
  - by intros [-> _]%convert_tif_to_nifti_raise.
Qed.

Lemma update_disk r f s x s' : update r f s = (x, s') -> disk s' = disk s.
Proof. unfold update. by destruct (heap s !! r); intros [= _ <-]. Qed.

Lemma convert_case_keeps a b dd r i files s x s' key :
  convert_case a b (dirs_of dd) r (i, files) s = (x, s') ->
  key <> resolve (dst_data_path dd i) -> key <> resolve (dst_mask_path dd i) ->
  disk s' !! key = disk s !! key.
Proof.
  destruct files as [df mf]. rewrite convert_case_eq. unfold bind.
  intros Hrun Hd Hm.
  destruct (convert_tif_to_nifti _ _ s) as [[p1|e1] sa] eqn:E1.
  2:{ injection Hrun as _ <-. by eapply convert_tif_to_nifti_keeps. }
  apply (convert_tif_to_nifti_keeps _ _ _ _ _ key) in E1; [|done].
  destruct (convert_tif_to_nifti _ _ sa) as [[p2|e2] sb] eqn:E2.
  2:{ injection Hrun as _ <-. rewrite <- E1. by eapply convert_tif_to_nifti_keeps. }
  apply (convert_tif_to_nifti_keeps _ _ _ _ _ key) in E2; [|done].
  apply update_disk in Hrun. congruence.
Qed.

Lemma finalize_keeps dd r n s x s' key :
  finalize dd r n s = (x, s') -> key <> resolve (json_path dd) ->
  disk s' !! key = disk s !! key.
Proof.
  unfold finalize, json_dump_to, deref, print, bind. intros Hrun Hne.
  destruct (update r _ s) as [[[]|e1] s1] eqn:E1.
  2:{ injection Hrun as _ <-. by rewrite (update_disk _ _ _ _ _ E1). }
  apply update_disk in E1. rewrite <- E1.
  destruct (heap s1 !! r) as [m|]; [|by injection Hrun as _ <-].
  destruct (write_file _ _ s1) as [[[]|e2] s2] eqn:E2;
    injection Hrun as _ <-; by apply (write_file_keeps _ _ _ _ _ key) in E2.
Qed.

Lemma provision_keeps out dname s r s1 key v :
  provision out dname s = (r, s1) ->
  disk s !! key = Some v -> key <> resolve (json_path (dataset_dir out dname)) ->
  disk s1 !! key = Some v.
Proof.
  unfold provision, setup_directories, dataset_dir, bind, ret.
  cbn [fmap list_fmap snd for_each]. unfold bind, ret.
  set (dd := os_path_join out dname). intros Hrun Hk Hne.
  destruct (os_makedirs dd s) as [[[]|e] sa] eqn:Ea;
    apply os_makedirs_grows in Ea as ([Ga _] & _); apply Ga in Hk;
    [|by injection Hrun as _ <-].
  destruct (os_makedirs _ sa) as [[[]|e] sb] eqn:Eb;
    apply os_makedirs_grows in Eb as ([Gb _] & _); apply Gb in Hk;
    [|by injection Hrun as _ <-].
  destruct (os_makedirs _ sb) as [[[]|e] sc] eqn:Ec;
    apply os_makedirs_grows in Ec as ([Gc _] & _); apply Gc in Hk;
    [|by injection Hrun as _ <-].
  destruct (os_makedirs _ sc) as [[[]|e] sd] eqn:Ed;
    apply os_makedirs_grows in Ed as ([Gd _] & _); apply Gd in Hk;
    [|by injection Hrun as _ <-].
  revert Hrun.
  unfold create_dataset_json, json_dump_to, new_dict, deref, bind, ret.
  cbn [heap set_heap]. rewrite lookup_app_r, Nat.sub_diag by done.
  cbn [lookup list_lookup].
  destruct (write_file _ _ _) as [[[]|e] se] eqn:Ee; intros [= _ <-];
    apply (write_file_keeps _ _ _ _ _ key) in Ee; try done;
    by rewrite Ee.
Qed.

(** The run writes to [dataset.json] and to the destinations of the
    cases, and removes nothing. *)
Lemma run_frame a b out dname s key v :
  disk s !! key = Some v ->
  key <> resolve (json_path (dataset_dir out dname)) ->
  (forall j, key <> resolve (dst_data_path (dataset_dir out dname) j) /\
             key <> resolve (dst_mask_path (dataset_dir out dname) j)) ->
  disk (after (convert_to_nnunet_format a b out dname) s) !! key = Some v.
Proof.
  intros Hkey Hj Hd. unfold after. rewrite run_phases.
  destruct (provision out dname s) as [[[dirs r]|e1] s1] eqn:Ep;
    pose proof (provision_keeps _ _ _ _ _ _ _ Ep Hkey Hj) as H1; [|done].
  destruct (provision_ok _ _ _ _ _ Ep) as (d & _ & [= -> ->] & _).
  rewrite !get_file_list_eq.
  destruct (negb (String.eqb a "") && _); [|done].
  destruct (negb (String.eqb b "") && _); [|done].
  destruct (negb (_ =? _)); [done|].
  unfold bind. destruct (convert_all _ _ _ _ _ _ s1) as [[[]|e2] s2] eqn:El.
  - assert (disk s2 !! key = disk s1 !! key) as H2.
    { eapply (for_each_keeps (fun t => disk t !! key)); [|exact El].
      intros [i files] t x t' _ Hc. destruct (Hd i).
      by apply (convert_case_keeps _ _ _ _ _ _ _ _ _ _ Hc). }
    destruct (finalize _ _ _ s2) as [x s3] eqn:Ef.
    apply (finalize_keeps _ _ _ _ _ _ key) in Ef; [|done]. cbn [snd]. congruence.
  - cbn [snd].
    assert (disk s2 !! key = disk s1 !! key) as H2; [|congruence].
    eapply (for_each_keeps (fun t => disk t !! key)); [|exact El].
    intros [i files] t x t' _ Hc. destruct (Hd i).
      by apply (convert_case_keeps _ _ _ _ _ _ _ _ _ _ Hc).
Qed.

(** X17.  However the run ends, every entry that was on the disk is still
    there as it was, except [dataset.json] and the destination files of
    the cases: the run deletes nothing and overwrites nothing else. *)
Theorem run_keeps_other_entries a b out dname s key v :
  disk s !! key = Some v ->
  key <> resolve (json_path (dataset_dir out dname)) ->
  (forall j, key <> resolve (dst_data_path (dataset_dir out dname) j) /\
             key <> resolve (dst_mask_path (dataset_dir out dname) j)) ->
  disk (after (convert_to_nnunet_format a b out dname) s) !! key = Some v.
Proof. apply run_frame. Qed.

(** X18.  The run does not touch its inputs, however it ends: every
    [.tif] entry of a directory is on the disk afterwards as it was
    before. *)
Theorem run_keeps_tif_entries a b out dname s directory n v :
  disk s !! (resolve directory ++ [n]) = Some v ->
  endswith (lower n) (lower ".tif") = true ->
  disk (after (convert_to_nnunet_format a b out dname) s)
    !! (resolve directory ++ [n]) = Some v.
Proof.
  intros Hn Hext.
  destruct (tif_entry_not_destination (dataset_dir out dname) (resolve directory) n Hext)
    as [Hj Hd].
  by apply run_frame.
Qed.

(** What the first phase adds lies no deeper than the children of the
    dataset directory. *)
Lemma provision_adds_where out dname s x s1 k v :
  provision out dname s = (Return x, s1) -> disk s1 !! k = Some v ->
  disk s !! k = Some v \/ length k <= S (length (resolve (dataset_dir out dname))).
Proof.
  unfold provision, setup_directories, dataset_dir, bind, ret.
  cbn [fmap list_fmap snd for_each]. unfold bind, ret.
  set (dd := os_path_join out dname).
  destruct (os_makedirs dd s) as [[[]|e] sa] eqn:Ea; [|done].
  destruct (os_makedirs _ sa) as [[[]|e] sb] eqn:Eb; [|done].
  destruct (os_makedirs _ sb) as [[[]|e] sc] eqn:Ec; [|done].
  destruct (os_makedirs _ sc) as [[[]|e] sd] eqn:Ed; [|done].
  destruct (create_dataset_json _ _ _ _ sd) as [[r|e] se] eqn:Ee; [|done].
  intros [= _ <-] Hk.
  apply create_dataset_json_ok in Ee as (_ & -> & _). cbn [disk] in Hk.
  destruct (decide (k = resolve (json_path dd))) as [->|Hne].
  { right. rewrite resolve_json_path, length_app. cbn. lia. }
  rewrite lookup_insert_ne in Hk by done.
  assert (forall sub i, sub ∈ ["imagesTr"; "labelsTr"; "imagesTs"] ->
            i <= length (resolve (os_path_join dd sub)) ->
            length (take i (resolve (os_path_join dd sub))) <= S (length (resolve dd)))
    as Hlen.
  { intros sub i Hsub Hi. rewrite join_subdir_resolve in * by done.
    rewrite length_take, length_app. cbn. lia. }
  destruct (os_makedirs_adds_where _ _ _ _ _ _ Ed Hk) as [Hc|(i & Hi & Hki & _)];
    [|right; rewrite Hki; apply Hlen; [rewrite !elem_of_cons; tauto|lia]].
  destruct (os_makedirs_adds_where _ _ _ _ _ _ Ec Hc) as [Hb|(i & Hi & Hki & _)];
    [|right; rewrite Hki; apply Hlen; [rewrite !elem_of_cons; tauto|lia]].
  destruct (os_makedirs_adds_where _ _ _ _ _ _ Eb Hb) as [Ha|(i & Hi & Hki & _)];
    [|right; rewrite Hki; apply Hlen; [rewrite !elem_of_cons; tauto|lia]].
  destruct (os_makedirs_adds_where _ _ _ _ _ _ Ea Ha) as [?|(i & Hi & Hki & _)];
    [by left|right].
  rewrite Hki, length_take. lia.
Qed.

(** X19.  A run that returns leaves [imagesTs] a directory and puts
    nothing into it: whatever lies below it, at any depth, is as it was
    before the run; an [imagesTs] that was empty or absent is empty. *)
Theorem run_leaves_imagesTs_alone a b out dname s :
  outcome (convert_to_nnunet_format a b out dname) s = Return tt ->
  is_dir (disk (after (convert_to_nnunet_format a b out dname) s))
         (resolve (dataset_dir out dname) ++ ["imagesTs"]) = true /\
  forall n rest,
    disk (after (convert_to_nnunet_format a b out dname) s)
      !! (resolve (dataset_dir out dname) ++ "imagesTs" :: n :: rest)
    = disk s !! (resolve (dataset_dir out dname) ++ "imagesTs" :: n :: rest).
Proof.
  intros (s1 & data_files & mask_files & s2 & Hp & _ & _ & _ & Hinv & Hs')%outcome_eq%run_ok.
  destruct (provision_ok _ _ _ _ _ Hp) as (d & [Hg _] & _ & Hs1 & _ & _ & _ & _ & _ & H3).
  destruct Hinv as (_ & _ & Hfr & _ & Hdirs).
  set (dd := dataset_dir out dname) in *.
  rewrite Hs'. cbn [disk]. split.
  - rewrite resolve_join_simple in H3 by done.
    assert (resolve dd ++ ["imagesTs"] <> []) as Hne by by destruct (resolve dd).
    apply is_dir_lookup; [done|]. apply is_dir_lookup in H3; [|done].
    rewrite lookup_insert_ne
      by (rewrite resolve_json_path; by intros [=]%(inj (app (resolve dd)))).
    apply Hdirs. rewrite Hs1. cbn [disk].
    rewrite lookup_insert_ne
      by (rewrite resolve_json_path; by intros [=]%(inj (app (resolve dd)))).
    done.
  - intros n rest. set (key := resolve dd ++ "imagesTs" :: n :: rest).
    assert (key <> resolve (json_path dd)) as Hj.
    { rewrite resolve_json_path. by intros [=]%(inj (app (resolve dd))). }
    rewrite lookup_insert_ne by done.
    rewrite Hfr.
    2:{ intros j _. rewrite resolve_dst_data, resolve_dst_mask.
        split; by intros [=]%(inj (app (resolve dd))). }
    destruct (disk s1 !! key) as [v|] eqn:E1.
    + destruct (provision_adds_where _ _ _ _ _ _ _ Hp E1) as [?|Hlen]; [done|].
      exfalso. unfold key in Hlen. rewrite length_app in Hlen. cbn in Hlen.
      fold dd in Hlen. lia.
    + destruct (disk s !! key) as [v|] eqn:E0; [|done].
      apply Hg in E0. rewrite Hs1 in E1. cbn [disk] in E1.
      rewrite lookup_insert_ne in E1 by done. congruence.
Qed.

(** X20.  If the path of the dataset directory is taken by a file, the
    run raises [FileExistsError] for that path at its first statement:
    nothing is created, written or printed. *)
Theorem dataset_dir_taken_by_file a b out dname s c :
  (forall i, 0 < i < length (resolve (dataset_dir out dname)) ->
             disk s !! take i (resolve (dataset_dir out dname)) = Some Dir) ->
  disk s !! resolve (dataset_dir out dname) = Some (File c) ->
  resolve (dataset_dir out dname) <> [] ->
  convert_to_nnunet_format a b out dname s
    = (Raise (FileExistsError (os_path_join out dname)), s).
Proof.
  unfold dataset_dir. intros Hd Hf Hne. rewrite run_phases. unfold provision, bind.
  by rewrite (os_makedirs_blocked _ _ c Hne Hd Hf).
Qed.

End Orchestrator.

Lemma run_prints_summary_witness :
  exists m,
    disk (after (convert_to_nnunet_format (P := Demo.platform)
                   "in/img" "in/msk" "out" default_dataset_name) Demo.state0)
      !! resolve (json_path (dataset_dir "out" default_dataset_name))
      = Some (File (Json m)) /\
    stdout (after (convert_to_nnunet_format (P := Demo.platform)
                     "in/img" "in/msk" "out" default_dataset_name) Demo.state0)
      = stdout Demo.state0
        ++ ["Dataset converted successfully to: "
              +:+ os_path_join "out" default_dataset_name;
            "Total training cases: " +:+ str (numTraining m)].
Proof.
  apply (run_prints_summary (P := Demo.platform)
           "in/img" "in/msk" "out" default_dataset_name Demo.state0).
  reflexivity.
Defined.

Lemma failed_run_prints_nothing_witness :
  stdout (after (convert_to_nnunet_format (P := Demo.platform)
                   "in/img" "in/msk" "out" default_dataset_name) Demo.state_broken)
  = stdout Demo.state_broken.
Proof.
  apply (failed_run_prints_nothing (P := Demo.platform)
           "in/img" "in/msk" "out" default_dataset_name Demo.state_broken
           (RuntimeError "in/img/b.tif")).
  reflexivity.
Defined.

Lemma missing_mask_dir_aborts_after_provisioning_witness :
  convert_to_nnunet_format (P := Demo.platform)
      "in/img" "in/msk" "out" default_dataset_name Demo.state_no_masks
    = (Raise (FileNotFoundError ("Directory not found: " +:+ "in/msk")),
       after (provision "out" default_dataset_name) Demo.state_no_masks).
Proof.
  apply (missing_mask_dir_aborts_after_provisioning (P := Demo.platform)
           "in/img" "in/msk" "out" default_dataset_name Demo.state_no_masks
           (dirs_of (dataset_dir "out" default_dataset_name), 0)
           ["a.TIF"; "b.tif"]).
  - reflexivity.
  - reflexivity.
  - reflexivity.
Defined.

Lemma absolute_dataset_name_ignores_base_witness :
  dataset_dir "out" "/data/Task002" = "/data/Task002" /\
  convert_to_nnunet_format (P := Demo.platform)
      "in/img" "in/msk" "out" "/data/Task002" Demo.state0
  = convert_to_nnunet_format (P := Demo.platform)
      "in/img" "in/msk" "elsewhere" "/data/Task002" Demo.state0.
Proof.
  apply (absolute_dataset_name_ignores_base (P := Demo.platform)).
  reflexivity.
Defined.

Lemma run_keeps_other_entries_witness :
  disk (after (convert_to_nnunet_format (P := Demo.platform)
                 "in/img" "in/msk" "out" default_dataset_name) Demo.state_broken)
    !! ["in"; "img"; "notes.txt"] = Some (File (Bytes "hello")).
Proof.
  assert (resolve (dataset_dir "out" default_dataset_name)
          = ["out"; "Task001_ROISegmentation"]) as Hdd by reflexivity.
  apply (run_keeps_other_entries (P := Demo.platform)
           "in/img" "in/msk" "out" default_dataset_name Demo.state_broken).
  - reflexivity.
  - rewrite resolve_json_path, Hdd. discriminate.
  - intros j. rewrite resolve_dst_data, resolve_dst_mask, Hdd. split; discriminate.
Defined.

Lemma run_keeps_tif_entries_witness :
  disk (after (convert_to_nnunet_format (P := Demo.platform)
                 "in/img" "in/msk" "out" default_dataset_name) Demo.state0)
    !! (resolve "in/img" ++ ["b.tif"]) = Some (File (Bytes "II*b")).
Proof.
  apply (run_keeps_tif_entries (P := Demo.platform)
           "in/img" "in/msk" "out" default_dataset_name Demo.state0).
  - reflexivity.
  - reflexivity.
Defined.

Lemma run_leaves_imagesTs_alone_witness :
  is_dir (disk (after (convert_to_nnunet_format (P := Demo.platform)
                         "in/img" "in/msk" "out" default_dataset_name) Demo.state0))
         (resolve (dataset_dir "out" default_dataset_name) ++ ["imagesTs"]) = true /\
  forall n rest,
    disk (after (convert_to_nnunet_format (P := Demo.platform)
                   "in/img" "in/msk" "out" default_dataset_name) Demo.state0)
      !! (resolve (dataset_dir "out" default_dataset_name) ++ "imagesTs" :: n :: rest)
    = disk Demo.state0
      !! (resolve (dataset_dir "out" default_dataset_name) ++ "imagesTs" :: n :: rest).
Proof.
  apply (run_leaves_imagesTs_alone (P := Demo.platform)
           "in/img" "in/msk" "out" default_dataset_name Demo.state0).
  reflexivity.
Defined.

Lemma dataset_dir_taken_by_file_witness :
  convert_to_nnunet_format (P := Demo.platform)
      "in/img" "in/msk" "out" default_dataset_name Demo.state_blocked
    = (Raise (FileExistsError (os_path_join "out" default_dataset_name)),
       Demo.state_blocked).
Proof.
  apply (dataset_dir_taken_by_file (P := Demo.platform)
           "in/img" "in/msk" "out" default_dataset_name Demo.state_blocked
           (Bytes "in the way")).
  - intros i Hi.
    assert (i = 1) as -> by (change (length _) with 2 in Hi; lia). reflexivity.
  - reflexivity.
  - discriminate.
Defined.

End Orchestrator.
